(** * clearvirus: the dashboard bot of [main.py], embedded in Rocq

    The bot lets one owner browse and edit a Firebase tree through Telegram
    buttons and free-text replies.  This development embeds

    - the values the Firebase client returns (strings, numbers, mappings),
    - the Python string primitives the handlers call,
    - the tree store behind [FirebaseClient],
    - [_parse_device_datetime], the date grouping and the pagination of the
      devices screen,
    - [_build_device_detail_view], [list_command], [dashboard_callback] and
      [device_message_handler],
    - the commands [/start], [/dashboard], [/set], [/get] and [/delete],
    - [_load_env_file] and [Settings.from_env],

    and proves properties of the navigation and pending-edit engine.

    Conventions.  A Python [str] is a Rocq [string]; one character stands for
    one code point below 256, and the classification functions ([isspace],
    [isdigit], [lower]) follow Python on that range.  The decorative prefixes
    of labels and headings are kept byte for byte as they are in the source
    file; the program never measures or inspects them.  A Python [dict] is an
    association list in insertion order, looked up at its first match. *)

From Stdlib Require Import List String Ascii ZArith Lia Bool Arith.
From Stdlib Require Import DecimalString DecimalPos Sorted Permutation.
Import ListNotations.
Open Scope string_scope.

(** ** Values of the tree *)

(** What [ref.get()] yields below a path: a string, a number or a mapping.
    An absent node is [None]. *)
#[warnings="-register-all"]
Inductive node : Type :=
| NStr (s : string)
| NNum (z : Z)
| NDict (kvs : list (string * node)).

Definition dict := list (string * node).

Inductive py_exn : Type :=
| PyAttributeError
| PyValueError
| PyKeyError
| PyIndexError
| PyUnboundLocalError.

(** The value of a computation, or the exception it raised. *)
Inductive res (A : Type) : Type :=
| Done (a : A)
| Raised (e : py_exn).
Arguments Done {A} a.
Arguments Raised {A} e.

(** ** Python primitives *)

Module Py.

Definition nl : string := String "010"%char "".

(** [d.get(k)] on a mapping. *)
Fixpoint lookup (k : string) (d : dict) : option node :=
  match d with
  | [] => None
  | (k', v) :: d' => if String.eqb k' k then Some v else lookup k d'
  end.

(** [d[k] = v]: an existing key keeps its place, a new key goes last. *)
Fixpoint update (k : string) (v : node) (d : dict) : dict :=
  match d with
  | [] => [(k, v)]
  | (k', v') :: d' =>
      if String.eqb k' k then (k', v) :: d' else (k', v') :: update k v d'
  end.

(** Truth value of a node: empty string, zero and the empty mapping are
    false. *)
Definition truthy (n : node) : bool :=
  match n with
  | NStr s => negb (String.eqb s "")
  | NNum z => negb (Z.eqb z 0)
  | NDict kvs => match kvs with [] => false | _ :: _ => true end
  end.

(** [x or y] where [x] may be [None]. *)
Definition or_else (x : option node) (y : node) : node :=
  match x with
  | Some n => if truthy n then n else y
  | None => y
  end.

(** [a or b] where both may be [None]: the first truthy one, else [b]. *)
Definition or_opt (x y : option node) : option node :=
  match x with
  | Some n => if truthy n then Some n else y
  | None => y
  end.

(** [not x] for an optional node: [None] is false too. *)
Definition falsy (x : option node) : bool :=
  match x with
  | Some n => negb (truthy n)
  | None => true
  end.

Definition str_of_nat (n : nat) : string :=
  NilEmpty.string_of_uint (Nat.to_uint n).

Definition str_of_Z (z : Z) : string :=
  NilEmpty.string_of_int (Z.to_int z).

Definition isspace (c : ascii) : bool :=
  let n := nat_of_ascii c in
  (((9 <=? n) && (n <=? 13)) || ((28 <=? n) && (n <=? 32))
  || (n =? 133) || (n =? 160))%nat.

Definition isdecimal (c : ascii) : bool :=
  let n := nat_of_ascii c in ((48 <=? n) && (n <=? 57))%nat.

(** [str.isdigit] also accepts the superscripts 1, 2, 3 of Latin-1. *)
Definition isdigit_char (c : ascii) : bool :=
  let n := nat_of_ascii c in
  isdecimal c || (n =? 178)%nat || (n =? 179)%nat || (n =? 185)%nat.

Fixpoint all_chars (p : ascii -> bool) (s : string) : bool :=
  match s with
  | EmptyString => true
  | String c r => p c && all_chars p r
  end.

(** [s.isdigit()]: non-empty and every character a digit. *)
Definition isdigit (s : string) : bool :=
  negb (String.eqb s "") && all_chars isdigit_char s.

Fixpoint lstrip (s : string) : string :=
  match s with
  | EmptyString => EmptyString
  | String c r => if isspace c then lstrip r else s
  end.

Fixpoint rstrip (s : string) : string :=
  match s with
  | EmptyString => EmptyString
  | String c r =>
      match rstrip r with
      | EmptyString => if isspace c then EmptyString else String c EmptyString
      | r' => String c r'
      end
  end.

(** [s.strip()] *)
Definition strip (s : string) : string := rstrip (lstrip s).

Definition lower_char (c : ascii) : ascii :=
  let n := nat_of_ascii c in
  if (((65 <=? n) && (n <=? 90))
      || ((192 <=? n) && (n <=? 222) && negb (n =? 215)))%nat
  then ascii_of_nat (n + 32) else c.

(** [s.lower()] *)
Fixpoint lower (s : string) : string :=
  match s with
  | EmptyString => EmptyString
  | String c r => String (lower_char c) (lower r)
  end.

Definition digit_val (c : ascii) : Z := Z.of_nat (nat_of_ascii c) - 48.

Fixpoint decimal_value (acc : Z) (s : string) : Z :=
  match s with
  | EmptyString => acc
  | String c r => decimal_value (10 * acc + digit_val c) r
  end.

(** [int(s)] on a string that passed [isdigit]: a superscript digit is not
    a decimal literal, and more than 4300 digits exceed the interpreter's
    default conversion limit; both raise [ValueError]. *)
Definition int_of_digits (s : string) : res Z :=
  if all_chars isdecimal s && (String.length s <=? 4300)%nat
  then Done (decimal_value 0 s) else Raised PyValueError.

(** [s.startswith(p)] *)
Fixpoint startswith (s p : string) {struct p} : bool :=
  match p with
  | EmptyString => true
  | String b p' =>
      match s with
      | EmptyString => false
      | String a s' => Ascii.eqb a b && startswith s' p'
      end
  end.

(** [s[:n]] *)
Definition take (n : nat) (s : string) : string := String.substring 0 n s.

(** [s.partition(sep)] without the separator; [None] when [sep] is absent. *)
Fixpoint partition_at (sep : ascii) (s : string) : option (string * string) :=
  match s with
  | EmptyString => None
  | String c r =>
      if Ascii.eqb c sep then Some (EmptyString, r)
      else match partition_at sep r with
           | Some (a, b) => Some (String c a, b)
           | None => None
           end
  end.

(** [s.split(sep, maxsplit)] for a one-character separator. *)
Fixpoint split (sep : ascii) (maxsplit : nat) (s : string) : list string :=
  match maxsplit with
  | O => [s]
  | S m =>
      match partition_at sep s with
      | Some (a, b) => a :: split sep m b
      | None => [s]
      end
  end.

(** [s.split(sep)] without a bound. *)
Fixpoint split_all (sep : ascii) (s : string) : list string :=
  match s with
  | EmptyString => [EmptyString]
  | String c r =>
      if Ascii.eqb c sep then EmptyString :: split_all sep r
      else match split_all sep r with
           | h :: t => String c h :: t
           | [] => [String c EmptyString]
           end
  end.

(** [sep.join(parts)] *)
Fixpoint join (sep : string) (parts : list string) : string :=
  match parts with
  | [] => EmptyString
  | [p] => p
  | p :: ps => p ++ sep ++ join sep ps
  end.

(** [x in l] for strings. *)
Fixpoint mem (x : string) (l : list string) : bool :=
  match l with
  | [] => false
  | y :: l' => String.eqb y x || mem x l'
  end.

(** [l.index(x)]: position of the first occurrence. *)
Fixpoint index (x : string) (l : list string) : option nat :=
  match l with
  | [] => None
  | y :: l' =>
      if String.eqb y x then Some O
      else match index x l' with Some i => Some (S i) | None => None end
  end.

(** [c not in s] *)
Definition no_char (c : ascii) (s : string) : bool :=
  all_chars (fun x => negb (Ascii.eqb x c)) s.

End Py.

(** ** The tree store behind [FirebaseClient]

    Modelled from the spec: the Firebase client library that
    [FirebaseClient] wraps is not part of the repository.  The store is the
    Tree Store Adapter of the design: a tree of mappings from names to
    nodes, read and written at paths whose segments are joined by ["/"]
    (as in [app123/perangkat/dev7/suara]); a read of an absent path yields
    [None], and a write sets the leaf, creating the mappings on its way. *)

Module Store.

Definition store := dict.

Definition children (n : node) : dict :=
  match n with
  | NDict kvs => kvs
  | _ => []
  end.

(** The segments of a path; empty segments do not count. *)
Definition parse_path (path : string) : list string :=
  filter (fun seg => negb (String.eqb seg "")) (Py.split_all "/" path).

Fixpoint node_get (segs : list string) (n : node) : option node :=
  match segs with
  | [] => Some n
  | k :: r =>
      match n with
      | NDict kvs =>
          match Py.lookup k kvs with
          | Some c => node_get r c
          | None => None
          end
      | _ => None
      end
  end.

Definition child_or_empty (k : string) (n : node) : node :=
  match Py.lookup k (children n) with
  | Some c => c
  | None => NDict []
  end.

Fixpoint node_set (segs : list string) (v : node) (n : node) : node :=
  match segs with
  | [] => v
  | k :: r =>
      NDict (Py.update k (node_set r v (child_or_empty k n)) (children n))
  end.

(** The node below a path, the empty mapping when there is none. *)
Definition sub (segs : list string) (n : node) : node :=
  match node_get segs n with
  | Some m => m
  | None => NDict []
  end.

(** A key of the tree: one path segment. *)
Definition is_segment (s : string) : bool :=
  negb (String.eqb s "") && Py.no_char "/" s.

(** [FirebaseClient.get_value] *)
Definition get_value (key : string) (db : store) : option node :=
  node_get (parse_path key) (NDict db).

(** [FirebaseClient.set_value]; every path the handlers write ends in a
    field name, so the root itself is never replaced. *)
Definition set_value (key : string) (value : node) (db : store) : store :=
  children (node_set (parse_path key) value (NDict db)).

(** [FirebaseClient.list_keys] *)
Definition list_keys (db : store) : dict := db.

End Store.

(** ** Dates and times *)

Module Datetime.

Record datetime : Type := mk
  { year : Z; month : Z; day : Z; hour : Z; minute : Z; second : Z }.

Definition date : Type := (Z * Z * Z)%type.

(** [datetime.min] *)
Definition min : datetime := mk 1 1 1 0 0 0.

(** [datetime.min.date()] *)
Definition date_min : date := (1, 1, 1)%Z.

Definition date_of (dt : datetime) : date := (year dt, month dt, day dt).

Definition eqb (a b : datetime) : bool :=
  (year a =? year b)%Z && (month a =? month b)%Z && (day a =? day b)%Z
  && (hour a =? hour b)%Z && (minute a =? minute b)%Z
  && (second a =? second b)%Z.

(** Lexicographic comparison of a list of fields, most significant first. *)
Fixpoint lex_leb (a b : list Z) : bool :=
  match a, b with
  | x :: a', y :: b' => (x <? y)%Z || ((x =? y)%Z && lex_leb a' b')
  | [], _ => true
  | _ :: _, [] => false
  end.

Definition fields (dt : datetime) : list Z :=
  [year dt; month dt; day dt; hour dt; minute dt; second dt].

(** [a <= b] on datetimes. *)
Definition leb (a b : datetime) : bool := lex_leb (fields a) (fields b).

(** [a <= b] on dates. *)
Definition date_leb (a b : date) : bool :=
  let '(ya, ma, da) := a in
  let '(yb, mb, db) := b in
  lex_leb [ya; ma; da] [yb; mb; db].

Definition is_leap (y : Z) : bool :=
  ((y mod 4 =? 0) && (negb (y mod 100 =? 0) || (y mod 400 =? 0)))%Z.

Definition days_in_month (y m : Z) : Z :=
  if (m =? 2)%Z then (if is_leap y then 29 else 28)%Z
  else if ((m =? 4) || (m =? 6) || (m =? 9) || (m =? 11))%Z then 30%Z
  else 31%Z.

(** What the [date] constructor accepts. *)
Definition valid_date (d : date) : bool :=
  let '(y, m, dd) := d in
  ((1 <=? y) && (y <=? 9999) && (1 <=? m) && (m <=? 12)
   && (1 <=? dd) && (dd <=? days_in_month y m))%Z.

Definition digit (c : ascii) : option Z :=
  if Py.isdecimal c then Some (Py.digit_val c) else None.

Definition in_range (lo hi : Z) (o : option Z) : option Z :=
  match o with
  | Some v => if ((lo <=? v) && (v <=? hi))%Z then Some v else None
  | None => None
  end.

Definition num1 (t : string) : option Z :=
  match t with
  | String a EmptyString => digit a
  | _ => None
  end.

Definition num2 (t : string) : option Z :=
  match t with
  | String a (String b EmptyString) =>
      match digit a, digit b with
      | Some x, Some y => Some (10 * x + y)%Z
      | _, _ => None
      end
  | _ => None
  end.

Definition first_some (a b : option Z) : option Z :=
  match a with
  | Some v => Some v
  | None => b
  end.

(** The directives of [strptime], each on the whole of its token: one or two
    digits within the directive's range; [%d] also takes a space and a
    digit. *)
Definition tok_d (t : string) : option Z :=
  first_some (in_range 1 9 (num1 t))
    (first_some (in_range 1 31 (num2 t))
       match t with
       | String " " (String b EmptyString) => in_range 1 9 (digit b)
       | _ => None
       end).

Definition tok_m (t : string) : option Z :=
  first_some (in_range 1 9 (num1 t)) (in_range 1 12 (num2 t)).

Definition tok_H (t : string) : option Z :=
  first_some (num1 t) (in_range 0 23 (num2 t)).

Definition tok_M (t : string) : option Z :=
  first_some (num1 t) (in_range 0 59 (num2 t)).

Definition tok_S (t : string) : option Z :=
  first_some (num1 t) (in_range 0 61 (num2 t)).

(** [%Y]: exactly four digits. *)
Definition tok_Y (a b c d : ascii) : option Z :=
  match digit a, digit b, digit c, digit d with
  | Some w, Some x, Some y, Some z => Some (1000 * w + 100 * x + 10 * y + z)%Z
  | _, _, _, _ => None
  end.

(** [datetime.strptime(value, "%d/%m/%Y %H:%M:%S")]; [None] stands for the
    [ValueError] of a mismatch, of text left over or of a field out of
    range.  The blank of the format takes one or more white-space characters. *)
Definition strptime_dmY_HMS (value : string) : option datetime :=
  match Py.partition_at "/" value with
  | Some (td, r1) =>
    match Py.partition_at "/" r1 with
    | Some (tm, String y1 (String y2 (String y3 (String y4 (String w r3))))) =>
      if Py.isspace w then
        match Py.partition_at ":" (Py.lstrip r3) with
        | Some (tH, r4) =>
          match Py.partition_at ":" r4 with
          | Some (tM, tS) =>
            match tok_d td, tok_m tm, tok_Y y1 y2 y3 y4,
                  tok_H tH, tok_M tM, tok_S tS with
            | Some d, Some m, Some y, Some hh, Some mi, Some ss =>
                if valid_date (y, m, d) && (ss <=? 59)%Z
                then Some (mk y m d hh mi ss) else None
            | _, _, _, _, _, _ => None
            end
          | None => None
          end
        | None => None
        end
      else None
    | _ => None
    end
  | None => None
  end.

(** [datetime.strptime(date_key, "%Y-%m-%d").date()] *)
Definition strptime_Ymd (date_key : string) : option date :=
  match date_key with
  | String y1 (String y2 (String y3 (String y4 (String "-" r)))) =>
    match Py.partition_at "-" r with
    | Some (tm, td) =>
      match tok_Y y1 y2 y3 y4, tok_m tm, tok_d td with
      | Some y, Some m, Some d =>
          if valid_date (y, m, d) then Some (y, m, d) else None
      | _, _, _ => None
      end
    | None => None
    end
  | _ => None
  end.

Definition digit_char (z : Z) : ascii := ascii_of_nat (48 + Z.to_nat z).

Definition two_digits (z : Z) : string :=
  String (digit_char (z / 10)) (String (digit_char (z mod 10)) EmptyString).

Definition four_digits (z : Z) : string :=
  String (digit_char (z / 1000))
    (String (digit_char ((z / 100) mod 10)) (two_digits (z mod 100))).

(** [dt.strftime("%Y-%m-%d")].  The C library decides how [%Y] prints a
    year below 1000: in four digits ([zero_pad_year = true]) or as the bare
    number, as glibc does. *)
Definition strftime_Ymd (zero_pad_year : bool) (dt : datetime) : string :=
  (if zero_pad_year then four_digits (year dt) else Py.str_of_Z (year dt))
  ++ "-" ++ two_digits (month dt) ++ "-" ++ two_digits (day dt).

End Datetime.

(** ** Telegram side: keyboards, outbound calls and the handler monad *)

Definition button : Type := (string * string)%type.
Definition keyboard : Type := list (list button).

(** [InlineKeyboardButton(label, callback_data=...)] *)
Definition InlineKeyboardButton (label callback_data : string) : button :=
  (label, callback_data).

(** The two entries of [context.user_data] the bot uses. *)
Record device_target : Type := DeviceTarget
  { dt_app_key : string; dt_device_id : string }.

Record app_target : Type := AppTarget
  { at_app_key : string; at_field : string }.

Record pending : Type := Pending
  { device_message_target : option device_target;
    app_edit_target : option app_target }.

(** What a handler does to the outside, in order. *)
Inductive effect : Type :=
| Answer
| EditMessageText (text : string) (reply_markup : option keyboard)
| ReplyText (text : string) (reply_markup : option keyboard)
| SetValue (key : string) (value : node).

Record world : Type := World
  { db : Store.store; user_data : pending; log : list effect }.

Definition M (A : Type) : Type := world -> res A * world.

Definition ret {A : Type} (a : A) : M A := fun w => (Done a, w).

Definition bind {A B : Type} (m : M A) (k : A -> M B) : M B :=
  fun w =>
    match m w with
    | (Done a, w') => k a w'
    | (Raised e, w') => (Raised e, w')
    end.

Definition raise {A : Type} (e : py_exn) : M A := fun w => (Raised e, w).

Declare Scope bot_scope.
Delimit Scope bot_scope with bot.
Notation "x <- m ;; k" := (bind m (fun x => k))
  (at level 61, m at next level, right associativity) : bot_scope.
Notation "m ;; k" := (bind m (fun _ => k))
  (at level 61, right associativity) : bot_scope.
Notation "' pat <- m ;; k" := (bind m (fun x => match x with pat => k end))
  (at level 61, pat pattern, m at next level, right associativity) : bot_scope.

Definition lift {A : Type} (f : Store.store -> res A) : M A :=
  fun w => (f (db w), w).

Definition emit (e : effect) : M unit :=
  fun w => (Done tt, World (db w) (user_data w) (log w ++ [e])%list).

Definition get_value (key : string) : M (option node) :=
  fun w => (Done (Store.get_value key (db w)), w).

Definition list_keys : M dict :=
  fun w => (Done (Store.list_keys (db w)), w).

Definition set_value (key : string) (value : node) : M unit :=
  fun w =>
    (Done tt,
     World (Store.set_value key value (db w)) (user_data w)
       (log w ++ [SetValue key value])%list).

Definition get_user_data : M pending := fun w => (Done (user_data w), w).

Definition put_user_data (p : pending) : M unit :=
  fun w => (Done tt, World (db w) p (log w)).

(** [_safe_edit_message_text]; a "not modified" answer of the transport is
    absorbed there and leaves no trace in the bot. *)
Definition _safe_edit_message_text
  (text : string) (reply_markup : option keyboard) : M unit :=
  emit (EditMessageText text reply_markup).

Definition reply_text (text : string) (reply_markup : option keyboard)
  : M unit :=
  emit (ReplyText text reply_markup).

(** [x.get(k)] on a value that may not be a mapping. *)
Definition get_attr (n : node) (k : string) : res (option node) :=
  match n with
  | NDict d => Done (Py.lookup k d)
  | _ => Raised PyAttributeError
  end.

(** [x.items()] on a value that may not be a mapping. *)
Definition items_of (n : node) : res dict :=
  match n with
  | NDict d => Done d
  | _ => Raised PyAttributeError
  end.

(** [sorted(l, key=key, reverse=True)]: descending, and elements with equal
    keys stay in their order. *)
Section Sorted.
Context {A K : Type} (leb : K -> K -> bool) (key : A -> K).

Fixpoint insert_desc (x : A) (l : list A) : list A :=
  match l with
  | [] => [x]
  | y :: l' =>
      if leb (key y) (key x) then x :: y :: l' else y :: insert_desc x l'
  end.

Definition sorted_reverse (l : list A) : list A :=
  fold_right insert_desc [] l.

End Sorted.

(** ** The screens and the handlers of [main.py] *)

Section Bot.

(** [bot_data["owner_id"]], from [TELEGRAM_OWNER_ID]. *)
Variable owner_id : Z.

(** [str(d)] of a mapping [d]: Python's [repr], left open. *)
Variable repr_dict : dict -> string.

(** Whether [strftime] prints [%Y] in four digits on this platform. *)
Variable zero_pad_year : bool.

Local Open Scope bot_scope.

(** [str(x)] *)
Definition str (x : node) : string :=
  match x with
  | NStr s => s
  | NNum z => Py.str_of_Z z
  | NDict kvs => repr_dict kvs
  end.

(** [not user or user.id != owner_id] *)
Definition not_owner (user : option Z) : bool :=
  match user with
  | Some id => negb (Z.eqb id owner_id)
  | None => true
  end.

(** [(app_data.get("perangkat") or {}) if isinstance(app_data, dict)
    else {}] *)
Definition perangkat_of (app_data : node) : node :=
  match app_data with
  | NDict d => Py.or_else (Py.lookup "perangkat" d) (NDict [])
  | _ => NDict []
  end.

Definition dashboard_keyboard : keyboard :=
  [ [ InlineKeyboardButton "ğŸ”„ Refresh" "dashboard_refresh";
      InlineKeyboardButton "ğŸ“‹ Lihat semua" "dashboard_list" ];
    [ InlineKeyboardButton "ğŸ“± Aplikasi" "dashboard_apps" ];
    [ InlineKeyboardButton "â• Panduan tambah data" "dashboard_help_set" ] ].

Definition app_menu_text (app_key : string) : string :=
  "ğŸ“± Aplikasi: " ++ app_key ++ Py.nl ++ "Pilih menu di bawah:".

Definition app_menu_keyboard (app_key : string) : keyboard :=
  [ [ InlineKeyboardButton "ğŸ“± Perangkat" ("dashboard_devices:" ++ app_key) ];
    [ InlineKeyboardButton "ğŸ“ Ubah keterangan"
        ("dashboard_app_edit_desc:" ++ app_key) ];
    [ InlineKeyboardButton "ğŸ” Ubah PIN aplikasi"
        ("dashboard_app_edit_pin:" ++ app_key) ];
    [ InlineKeyboardButton "â¬…ï¸ Kembali ke daftar aplikasi" "dashboard_apps" ];
    [ InlineKeyboardButton "ğŸ“Š Kembali ke dashboard" "dashboard_refresh" ] ].

(** *** [_build_device_detail_view] *)

(** [if x: lines.append(...)] *)
Definition when_truthy (x : option node) (line : node -> string)
  : list string :=
  match x with
  | Some n => if Py.truthy n then [line n] else []
  | None => []
  end.

Definition detail_fields (d : dict) : list string :=
  List.concat
    [ when_truthy (Py.lookup "nama_perangkat" d)
        (fun name => "Nama: " ++ str name);
      match Py.lookup "persen_baterai" d with
      | Some persen => ["Baterai: " ++ str persen ++ "%"]
      | None => []
      end;
      when_truthy (Py.lookup "status_baterai" d)
        (fun status_baterai => "Status baterai: " ++ str status_baterai);
      when_truthy (Py.or_opt (Py.lookup "waktu" d) (Py.lookup "waktu_start" d))
        (fun waktu => "Waktu: " ++ str waktu) ].

Definition detail_keyboard
  (app_key device_id suara_label flash_label : string) : keyboard :=
  [ [ InlineKeyboardButton "âœ‰ï¸ Kirim pesan"
        ("dashboard_msg:" ++ app_key ++ ":" ++ device_id) ];
    [ InlineKeyboardButton ("ğŸ”Š Suara: " ++ suara_label)
        ("dashboard_sound:" ++ app_key ++ ":" ++ device_id);
      InlineKeyboardButton ("ğŸ’¡ Flash: " ++ flash_label)
        ("dashboard_flash:" ++ app_key ++ ":" ++ device_id) ];
    [ InlineKeyboardButton "â¬…ï¸ Kembali ke daftar perangkat"
        ("dashboard_devices:" ++ app_key) ];
    [ InlineKeyboardButton "ğŸ“Š Kembali ke dashboard" "dashboard_refresh" ] ].

Definition _build_device_detail_view
  (firebase_client : Store.store) (app_key device_id : string)
  : res (string * keyboard) :=
  let app_data :=
    Py.or_else (Store.get_value app_key firebase_client) (NDict []) in
  let devices := perangkat_of app_data in
  match get_attr devices device_id with
  | Raised e => Raised e
  | Done found =>
      let device_data := Py.or_else found (NDict []) in
      if negb (Py.truthy device_data) then
        Done ("Data perangkat '" ++ device_id ++ "' untuk aplikasi '"
              ++ app_key ++ "' tidak ditemukan.",
              detail_keyboard app_key device_id "off" "-")
      else
        match device_data with
        | NDict d =>
            let header := "ğŸ“± Perangkat: " ++ device_id in
            let lines :=
              header
              :: List.app (detail_fields d) [""; "Pilih menu di bawah:"] in
            let text := Py.join Py.nl lines in
            let suara_label :=
              str (Py.or_else (Py.lookup "suara" d) (NStr "off")) in
            let flash_label :=
              str (Py.or_else (Py.lookup "flash" d) (NStr "-")) in
            Done (text, detail_keyboard app_key device_id suara_label flash_label)
        | _ => Raised PyAttributeError
        end
  end.

(** *** The flat listing of [list_command] and of the [dashboard_list]
    branch (the two copies of the loop are the same text) *)

Definition value_repr (limit : nat) (value : node) : string :=
  match value with
  | NDict kvs => "[object] " ++ Py.str_of_nat (List.length kvs) ++ " item"
  | _ =>
      let value_repr := str value in
      if (limit <? String.length value_repr)%nat
      then Py.take limit value_repr ++ "..." else value_repr
  end.

Definition list_line (item : string * node) : string :=
  fst item ++ " = " ++ value_repr 100 (snd item).

(** The [for] loop with its [break]. *)
Fixpoint list_loop (shown_items : dict) (lines : list string)
  (current_length : nat) : list string :=
  match shown_items with
  | [] => lines
  | item :: rest =>
      let line := list_line item in
      if (3500 <? current_length + String.length line + 1)%nat then lines
      else list_loop rest (lines ++ [line])%list
             (current_length + String.length line + 1)
  end.

(** What [current_length] counts for [lines]: each line and its line
    break. *)
Definition lines_cost (lines : list string) : nat :=
  fold_right (fun line acc => String.length line + 1 + acc) 0 lines.

Definition list_trailer (remaining : nat) : string :=
  "... dan " ++ Py.str_of_nat remaining
  ++ " key lainnya. Gunakan /get <key> untuk melihat detail.".

Definition list_lines (data : dict) : list string :=
  let items := data in
  let max_items := 50%nat in
  let shown_items := firstn max_items items in
  let lines := list_loop shown_items [] 0 in
  if (List.length lines <? List.length items)%nat
  then (lines ++ [list_trailer (List.length items - List.length lines)])%list
  else lines.

(** [list_command] *)
Definition list_command (user : option Z) : M unit :=
  if not_owner user then
    reply_text "Anda tidak memiliki izin menggunakan perintah ini." None
  else
    data <- list_keys ;;
    match data with
    | [] => reply_text "Tidak ada data di Firebase" None
    | _ :: _ => reply_text (Py.join Py.nl (list_lines data)) None
    end.

(** *** The dashboard summary *)

Definition preview_text (data : dict) : string :=
  match firstn 5 data with
  | [] => "Belum ada data yang tersimpan."
  | preview_items =>
      let preview_lines :=
        map (fun item => fst item ++ " = " ++ value_repr 80 (snd item))
          preview_items in
      let preview_text := Py.join Py.nl preview_lines in
      if (1000 <? String.length preview_text)%nat
      then Py.take 1000 preview_text ++ "..." else preview_text
  end.

Definition dashboard_text (data : dict) : string :=
  "ğŸ“Š Dashboard Owner" ++ Py.nl
  ++ "Total data tersimpan: " ++ Py.str_of_nat (List.length data)
  ++ Py.nl ++ Py.nl
  ++ "Cuplikan data:" ++ Py.nl
  ++ preview_text data ++ Py.nl ++ Py.nl
  ++ "Pilih aksi di bawah:".

(** *** Device grouping *)

Definition _parse_device_datetime (data : node) : Datetime.datetime :=
  match data with
  | NDict d =>
      match Py.or_opt (Py.lookup "waktu" d) (Py.lookup "waktu_start" d) with
      | Some (NStr value) =>
          match Datetime.strptime_dmY_HMS value with
          | Some dt => dt
          | None => Datetime.min
          end
      | _ => Datetime.min
      end
  | _ => Datetime.min
  end.

Definition device_item : Type := (string * node * Datetime.datetime)%type.

(** The bucket and the timestamp the loop gives one device. *)
Definition date_key_of (device_data : node) : string * Datetime.datetime :=
  match device_data with
  | NDict _ =>
      let dt := _parse_device_datetime device_data in
      if Datetime.eqb dt Datetime.min then ("unknown", dt)
      else (Datetime.strftime_Ymd zero_pad_year dt, dt)
  | _ => ("unknown", Datetime.min)
  end.

(** [date_groups.setdefault(date_key, []).append(item)] *)
Fixpoint setdefault_append (date_key : string) (item : device_item)
  (date_groups : list (string * list device_item))
  : list (string * list device_item) :=
  match date_groups with
  | [] => [(date_key, [item])]
  | (k, items) :: rest =>
      if String.eqb k date_key then (k, (items ++ [item])%list) :: rest
      else (k, items) :: setdefault_append date_key item rest
  end.

Definition group_devices (devices : dict)
  : list (string * list device_item) :=
  fold_left
    (fun date_groups entry =>
       let '(device_id, device_data) := entry in
       let '(date_key, dt) := date_key_of device_data in
       setdefault_append date_key (device_id, device_data, dt) date_groups)
    devices [].

(** [_date_sort_key]: a date and a flag, compared as a tuple. *)
Definition _date_sort_key (date_key : string) : Datetime.date * Z :=
  if String.eqb date_key "unknown" then (Datetime.date_min, 1%Z)
  else match Datetime.strptime_Ymd date_key with
       | Some d => (d, 0%Z)
       | None => (Datetime.date_min, 1%Z)
       end.

Definition sort_key_leb (a b : Datetime.date * Z) : bool :=
  let '((ya, ma, da), fa) := a in
  let '((yb, mb, db), fb) := b in
  Datetime.lex_leb [ya; ma; da; fa] [yb; mb; db; fb].

(** [sorted(date_groups.keys(), key=_date_sort_key, reverse=True)] *)
Definition sorted_dates_of (date_groups : list (string * list device_item))
  : list string :=
  sorted_reverse sort_key_leb _date_sort_key (map fst date_groups).

Fixpoint group_of (date_key : string)
  (date_groups : list (string * list device_item))
  : option (list device_item) :=
  match date_groups with
  | [] => None
  | (k, items) :: rest =>
      if String.eqb k date_key then Some items else group_of date_key rest
  end.

Definition device_button (app_key : string) (item : device_item)
  : list button :=
  let '(device_id, device_data, _) := item in
  let name :=
    match device_data with
    | NDict d => str (Py.or_else (Py.lookup "nama_perangkat" d) (NStr device_id))
    | _ => str device_data
    end in
  [InlineKeyboardButton name ("dashboard_device:" ++ app_key ++ ":" ++ device_id)].

Definition prev_day_label : string := "â¬…ï¸ Hari sebelumnya".
Definition next_day_label : string := "Hari berikutnya â¡ï¸".

(** The pagination row of the devices screen, for the selected bucket at
    position [idx] of [sorted_dates]. *)
Definition pagination_row (app_key : string) (sorted_dates : list string)
  (idx : nat) : list button :=
  ((if (idx + 1 <? List.length sorted_dates)%nat then
      match nth_error sorted_dates (idx + 1) with
      | Some next_date =>
          [InlineKeyboardButton prev_day_label
             ("dashboard_devices:" ++ app_key ++ ":" ++ next_date)]
      | None => []
      end
    else [])
   ++
   (if (0 <=? Z.of_nat idx - 1)%Z then
      match nth_error sorted_dates (idx - 1) with
      | Some prev_date =>
          [InlineKeyboardButton next_day_label
             ("dashboard_devices:" ++ app_key ++ ":" ++ prev_date)]
      | None => []
      end
    else []))%list.

(** The button that leads to a neighbouring bucket, when there is one. *)
Definition neighbour_button (label app_key : string) (bucket : option string)
  : list button :=
  match bucket with
  | Some date_key =>
      [InlineKeyboardButton label
         ("dashboard_devices:" ++ app_key ++ ":" ++ date_key)]
  | None => []
  end.

(** [if pagination_row: keyboard.append(pagination_row)] *)
Definition row_if_any (row : list button) : keyboard :=
  match row with
  | [] => []
  | _ :: _ => [row]
  end.

Definition back_to_app_rows (app_key : string) : keyboard :=
  [ [ InlineKeyboardButton "â¬…ï¸ Kembali ke aplikasi" ("dashboard_app:" ++ app_key) ];
    [ InlineKeyboardButton "ğŸ“Š Kembali ke dashboard" "dashboard_refresh" ] ].

(** The [dashboard_devices:] branch once [app_key] and [selected_date] are
    read off the token. *)
Definition devices_view (firebase_client : Store.store)
  (app_key selected_date : string) : res (string * keyboard) :=
  let app_data :=
    Py.or_else (Store.get_value app_key firebase_client) (NDict []) in
  let devices := perangkat_of app_data in
  if negb (Py.truthy devices) then
    Done ("Tidak ada data perangkat untuk aplikasi '" ++ app_key ++ "'.",
          back_to_app_rows app_key)
  else
    match items_of devices with
    | Raised e => Raised e
    | Done entries =>
      let date_groups := group_devices entries in
      let sorted_dates := sorted_dates_of date_groups in
      let selected :=
        if String.eqb selected_date ""
           || negb (Py.mem selected_date (map fst date_groups))
        then nth_error sorted_dates 0
        else Some selected_date in
      match selected with
      | None => Raised PyIndexError
      | Some selected_date =>
        match group_of selected_date date_groups with
        | None => Raised PyKeyError
        | Some group =>
          let group_sorted :=
            sorted_reverse Datetime.leb (fun item : device_item => snd item)
              group in
          let buttons := map (device_button app_key) group_sorted in
          let text_date :=
            if String.eqb selected_date "unknown"
            then "Tanggal tidak diketahui" else selected_date in
          let text :=
            "ğŸ“± Perangkat aplikasi: " ++ app_key ++ Py.nl
            ++ "Tanggal: " ++ text_date ++ Py.nl ++ "Pilih perangkat:" in
          match Py.index selected_date sorted_dates with
          | None => Raised PyValueError
          | Some idx =>
            let row := pagination_row app_key sorted_dates idx in
            let keyboard := (buttons ++ row_if_any row)%list in
            Done (text, (keyboard ++ back_to_app_rows app_key)%list)
          end
        end
      end
    end.

(** *** [dashboard_callback] *)

(** How a branch of the [if]/[elif] chain ends: it falls through to the
    common tail with its [text] and, when the branch bound one, its
    [keyboard]; or it has sent its screen itself and returned. *)
Inductive branch_end : Type :=
| Tail (text : string) (keyboard : option keyboard)
| Returned.

(** [query.data.split(":", 1)[1]] *)
Definition arg_after_colon (data : string) : string :=
  nth 1 (Py.split ":" 1 data) "".

(** [parts = query.data.split(":", 2)] read as [(app_key, device_id)]; both
    are empty unless there are three parts. *)
Definition two_args (data : string) : string * string :=
  match Py.split ":" 2 data with
  | [_; a; b] => (a, b)
  | _ => ("", "")
  end.

(** The same split as the devices branch reads it. *)
Definition devices_args (data : string) : string * string :=
  match Py.split ":" 2 data with
  | [_; a; b] => (a, b)
  | _ :: a :: _ => (a, "")
  | _ => ("", "")
  end.

(** [str(device_data.get(field) or "off").lower()
    if isinstance(device_data, dict) else "off"], with the reads before it. *)
Definition current_setting (field : string) (firebase_client : Store.store)
  (app_key device_id : string) : res string :=
  let app_data :=
    Py.or_else (Store.get_value app_key firebase_client) (NDict []) in
  let devices := perangkat_of app_data in
  match get_attr devices device_id with
  | Raised e => Raised e
  | Done found =>
      match Py.or_else found (NDict []) with
      | NDict d =>
          Done (Py.lower (str (Py.or_else (Py.lookup field d) (NStr "off"))))
      | _ => Done "off"
      end
  end.

Definition next_sound (current : string) : string :=
  if String.eqb current "on" then "off" else "on".

Definition next_flash (current : string) : string :=
  if String.eqb current "kedip" then "on"
  else if String.eqb current "on" then "off"
  else "kedip".

Definition branch_list (data : dict) : M branch_end :=
  match data with
  | [] => ret (Tail "ğŸ“‹ Tidak ada data di Firebase." None)
  | _ :: _ =>
      ret (Tail ("ğŸ“‹ Semua data:" ++ Py.nl ++ Py.join Py.nl (list_lines data))
             None)
  end.

Definition branch_apps : M branch_end :=
  found <- get_value "aplikasi" ;;
  let aplikasi_node := Py.or_else found (NDict []) in
  if negb (Py.truthy aplikasi_node) then
    ret (Tail "Tidak ada data 'aplikasi' di Firebase." (Some dashboard_keyboard))
  else
    match items_of aplikasi_node with
    | Raised e => raise e
    | Done items =>
        let buttons :=
          map (fun item : string * node =>
                 let label := str (snd item) in
                 [InlineKeyboardButton label ("dashboard_app:" ++ label)])
            items in
        let keyboard :=
          (buttons
           ++ [[InlineKeyboardButton "â¬…ï¸ Kembali ke dashboard"
                  "dashboard_refresh"]])%list in
        ret (Tail "ğŸ“± Pilih aplikasi:" (Some keyboard))
    end.

Definition branch_app (data : string) : M branch_end :=
  let app_key := arg_after_colon data in
  found <- get_value app_key ;;
  let app_data := Py.or_else found (NDict []) in
  if negb (Py.truthy app_data) then
    ret (Tail ("Data aplikasi '" ++ app_key ++ "' tidak ditemukan di Firebase.")
           (Some
              [ [ InlineKeyboardButton "â¬…ï¸ Kembali ke daftar aplikasi"
                    "dashboard_apps" ];
                [ InlineKeyboardButton "ğŸ“Š Kembali ke dashboard"
                    "dashboard_refresh" ] ]))
  else ret (Tail (app_menu_text app_key) (Some (app_menu_keyboard app_key))).

Definition cancel_keyboard (app_key : string) : keyboard :=
  [ [ InlineKeyboardButton "âŒ Batalkan" ("dashboard_app:" ++ app_key) ] ].

(** [context.user_data["app_edit_target"] = {...}] *)
Definition arm_app_edit (app_key field : string) : M unit :=
  ud <- get_user_data ;;
  put_user_data
    (Pending (device_message_target ud) (Some (AppTarget app_key field))).

(** [context.user_data["device_message_target"] = {...}] *)
Definition arm_device_message (app_key device_id : string) : M unit :=
  ud <- get_user_data ;;
  put_user_data
    (Pending (Some (DeviceTarget app_key device_id)) (app_edit_target ud)).

Definition branch_app_edit_desc (data : string) : M branch_end :=
  let app_key := arg_after_colon data in
  found <- get_value app_key ;;
  let app_data := Py.or_else found (NDict []) in
  let current_desc :=
    match app_data with
    | NDict d => str (Py.or_else (Py.lookup "keterangan" d) (NStr ""))
    | _ => ""
    end in
  let preview :=
    if (300 <? String.length current_desc)%nat
    then Py.take 300 current_desc ++ "..." else current_desc in
  arm_app_edit app_key "keterangan" ;;
  ret (Tail
         ("ğŸ“ Ubah keterangan aplikasi: " ++ app_key ++ Py.nl ++ Py.nl
          ++ "Keterangan saat ini:" ++ Py.nl
          ++ (if String.eqb preview "" then "(kosong)" else preview)
          ++ Py.nl ++ Py.nl
          ++ "Kirim keterangan baru di chat ini." ++ Py.nl
          ++ "Atau klik 'âŒ Batalkan' untuk kembali tanpa mengubah.")
         (Some (cancel_keyboard app_key))).

Definition branch_app_edit_pin (data : string) : M branch_end :=
  let app_key := arg_after_colon data in
  found <- get_value app_key ;;
  let app_data := Py.or_else found (NDict []) in
  let pin_text :=
    match app_data with
    | NDict d =>
        match Py.lookup "kiosk_mode_pin" d with
        | None => ""
        | Some current_pin => str current_pin
        end
    | _ => ""
    end in
  arm_app_edit app_key "kiosk_mode_pin" ;;
  ret (Tail
         ("ğŸ” Ubah PIN aplikasi: " ++ app_key ++ Py.nl ++ Py.nl
          ++ "PIN saat ini: "
          ++ (if String.eqb pin_text "" then "(belum diset)" else pin_text)
          ++ Py.nl ++ Py.nl
          ++ "Kirim PIN baru (hanya angka) di chat ini." ++ Py.nl
          ++ "Atau klik 'âŒ Batalkan' untuk kembali tanpa mengubah.")
         (Some (cancel_keyboard app_key))).

Definition branch_devices (data : string) : M branch_end :=
  let '(app_key, selected_date) := devices_args data in
  '(text, keyboard) <-
    lift (fun firebase_client =>
            devices_view firebase_client app_key selected_date) ;;
  ret (Tail text (Some keyboard)).

Definition branch_device (data : string) : M branch_end :=
  let '(app_key, device_id) := two_args data in
  '(text, keyboard) <-
    lift (fun firebase_client =>
            _build_device_detail_view firebase_client app_key device_id) ;;
  ret (Tail text (Some keyboard)).

Definition branch_msg (data : string) : M branch_end :=
  let '(app_key, device_id) := two_args data in
  arm_device_message app_key device_id ;;
  ret (Tail
         ("ğŸ“± Kirim pesan baru untuk perangkat: " ++ device_id ++ Py.nl
          ++ "aplikasi: " ++ app_key ++ Py.nl ++ Py.nl
          ++ "Kirim teks pesan di chat ini, dan pesan akan disimpan sebagai 'pesan_clear_virus'.")
         (Some
            [ [ InlineKeyboardButton "â¬…ï¸ Kembali ke perangkat"
                  ("dashboard_device:" ++ app_key ++ ":" ++ device_id) ];
              [ InlineKeyboardButton "ğŸ“Š Kembali ke dashboard"
                  "dashboard_refresh" ] ])).

(** The [dashboard_sound:] and [dashboard_flash:] branches: read the current
    value, write its successor, draw the device again and return. *)
Definition branch_toggle (field : string) (next : string -> string)
  (data : string) : M branch_end :=
  let '(app_key, device_id) := two_args data in
  current <-
    lift (fun firebase_client =>
            current_setting field firebase_client app_key device_id) ;;
  let new_value := next current in
  set_value (app_key ++ "/perangkat/" ++ device_id ++ "/" ++ field)
    (NStr new_value) ;;
  '(text, keyboard) <-
    lift (fun firebase_client =>
            _build_device_detail_view firebase_client app_key device_id) ;;
  _safe_edit_message_text text (Some keyboard) ;;
  ret Returned.

Definition branch_sound : string -> M branch_end :=
  branch_toggle "suara" next_sound.

Definition branch_flash : string -> M branch_end :=
  branch_toggle "flash" next_flash.

Definition branch_help_set : M branch_end :=
  ret (Tail
         ("â• Panduan tambah data:" ++ Py.nl
          ++ "Gunakan perintah:" ++ Py.nl
          ++ "/set <key> <value>" ++ Py.nl ++ Py.nl
          ++ "Contoh:" ++ Py.nl
          ++ "/set greeting Halo dunia")
         (Some dashboard_keyboard)).

Definition access_denied : string :=
  "Dashboard hanya bisa diakses oleh owner bot.".

(** The chain of tests on [query.data], in the order of the source. *)
Definition dispatch (query_data : string) (data : dict) : M branch_end :=
  if String.eqb query_data "dashboard_list" then branch_list data
  else if String.eqb query_data "dashboard_apps" then branch_apps
  else if Py.startswith query_data "dashboard_app:" then
    branch_app query_data
  else if Py.startswith query_data "dashboard_app_edit_desc:" then
    branch_app_edit_desc query_data
  else if Py.startswith query_data "dashboard_app_edit_pin:" then
    branch_app_edit_pin query_data
  else if Py.startswith query_data "dashboard_devices:" then
    branch_devices query_data
  else if Py.startswith query_data "dashboard_device:" then
    branch_device query_data
  else if Py.startswith query_data "dashboard_msg:" then
    branch_msg query_data
  else if Py.startswith query_data "dashboard_sound:" then
    branch_sound query_data
  else if Py.startswith query_data "dashboard_flash:" then
    branch_flash query_data
  else if String.eqb query_data "dashboard_help_set" then branch_help_set
  else ret (Tail (dashboard_text data) (Some dashboard_keyboard)).

Definition dashboard_callback (user : option Z) (query_data : string)
  : M unit :=
  emit Answer ;;
  if not_owner user then _safe_edit_message_text access_denied None
  else
    data <- list_keys ;;
    ending <- dispatch query_data data ;;
    match ending with
    | Returned => ret tt
    | Tail text (Some keyboard) => _safe_edit_message_text text (Some keyboard)
    | Tail _ None => raise PyUnboundLocalError
    end.

(** *** [device_message_handler] *)

(** [context.user_data.pop("device_message_target", None)] *)
Definition pop_device_message_target : M unit :=
  ud <- get_user_data ;;
  put_user_data (Pending None (app_edit_target ud)).

(** [context.user_data.pop("app_edit_target", None)] *)
Definition pop_app_edit_target : M unit :=
  ud <- get_user_data ;;
  put_user_data (Pending (device_message_target ud) None).

Definition pin_error : string := "PIN harus berupa angka.".

Definition device_message_handler (user : option Z) (text : string)
  : M unit :=
  if not_owner user then ret tt
  else
    ud <- get_user_data ;;
    match device_message_target ud with
    | Some device_target =>
        let app_key := dt_app_key device_target in
        let device_id := dt_device_id device_target in
        if String.eqb app_key "" || String.eqb device_id "" then ret tt
        else
          set_value
            (app_key ++ "/perangkat/" ++ device_id ++ "/pesan_clear_virus")
            (NStr text) ;;
          pop_device_message_target ;;
          '(detail_text, keyboard) <-
            lift (fun firebase_client =>
                    _build_device_detail_view firebase_client app_key
                      device_id) ;;
          reply_text detail_text (Some keyboard)
    | None =>
        match app_edit_target ud with
        | None => ret tt
        | Some app_target =>
            let app_key := at_app_key app_target in
            let field := at_field app_target in
            let confirm :=
              pop_app_edit_target ;;
              _ <- get_value app_key ;;
              reply_text (app_menu_text app_key)
                (Some (app_menu_keyboard app_key)) in
            if String.eqb app_key "" || String.eqb field "" then ret tt
            else if String.eqb field "keterangan" then
              set_value (app_key ++ "/keterangan") (NStr text) ;;
              confirm
            else if String.eqb field "kiosk_mode_pin" then
              let pin_text := Py.strip text in
              if negb (Py.isdigit pin_text) then
                reply_text pin_error None
              else
                match Py.int_of_digits pin_text with
                | Raised e => raise e
                | Done pin =>
                    set_value (app_key ++ "/kiosk_mode_pin") (NNum pin) ;;
                    confirm
                end
            else ret tt
        end
    end.

End Bot.

(** ** The loop of the devices screen, entry by entry *)

(** The bucket the loop gives an entry of [perangkat]. *)
Definition bucket_of (zero_pad_year : bool) (entry : string * node) : string :=
  fst (date_key_of zero_pad_year (snd entry)).

(** The item the loop appends to that bucket. *)
Definition item_of (zero_pad_year : bool) (entry : string * node)
  : device_item :=
  (fst entry, snd entry, snd (date_key_of zero_pad_year (snd entry))).

(** The decimal digit [v] in front of the digits [u]. *)
Definition decimal_digit (v : Z) (u : Decimal.uint) : Decimal.uint :=
  match v with
  | 0 => Decimal.D0 u | 1 => Decimal.D1 u | 2 => Decimal.D2 u
  | 3 => Decimal.D3 u | 4 => Decimal.D4 u | 5 => Decimal.D5 u
  | 6 => Decimal.D6 u | 7 => Decimal.D7 u | 8 => Decimal.D8 u
  | _ => Decimal.D9 u
  end%Z.

(** ** Deleting from the tree store

    Modelled from the spec: [delete(path)] of the Tree Store Adapter, which
    [FirebaseClient.delete_value] calls in the client library.  The node at
    the path goes, and with it every mapping above that is left empty (the
    store keeps no empty mappings); deleting what is not there changes
    nothing. *)

Module Removal.

(** [d] without the key [k]. *)
Fixpoint remove_key (k : string) (d : dict) : dict :=
  match d with
  | [] => []
  | (k', v) :: d' =>
      if String.eqb k' k then remove_key k d' else (k', v) :: remove_key k d'
  end.

(** The node without what is below the path; [None] when nothing is left. *)
Fixpoint node_delete (segs : list string) (n : node) : option node :=
  match segs with
  | [] => None
  | k :: r =>
      match n with
      | NDict kvs =>
          match Py.lookup k kvs with
          | None => Some n
          | Some c =>
              match node_delete r c with
              | Some c' => Some (NDict (Py.update k c' kvs))
              | None =>
                  match remove_key k kvs with
                  | [] => None
                  | kvs' => Some (NDict kvs')
                  end
              end
          end
      | _ => Some n
      end
  end.

(** [FirebaseClient.delete_value] *)
Definition delete_value (key : string) (db : Store.store) : Store.store :=
  match node_delete (Store.parse_path key) (NDict db) with
  | Some n => Store.children n
  | None => []
  end.

End Removal.

(** The deletion as a handler step.  The log of effects has no entry for it;
    it shows in [db]. *)
Definition delete_value (key : string) : M unit :=
  fun w =>
    (Done tt, World (Removal.delete_value key (db w)) (user_data w) (log w)).

(** The keys the client library and the service take as a path: for one of
    the characters [. $ # [ ] ?] [db.reference] raises [ValueError], and the
    service refuses control characters, names of more than 768 bytes and
    paths of more than 32 segments.  The test asks for printable ASCII, so
    that a character is a byte. *)
Definition accepted_key (key : string) : bool :=
  Py.all_chars
    (fun c =>
       let n := nat_of_ascii c in
       (32 <=? n)%nat && (n <? 127)%nat
       && negb (Ascii.eqb c ".") && negb (Ascii.eqb c "$")
       && negb (Ascii.eqb c "#") && negb (Ascii.eqb c "[")
       && negb (Ascii.eqb c "]") && negb (Ascii.eqb c "?"))
    key
  && (String.length key <=? 768)%nat
  && (List.length (Store.parse_path key) <=? 32)%nat.

(** ** The command handlers of [main.py] *)

Section Commands.

Variable owner_id : Z.
Variable repr_dict : dict -> string.

Local Open Scope bot_scope.

Definition no_permission : string :=
  "Anda tidak memiliki izin menggunakan perintah ini.".

Definition start_text : string :=
  "Bot Firebase siap." ++ Py.nl
  ++ "Perintah tersedia:" ++ Py.nl
  ++ "/start" ++ Py.nl
  ++ "/get <key>" ++ Py.nl
  ++ "/list".

(** [dashboard_command] *)
Definition dashboard_command (user : option Z) : M unit :=
  if not_owner owner_id user then reply_text access_denied None
  else
    data <- list_keys ;;
    reply_text (dashboard_text repr_dict data) (Some dashboard_keyboard).

(** [start] *)
Definition start (user : option Z) : M unit :=
  if negb (not_owner owner_id user) then dashboard_command user
  else reply_text start_text None.

(** [set_command]; [args] is [context.args], the words after the command. *)
Definition set_command (user : option Z) (args : list string) : M unit :=
  if not_owner owner_id user then reply_text no_permission None
  else if (List.length args <? 2)%nat then
    reply_text "Format: /set <key> <value>" None
  else
    let key := nth 0 args "" in
    let value := Py.join " " (skipn 1 args) in
    set_value key (NStr value) ;;
    reply_text ("Data disimpan: " ++ key ++ " = " ++ value) None.

(** [get_command] *)
Definition get_command (user : option Z) (args : list string) : M unit :=
  if not_owner owner_id user then reply_text no_permission None
  else if negb (List.length args =? 1)%nat then
    reply_text "Format: /get <key>" None
  else
    let key := nth 0 args "" in
    value <- get_value key ;;
    match value with
    | None =>
        reply_text ("Data dengan key '" ++ key ++ "' tidak ditemukan") None
    | Some value => reply_text (key ++ " = " ++ str repr_dict value) None
    end.

(** [delete_command] *)
Definition delete_command (user : option Z) (args : list string) : M unit :=
  if not_owner owner_id user then reply_text no_permission None
  else if negb (List.length args =? 1)%nat then
    reply_text "Format: /delete <key>" None
  else
    let key := nth 0 args "" in
    delete_value key ;;
    reply_text ("Data dengan key '" ++ key ++ "' dihapus") None.

End Commands.

(** ** Configuration: [_load_env_file] and [Settings.from_env] *)

Module Env.

(** [os.environ], a mapping from names to values. *)
Definition environ : Type := list (string * string).

(** [os.environ.get(k)] *)
Fixpoint get (k : string) (env : environ) : option string :=
  match env with
  | [] => None
  | (k', v) :: env' => if String.eqb k' k then Some v else get k env'
  end.

(** [k in os.environ] *)
Definition contains (k : string) (env : environ) : bool :=
  match get k env with
  | Some _ => true
  | None => false
  end.

(** [os.environ[k] = v] for a name that is not empty and has no ["="]: the
    call raises [ValueError] when the name or the value holds a null
    character, which [None] stands for. *)
Definition setitem (k v : string) (env : environ) : option environ :=
  if Py.no_char "000" k && Py.no_char "000" v
  then Some (env ++ [(k, v)])%list else None.

(** What one line of the file assigns, if anything: the line is stripped,
    blank lines, comments and lines without ["="] are skipped, and the two
    sides of the first ["="] are stripped again. *)
Definition parse_line (line : string) : option (string * string) :=
  let stripped := Py.strip line in
  if String.eqb stripped "" || Py.startswith stripped "#" then None
  else match Py.partition_at "=" stripped with
       | None => None
       | Some (key, value) => Some (Py.strip key, Py.strip value)
       end.

(** The body of the loop for one line. *)
Definition load_line (line : string) (env : environ) : option environ :=
  match parse_line line with
  | Some (key, value) =>
      if negb (String.eqb key "") && negb (contains key env)
      then setitem key value env else Some env
  | None => Some env
  end.

(** The loop over the lines; [false] when an assignment raised. *)
Fixpoint load_lines (lines : list string) (env : environ) : bool * environ :=
  match lines with
  | [] => (true, env)
  | line :: rest =>
      match load_line line env with
      | Some env' => load_lines rest env'
      | None => (false, env)
      end
  end.

(** [_load_env_file]; [file] is [None] when there is no [.env] file and the
    lines of the file, as iteration yields them, otherwise. *)
Definition _load_env_file (file : option (list string)) (env : environ)
  : bool * environ :=
  match file with
  | None => (true, env)
  | Some lines => load_lines lines env
  end.

(** What the file gives a name: the value on the first line that assigns
    it. *)
Fixpoint assigned (k : string) (lines : list string) : option string :=
  match lines with
  | [] => None
  | line :: rest =>
      match parse_line line with
      | Some (key, value) =>
          if String.eqb key k then Some value else assigned k rest
      | None => assigned k rest
      end
  end.

Record Settings : Type := mkSettings
  { telegram_token : string;
    firebase_credentials_path : string;
    firebase_database_url : string;
    telegram_owner_id : Z }.

Inductive startup_error : Type :=
| RuntimeError (message : string)
| ValueError.

(** [not x] for the result of [os.environ.get]. *)
Definition unset (x : option string) : bool :=
  match x with
  | Some v => String.eqb v ""
  | None => true
  end.

Definition value_of (x : option string) : string :=
  match x with
  | Some v => v
  | None => ""
  end.

(** The names [from_env] reports, in its order. *)
Definition missing_names (env : environ) : list string :=
  List.concat
    (map (fun name => if unset (get name env) then [name] else [])
       ["TELEGRAM_BOT_TOKEN"; "FIREBASE_CREDENTIALS_PATH";
        "FIREBASE_DATABASE_URL"; "TELEGRAM_OWNER_ID"]).

Section FromEnv.

(** [int(s)]; [None] stands for its [ValueError]. *)
Variable int : string -> option Z.

(** [Settings.from_env], with the environment it leaves. *)
Definition from_env (file : option (list string)) (env : environ)
  : (Settings + startup_error) * environ :=
  match _load_env_file file env with
  | (false, env') => (inr ValueError, env')
  | (true, env') =>
      match missing_names env' with
      | [] =>
          match int (value_of (get "TELEGRAM_OWNER_ID" env')) with
          | Some owner_id =>
              (inl (mkSettings
                      (value_of (get "TELEGRAM_BOT_TOKEN" env'))
                      (value_of (get "FIREBASE_CREDENTIALS_PATH" env'))
                      (value_of (get "FIREBASE_DATABASE_URL" env'))
                      owner_id),
               env')
          | None => (inr ValueError, env')
          end
      | missing =>
          (inr (RuntimeError
                  ("Missing environment variables: " ++ Py.join ", " missing)),
           env')
      end
  end.

End FromEnv.

End Env.

(** ** Sample data *)

Module Sample.

(** An owner, a stand-in for Python's [repr] of a mapping, and a store with
    one application whose devices fall into three buckets. *)
Definition owner : Z := 1.

Definition repr_dict (d : dict) : string := "{...}".

Definition devices : dict :=
  [ ("D1", NDict [("waktu", NStr "01/06/2024 10:00:00")]);
    ("D2", NDict [("waktu", NStr "01/06/2024 09:00:00")]);
    ("D3", NDict [("waktu", NStr "02/06/2024 08:30:00");
                  ("suara", NStr "on"); ("flash", NStr "kedip")]);
    ("D4", NDict [("nama_perangkat", NStr "tanpa waktu")]) ].

Definition store : Store.store :=
  [ ("aplikasi", NDict [("a", NStr "A1")]);
    ("A1", NDict [("keterangan", NStr "demo"); ("perangkat", NDict devices)]) ].

Definition idle : world := World store (Pending None None) [].

(** Two devices, the first without a timestamp, the second one second
    after [datetime.min]. *)
Definition year_one : dict :=
  [ ("D1", NDict [("nama_perangkat", NStr "tanpa waktu")]);
    ("D2", NDict [("waktu", NStr "01/01/0001 00:00:01")]) ].

(** [n] keys ["k"], each with the same value. *)
Definition flat (n : nat) (value : string) : dict :=
  repeat ("k", NStr value) n.

(** [n] times the character ["x"]. *)
Fixpoint xs (n : nat) : string :=
  match n with
  | O => EmptyString
  | S m => String "x" (xs m)
  end.

End Sample.

(** * Properties *)

(** Unfolds the plumbing of the handler monad and reads the fields of the
    states it builds. *)
Ltac run_monad :=
  unfold arm_app_edit, arm_device_message, pop_device_message_target,
    pop_app_edit_target, _safe_edit_message_text, reply_text;
  unfold bind, ret, raise, emit, get_value, list_keys, set_value,
    get_user_data, put_user_data, lift;
  cbn [fst snd db user_data log device_message_target app_edit_target
       dt_app_key dt_device_id at_app_key at_field].

(** ** Strings *)

Lemma eqb_empty_false (s : string) : s <> "" -> String.eqb s "" = false.
Proof. intros H. now apply String.eqb_neq. Qed.

Lemma partition_at_sep (sep : ascii) (a b : string) :
  Py.no_char sep a = true ->
  Py.partition_at sep (a ++ String sep b) = Some (a, b).
Proof.
  induction a as [|c a IH]; simpl; intros H.
  - now rewrite Ascii.eqb_refl.
  - apply andb_true_iff in H as [Hc Ha].
    apply negb_true_iff in Hc. rewrite Hc, (IH Ha). reflexivity.
Qed.

Lemma all_chars_weaken (p q : ascii -> bool) (s : string) :
  (forall c, p c = true -> q c = true) ->
  Py.all_chars p s = true -> Py.all_chars q s = true.
Proof.
  intros Hpq. induction s as [|c s IH]; simpl; intros H; [reflexivity|].
  apply andb_true_iff in H as [Hc Hs].
  now rewrite (Hpq c Hc), (IH Hs).
Qed.

Lemma decimals_are_digits (s : string) :
  s <> "" -> Py.all_chars Py.isdecimal s = true -> Py.isdigit s = true.
Proof.
  intros Hne H. unfold Py.isdigit.
  rewrite (eqb_empty_false s Hne). simpl.
  apply (all_chars_weaken Py.isdecimal); [|exact H].
  intros c Hc. unfold Py.isdigit_char. now rewrite Hc.
Qed.

Lemma int_of_decimals (s : string) :
  Py.all_chars Py.isdecimal s = true -> String.length s <= 4300 ->
  Py.int_of_digits s = Done (Py.decimal_value 0 s).
Proof.
  intros H Hlen. unfold Py.int_of_digits. rewrite H.
  apply Nat.leb_le in Hlen. now rewrite Hlen.
Qed.

Lemma lines_cost_cons (line : string) (lines : list string) :
  lines_cost (line :: lines) = String.length line + 1 + lines_cost lines.
Proof. reflexivity. Qed.

Lemma string_length_app (a b : string) :
  String.length (a ++ b) = String.length a + String.length b.
Proof. induction a as [|c a IH]; simpl; [reflexivity|now rewrite IH]. Qed.

Lemma length_take (n : nat) (s : string) :
  n <= String.length s -> String.length (Py.take n s) = n.
Proof.
  unfold Py.take. revert s.
  induction n as [|n IH]; intros [|c s] H; simpl in *; try lia;
    try reflexivity.
  now rewrite IH by lia.
Qed.

(** The joined text is one character shorter than what the loop counted. *)
Lemma length_join_lines (lines : list string) :
  String.length (Py.join Py.nl lines) <= lines_cost lines.
Proof.
  induction lines as [|a [|b l] IH].
  - simpl. lia.
  - cbn [Py.join lines_cost fold_right]. lia.
  - change (Py.join Py.nl (a :: b :: l))
      with (a ++ Py.nl ++ Py.join Py.nl (b :: l)).
    rewrite lines_cost_cons, !string_length_app.
    change (String.length Py.nl) with 1. lia.
Qed.

(** ** The store *)

Lemma lookup_update_same (k : string) (v : node) (d : dict) :
  Py.lookup k (Py.update k v d) = Some v.
Proof.
  induction d as [|[k' v'] d IH]; simpl.
  - now rewrite String.eqb_refl.
  - destruct (String.eqb k' k) eqn:E; simpl; now rewrite E.
Qed.

Lemma truthy_update (k : string) (v : node) (d : dict) :
  Py.truthy (NDict (Py.update k v d)) = true.
Proof.
  destruct d as [|[k' v'] d]; simpl; [reflexivity|].
  destruct (String.eqb k' k); reflexivity.
Qed.

Lemma split_all_not_nil (sep : ascii) (s : string) :
  Py.split_all sep s <> [].
Proof.
  induction s as [|c s IH]; simpl; [discriminate|].
  destruct (Ascii.eqb c sep); [discriminate|].
  destruct (Py.split_all sep s); [contradiction|discriminate].
Qed.

Lemma split_all_sep (sep : ascii) (a b : string) :
  Py.split_all sep (a ++ String sep b)
  = (Py.split_all sep a ++ Py.split_all sep b)%list.
Proof.
  induction a as [|c a IH]; simpl.
  - now rewrite Ascii.eqb_refl.
  - destruct (Ascii.eqb c sep); [now rewrite IH|].
    rewrite IH. pose proof (split_all_not_nil sep a) as Hne.
    destruct (Py.split_all sep a); [contradiction|reflexivity].
Qed.

Lemma split_all_whole (sep : ascii) (s : string) :
  Py.no_char sep s = true -> Py.split_all sep s = [s].
Proof.
  induction s as [|c s IH]; simpl; intros H; [reflexivity|].
  apply andb_true_iff in H as [Hc Hs]. apply negb_true_iff in Hc.
  now rewrite Hc, (IH Hs).
Qed.

Lemma parse_path_sep (a b : string) :
  Store.parse_path (a ++ String "/" b)
  = (Store.parse_path a ++ Store.parse_path b)%list.
Proof. unfold Store.parse_path. now rewrite split_all_sep, filter_app. Qed.

Lemma parse_path_segment (s : string) :
  Store.is_segment s = true -> Store.parse_path s = [s].
Proof.
  unfold Store.is_segment, Store.parse_path. intros H.
  apply andb_true_iff in H as [Hne Hs].
  rewrite (split_all_whole "/" s Hs). simpl. now rewrite Hne.
Qed.

(** The path of a device field: the segments of the application, then
    ["perangkat"], the device and the field. *)
Lemma parse_device_field_path (app_key device_id field : string) :
  Store.is_segment device_id = true -> Store.is_segment field = true ->
  Store.parse_path (app_key ++ "/perangkat/" ++ device_id ++ "/" ++ field)
  = (Store.parse_path app_key ++ ["perangkat"; device_id; field])%list.
Proof.
  intros Hd Hf.
  change (app_key ++ "/perangkat/" ++ device_id ++ "/" ++ field)
    with (app_key ++ String "/" ("perangkat" ++ String "/"
            (device_id ++ String "/" field))).
  rewrite !parse_path_sep.
  now rewrite (parse_path_segment device_id Hd), (parse_path_segment field Hf).
Qed.

(** Reading at a prefix of the path just written. *)
Lemma node_get_set_prefix (p q : list string) (v n : node) :
  q <> [] ->
  Store.node_get p (Store.node_set (p ++ q) v n)
  = Some (Store.node_set q v (Store.sub p n)).
Proof.
  intros Hq. revert n. induction p as [|k p IH]; intros n.
  - reflexivity.
  - cbn [app Store.node_set Store.node_get]. rewrite lookup_update_same, IH.
    f_equal. destruct q as [|k' q]; [congruence|].
    cbn [Store.node_set]. unfold Store.child_or_empty, Store.sub.
    destruct n as [s|z|kvs]; cbn [Store.children Py.lookup Store.node_get].
    + destruct p; reflexivity.
    + destruct p; reflexivity.
    + destruct (Py.lookup k kvs); [reflexivity|]. now destruct p.
Qed.

(** What a read of the application yields after a write to a field of one
    of its devices. *)
Lemma get_value_after_field_write
  (app_key device_id field : string) (v : node) (db : Store.store) :
  Store.is_segment device_id = true -> Store.is_segment field = true ->
  exists (app_rest devices_rest fields_rest : dict),
    Store.get_value app_key
      (Store.set_value
         (app_key ++ "/perangkat/" ++ device_id ++ "/" ++ field) v db)
    = Some
        (NDict
           (Py.update "perangkat"
              (NDict
                 (Py.update device_id
                    (NDict (Py.update field v fields_rest)) devices_rest))
              app_rest)).
Proof.
  intros Hd Hf. unfold Store.get_value, Store.set_value.
  rewrite (parse_device_field_path app_key device_id field Hd Hf).
  set (p := Store.parse_path app_key).
  assert (Hroot : forall n,
    NDict (Store.children
             (Store.node_set (p ++ ["perangkat"; device_id; field]) v n))
    = Store.node_set (p ++ ["perangkat"; device_id; field]) v n)
    by (intros n; destruct p; reflexivity).
  rewrite Hroot, node_get_set_prefix by discriminate.
  cbn [Store.node_set]. do 3 eexists. reflexivity.
Qed.

Lemma or_else_truthy (n y : node) :
  Py.truthy n = true -> Py.or_else (Some n) y = n.
Proof. intros H. unfold Py.or_else. now rewrite H. Qed.

(** ** Sorting *)

Section SortedFacts.
Context {A K : Type} (leb : K -> K -> bool) (key : A -> K).
Hypothesis leb_total : forall a b, leb a b = false -> leb b a = true.
Hypothesis leb_trans :
  forall a b c, leb a b = true -> leb b c = true -> leb a c = true.

(** [x] comes no later than [y] in a descending list. *)
Definition not_below (x y : A) : Prop := leb (key y) (key x) = true.

Lemma insert_desc_in (x y : A) (l : list A) :
  In y (insert_desc leb key x l) <-> y = x \/ In y l.
Proof.
  induction l as [|z l IH]; simpl.
  - intuition congruence.
  - destruct (leb (key z) (key x)); simpl; [intuition congruence|].
    rewrite IH. intuition congruence.
Qed.

Lemma insert_desc_sorted (x : A) (l : list A) :
  StronglySorted not_below l ->
  StronglySorted not_below (insert_desc leb key x l).
Proof.
  induction 1 as [|z l Hl IH Hz]; simpl.
  - constructor; constructor.
  - destruct (leb (key z) (key x)) eqn:Hzx.
    + constructor; [constructor; assumption|].
      constructor; [exact Hzx|].
      rewrite Forall_forall in Hz |- *. intros y Hy.
      unfold not_below in *. eapply leb_trans; [apply (Hz y Hy)|exact Hzx].
    + constructor; [exact IH|].
      rewrite Forall_forall in Hz |- *. intros y Hy.
      apply insert_desc_in in Hy as [->|Hy]; [|now apply Hz].
      now apply leb_total.
Qed.

Lemma sorted_reverse_sorted (l : list A) :
  StronglySorted not_below (sorted_reverse leb key l).
Proof.
  induction l as [|x l IH]; simpl; [constructor|].
  now apply insert_desc_sorted.
Qed.

Lemma sorted_reverse_in (y : A) (l : list A) :
  In y (sorted_reverse leb key l) <-> In y l.
Proof.
  induction l as [|x l IH]; simpl; [reflexivity|].
  rewrite insert_desc_in, IH. intuition congruence.
Qed.

(** In a sorted list an earlier position never has the smaller key. *)
Lemma sorted_positions (l : list A) (i j : nat) (x y : A) :
  StronglySorted not_below l -> i < j ->
  nth_error l i = Some x -> nth_error l j = Some y ->
  not_below x y.
Proof.
  intros Hs. revert i j.
  induction Hs as [|z l Hl IH Hz]; intros i j Hij Hx Hy.
  - destruct i; discriminate Hx.
  - destruct j as [|j]; [lia|]. simpl in Hy.
    destruct i as [|i]; simpl in Hx.
    + injection Hx as <-. rewrite Forall_forall in Hz.
      apply Hz. eapply nth_error_In, Hy.
    + apply (IH i j); [lia|assumption|assumption].
Qed.

End SortedFacts.

Lemma lex_leb_trans (a b c : list Z) :
  Datetime.lex_leb a b = true -> Datetime.lex_leb b c = true ->
  Datetime.lex_leb a c = true.
Proof.
  revert b c. induction a as [|x a IH]; intros [|y b] [|z c];
    simpl; try congruence.
  intros Hab Hbc.
  apply orb_true_iff in Hab as [Hab|Hab]; apply orb_true_iff in Hbc as [Hbc|Hbc];
    apply orb_true_iff.
  - left. apply Z.ltb_lt in Hab, Hbc. apply Z.ltb_lt. lia.
  - apply andb_true_iff in Hbc as [Hyz _]. apply Z.eqb_eq in Hyz. subst z.
    now left.
  - apply andb_true_iff in Hab as [Hxy _]. apply Z.eqb_eq in Hxy. subst y.
    now left.
  - apply andb_true_iff in Hab as [Hxy Hab], Hbc as [Hyz Hbc].
    right. apply Z.eqb_eq in Hxy, Hyz. subst y z.
    now rewrite Z.eqb_refl, (IH b c Hab Hbc).
Qed.

Lemma lex_leb_total (a b : list Z) :
  List.length a = List.length b ->
  Datetime.lex_leb a b = false -> Datetime.lex_leb b a = true.
Proof.
  revert b. induction a as [|x a IH]; intros [|y b]; simpl; try congruence.
  intros Hlen H. injection Hlen as Hlen.
  apply orb_false_iff in H as [Hlt H].
  apply Z.ltb_ge in Hlt. apply orb_true_iff.
  destruct (Z.eqb_spec x y) as [->|Hne].
  - right. rewrite Z.eqb_refl. simpl in H. now rewrite (IH b Hlen H).
  - left. apply Z.ltb_lt. lia.
Qed.

Lemma sort_key_leb_total (a b : Datetime.date * Z) :
  sort_key_leb a b = false -> sort_key_leb b a = true.
Proof.
  destruct a as [[[ya ma] da] fa], b as [[[yb mb] db] fb].
  unfold sort_key_leb. now apply lex_leb_total.
Qed.

Lemma sort_key_leb_trans (a b c : Datetime.date * Z) :
  sort_key_leb a b = true -> sort_key_leb b c = true ->
  sort_key_leb a c = true.
Proof.
  destruct a as [[[ya ma] da] fa], b as [[[yb mb] db] fb],
    c as [[[yc mc] dc] fc].
  unfold sort_key_leb. apply lex_leb_trans.
Qed.

(** ** The handlers *)

Section Handlers.

Variable owner_id : Z.
Variable repr_dict : dict -> string.
Variable zero_pad_year : bool.

#[warnings="-notation-for-abbreviation"]
Local Notation callback :=
  (dashboard_callback owner_id repr_dict zero_pad_year).
#[warnings="-notation-for-abbreviation"]
Local Notation message := (device_message_handler owner_id repr_dict).

Lemma owner_is_owner : not_owner owner_id (Some owner_id) = false.
Proof. unfold not_owner. now rewrite Z.eqb_refl. Qed.

(** What the callback does for the owner, given where its branch ends. *)
Lemma callback_of_owner (query_data : string) (w : world) :
  callback (Some owner_id) query_data w
  = let w0 := World (db w) (user_data w) (log w ++ [Answer]) in
    match dispatch repr_dict zero_pad_year query_data (db w) w0 with
    | (Done Returned, w1) => (Done tt, w1)
    | (Done (Tail text (Some keyboard)), w1) =>
        (Done tt,
         World (db w1) (user_data w1)
           (log w1 ++ [EditMessageText text (Some keyboard)]))
    | (Done (Tail _ None), w1) => (Raised PyUnboundLocalError, w1)
    | (Raised e, w1) => (Raised e, w1)
    end.
Proof.
  unfold dashboard_callback. rewrite owner_is_owner.
  unfold bind at 1 2 3. unfold emit, list_keys, Store.list_keys.
  cbn [fst snd db user_data log].
  destruct (dispatch _ _ _ _ _) as [[[text [kb|]|]|e] w1]; reflexivity.
Qed.

(** C7, as amended: a caller who is not the owner gets the fixed refusal on
    a button press and no answer at all to a text message; neither handler
    writes to the store or touches the pending edits. *)
Theorem stranger_changes_nothing
  (user : option Z) (query_data text : string) (w : world) :
  not_owner owner_id user = true ->
  callback user query_data w
  = (Done tt,
     World (db w) (user_data w)
       (log w ++ [Answer; EditMessageText access_denied None]))
  /\ message user text w = (Done tt, w).
Proof.
  intros H. split.
  - unfold dashboard_callback. run_monad. rewrite H. run_monad.
    now rewrite <- app_assoc.
  - unfold device_message_handler. now rewrite H.
Qed.

(** *** Reading the token *)

Lemma two_args_of_token (tag app_key device_id : string) :
  Py.no_char ":" tag = true ->
  Py.no_char ":" app_key = true ->
  two_args (tag ++ ":" ++ app_key ++ ":" ++ device_id) = (app_key, device_id).
Proof.
  intros Ht Ha. unfold two_args. cbn [Py.split].
  change (tag ++ ":" ++ app_key ++ ":" ++ device_id)
    with (tag ++ String ":" (app_key ++ String ":" device_id)).
  rewrite (partition_at_sep ":" tag _ Ht).
  now rewrite (partition_at_sep ":" app_key _ Ha).
Qed.

Lemma two_args_msg (app_key device_id : string) :
  Py.no_char ":" app_key = true ->
  two_args ("dashboard_msg:" ++ app_key ++ ":" ++ device_id)
  = (app_key, device_id).
Proof. exact (two_args_of_token "dashboard_msg" app_key device_id eq_refl). Qed.

Lemma two_args_sound (app_key device_id : string) :
  Py.no_char ":" app_key = true ->
  two_args ("dashboard_sound:" ++ app_key ++ ":" ++ device_id)
  = (app_key, device_id).
Proof. exact (two_args_of_token "dashboard_sound" app_key device_id eq_refl). Qed.

Lemma two_args_flash (app_key device_id : string) :
  Py.no_char ":" app_key = true ->
  two_args ("dashboard_flash:" ++ app_key ++ ":" ++ device_id)
  = (app_key, device_id).
Proof. exact (two_args_of_token "dashboard_flash" app_key device_id eq_refl). Qed.

Lemma dispatch_app_edit_desc (app_key : string) (data : dict) :
  dispatch repr_dict zero_pad_year ("dashboard_app_edit_desc:" ++ app_key) data
  = branch_app_edit_desc repr_dict ("dashboard_app_edit_desc:" ++ app_key)
  /\ arg_after_colon ("dashboard_app_edit_desc:" ++ app_key) = app_key.
Proof. split; reflexivity. Qed.

Lemma dispatch_app_edit_pin (app_key : string) (data : dict) :
  dispatch repr_dict zero_pad_year ("dashboard_app_edit_pin:" ++ app_key) data
  = branch_app_edit_pin repr_dict ("dashboard_app_edit_pin:" ++ app_key)
  /\ arg_after_colon ("dashboard_app_edit_pin:" ++ app_key) = app_key.
Proof. split; reflexivity. Qed.

Lemma dispatch_msg (rest : string) (data : dict) :
  dispatch repr_dict zero_pad_year ("dashboard_msg:" ++ rest) data
  = branch_msg ("dashboard_msg:" ++ rest).
Proof. reflexivity. Qed.

Lemma dispatch_sound (rest : string) (data : dict) :
  dispatch repr_dict zero_pad_year ("dashboard_sound:" ++ rest) data
  = branch_sound repr_dict ("dashboard_sound:" ++ rest).
Proof. reflexivity. Qed.

Lemma dispatch_flash (rest : string) (data : dict) :
  dispatch repr_dict zero_pad_year ("dashboard_flash:" ++ rest) data
  = branch_flash repr_dict ("dashboard_flash:" ++ rest).
Proof. reflexivity. Qed.

(** *** Arming *)

(** C1, as amended: arming an application edit replaces the application
    edit that was pending and arming a device message replaces the device
    message that was pending; either leaves the slot of the other kind as it
    was, writes nothing to the store and shows its prompt. *)
Theorem arming_replaces_its_own_slot
  (w : world) (app_key device_id : string) :
  Py.no_char ":" app_key = true ->
  let armed query_data p :=
    exists text keyboard,
      callback (Some owner_id) query_data w
      = (Done tt,
         World (db w) p
           (log w ++ [Answer; EditMessageText text (Some keyboard)])) in
  armed ("dashboard_app_edit_desc:" ++ app_key)
    (Pending (device_message_target (user_data w))
       (Some (AppTarget app_key "keterangan")))
  /\ armed ("dashboard_app_edit_pin:" ++ app_key)
       (Pending (device_message_target (user_data w))
          (Some (AppTarget app_key "kiosk_mode_pin")))
  /\ armed ("dashboard_msg:" ++ app_key ++ ":" ++ device_id)
       (Pending (Some (DeviceTarget app_key device_id))
          (app_edit_target (user_data w))).
Proof.
  intros Hcolon armed. unfold armed. repeat split.
  - rewrite callback_of_owner.
    destruct (dispatch_app_edit_desc app_key (db w)) as [-> Harg].
    unfold branch_app_edit_desc. rewrite Harg. run_monad.
    do 2 eexists. now rewrite <- app_assoc.
  - rewrite callback_of_owner.
    destruct (dispatch_app_edit_pin app_key (db w)) as [-> Harg].
    unfold branch_app_edit_pin. rewrite Harg. run_monad.
    do 2 eexists. now rewrite <- app_assoc.
  - rewrite callback_of_owner, dispatch_msg.
    unfold branch_msg.
    rewrite (two_args_msg app_key device_id Hcolon).
    run_monad. do 2 eexists. now rewrite <- app_assoc.
Qed.

(** *** Text messages *)

(** A device message armed with an empty application or device swallows the
    text and stays armed. *)
Lemma empty_device_target_swallows (w : world) (text : string)
  (dev : device_target) :
  device_message_target (user_data w) = Some dev ->
  String.eqb (dt_app_key dev) "" || String.eqb (dt_device_id dev) "" = true ->
  message (Some owner_id) text w = (Done tt, w).
Proof.
  intros Hdev Hempty. unfold device_message_handler.
  rewrite owner_is_owner. run_monad. rewrite Hdev. run_monad.
  now rewrite Hempty.
Qed.

(** The device branch of the text handler. *)
Lemma device_message_commits (w : world) (text : string)
  (dev : device_target) :
  device_message_target (user_data w) = Some dev ->
  dt_app_key dev <> "" -> dt_device_id dev <> "" ->
  let key :=
    dt_app_key dev ++ "/perangkat/" ++ dt_device_id dev
    ++ "/pesan_clear_virus" in
  let out := message (Some owner_id) text w in
  db (snd out) = Store.set_value key (NStr text) (db w)
  /\ user_data (snd out) = Pending None (app_edit_target (user_data w))
  /\ exists rest,
       log (snd out) = (log w ++ SetValue key (NStr text) :: rest)%list
       /\ forall k v, ~ In (SetValue k v) rest.
Proof.
  intros Hdev Ha Hd key out. subst out. unfold device_message_handler.
  rewrite owner_is_owner. run_monad. rewrite Hdev. run_monad.
  rewrite (eqb_empty_false _ Ha), (eqb_empty_false _ Hd). cbn [orb].
  run_monad. fold key.
  destruct (_build_device_detail_view repr_dict _ _ _) as [[t kb]|e];
    cbn [fst snd db user_data log]; repeat split.
  - exists [ReplyText t (Some kb)]. rewrite <- app_assoc. split; [reflexivity|].
    intros k v [H|[]]. discriminate H.
  - exists []. split; [reflexivity|]. intros k v [].
Qed.

(** The description branch of the text handler. *)
Lemma description_commits (w : world) (text app_key : string) :
  user_data w = Pending None (Some (AppTarget app_key "keterangan")) ->
  app_key <> "" ->
  message (Some owner_id) text w
  = (Done tt,
     World (Store.set_value (app_key ++ "/keterangan") (NStr text) (db w))
       (Pending None None)
       (log w ++ [SetValue (app_key ++ "/keterangan") (NStr text);
                  ReplyText (app_menu_text app_key)
                    (Some (app_menu_keyboard app_key))])).
Proof.
  intros Hud Ha. destruct w as [d ud lg]. cbn in Hud. subst ud.
  unfold device_message_handler.
  rewrite owner_is_owner. run_monad.
  rewrite (eqb_empty_false _ Ha). cbn [orb String.eqb Ascii.eqb Bool.eqb].
  run_monad. now rewrite <- app_assoc.
Qed.

(** The PIN branch of the text handler, on text that is not a number. *)
Lemma pin_rejected (w : world) (text app_key : string) :
  user_data w = Pending None (Some (AppTarget app_key "kiosk_mode_pin")) ->
  app_key <> "" ->
  Py.isdigit (Py.strip text) = false ->
  message (Some owner_id) text w
  = (Done tt,
     World (db w) (user_data w) (log w ++ [ReplyText pin_error None])).
Proof.
  intros Hud Ha Hbad. destruct w as [d ud lg]. cbn in Hud. subst ud.
  unfold device_message_handler.
  rewrite owner_is_owner. run_monad.
  rewrite (eqb_empty_false _ Ha). cbn [orb String.eqb Ascii.eqb Bool.eqb].
  rewrite Hbad. cbn [negb]. run_monad. reflexivity.
Qed.

(** The PIN branch of the text handler, on a number. *)
Lemma pin_commits (w : world) (text app_key : string) :
  user_data w = Pending None (Some (AppTarget app_key "kiosk_mode_pin")) ->
  app_key <> "" ->
  Py.strip text <> "" ->
  Py.all_chars Py.isdecimal (Py.strip text) = true ->
  String.length (Py.strip text) <= 4300 ->
  let key := app_key ++ "/kiosk_mode_pin" in
  let pin := NNum (Py.decimal_value 0 (Py.strip text)) in
  message (Some owner_id) text w
  = (Done tt,
     World (Store.set_value key pin (db w)) (Pending None None)
       (log w ++ [SetValue key pin;
                  ReplyText (app_menu_text app_key)
                    (Some (app_menu_keyboard app_key))])).
Proof.
  intros Hud Ha Hne Hdec Hlen key pin.
  destruct w as [d ud lg]. cbn in Hud. subst ud.
  unfold device_message_handler.
  rewrite owner_is_owner. run_monad.
  rewrite (eqb_empty_false _ Ha). cbn [orb String.eqb Ascii.eqb Bool.eqb].
  rewrite (decimals_are_digits _ Hne Hdec). cbn [negb].
  rewrite (int_of_decimals _ Hdec Hlen). run_monad.
  now rewrite <- app_assoc.
Qed.

(** C4, as amended: the text is stripped of surrounding white space before it
    is tested.  While a PIN edit is pending for an application and no device
    message is, text whose stripped form is not a run of digits gets the
    validation error, writes nothing and leaves the edit pending; text whose
    stripped form is a run of at most 4300 decimal digits then writes its
    numeric value to the application's [kiosk_mode_pin] and ends the edit. *)
Theorem pin_edit_retries (w : world) (app_key bad good : string) :
  user_data w = Pending None (Some (AppTarget app_key "kiosk_mode_pin")) ->
  app_key <> "" ->
  Py.isdigit (Py.strip bad) = false ->
  Py.strip good <> "" ->
  Py.all_chars Py.isdecimal (Py.strip good) = true ->
  String.length (Py.strip good) <= 4300 ->
  let key := app_key ++ "/kiosk_mode_pin" in
  let pin := NNum (Py.decimal_value 0 (Py.strip good)) in
  let first := message (Some owner_id) bad w in
  let second := message (Some owner_id) good (snd first) in
  first
  = (Done tt,
     World (db w) (user_data w) (log w ++ [ReplyText pin_error None]))
  /\ second
     = (Done tt,
        World (Store.set_value key pin (db w)) (Pending None None)
          (log w ++ [ReplyText pin_error None; SetValue key pin;
                     ReplyText (app_menu_text app_key)
                       (Some (app_menu_keyboard app_key))])).
Proof.
  intros Hud Ha Hbad Hne Hdec Hlen key pin first second.
  assert (H1 := pin_rejected w bad app_key Hud Ha Hbad). fold first in H1.
  split; [exact H1|].
  subst second. rewrite H1. cbn [snd].
  set (w1 := World (db w) (user_data w) (log w ++ [ReplyText pin_error None])).
  rewrite (pin_commits w1 good app_key Hud Ha Hne Hdec Hlen).
  subst w1. cbn [db user_data log]. fold key pin. now rewrite <- app_assoc.
Qed.

(** C9: with a device message and an application edit both armed, the text
    goes to the device message whatever was armed last; committing it
    empties the device slot alone, the application edit stays armed and takes
    the following message, and committing that one empties the application
    slot alone. *)
Theorem device_message_goes_first (w : world) (text text' : string)
  (dev : device_target) (app : app_target) :
  user_data w = Pending (Some dev) (Some app) ->
  dt_app_key dev <> "" -> dt_device_id dev <> "" ->
  let key :=
    dt_app_key dev ++ "/perangkat/" ++ dt_device_id dev
    ++ "/pesan_clear_virus" in
  let w1 := snd (message (Some owner_id) text w) in
  let w2 := snd (message (Some owner_id) text' w1) in
  db w1 = Store.set_value key (NStr text) (db w)
  /\ user_data w1 = Pending None (Some app)
  /\ (exists rest,
        log w1 = (log w ++ SetValue key (NStr text) :: rest)%list
        /\ forall k v, ~ In (SetValue k v) rest)
  /\ (at_app_key app <> "" -> at_field app = "keterangan" ->
      db w2
      = Store.set_value (at_app_key app ++ "/keterangan") (NStr text') (db w1)
      /\ user_data w2 = Pending None None)
  /\ (at_app_key app <> "" -> at_field app = "kiosk_mode_pin" ->
      Py.strip text' <> "" ->
      Py.all_chars Py.isdecimal (Py.strip text') = true ->
      String.length (Py.strip text') <= 4300 ->
      db w2
      = Store.set_value (at_app_key app ++ "/kiosk_mode_pin")
          (NNum (Py.decimal_value 0 (Py.strip text'))) (db w1)
      /\ user_data w2 = Pending None None).
Proof.
  intros Hud Ha Hd key w1 w2.
  assert (Hdev : device_message_target (user_data w) = Some dev)
    by now rewrite Hud.
  destruct (device_message_commits w text dev Hdev Ha Hd) as (Hdb & Hp & Hlog).
  fold w1 in Hdb, Hp, Hlog. rewrite Hud in Hp. cbn [app_edit_target] in Hp.
  destruct app as [app_key field]. cbn [at_app_key at_field].
  repeat split; try assumption; subst w2.
  - subst field. now rewrite (description_commits w1 text' app_key Hp H).
  - subst field. now rewrite (description_commits w1 text' app_key Hp H).
  - subst field. now rewrite (pin_commits w1 text' app_key Hp H H1 H2 H3).
  - subst field. now rewrite (pin_commits w1 text' app_key Hp H H1 H2 H3).
Qed.

(** *** The flat listing *)

Lemma list_loop_spec (shown : dict) (lines : list string) (cur : nat) :
  exists n,
    n <= List.length shown
    /\ list_loop repr_dict shown lines cur
       = (lines ++ map (list_line repr_dict) (firstn n shown))%list
    /\ (cur <= 3500 ->
        cur + lines_cost (map (list_line repr_dict) (firstn n shown)) <= 3500)
    /\ (n < List.length shown ->
        3500 < cur + lines_cost (map (list_line repr_dict) (firstn (S n) shown))).
Proof.
  revert lines cur.
  induction shown as [|item rest IH]; intros lines cur.
  - exists 0. cbn [list_loop]. rewrite firstn_nil. cbn [map List.length].
    rewrite app_nil_r. change (lines_cost []) with 0. repeat split; lia.
  - cbn [list_loop List.length].
    destruct (Nat.ltb_spec 3500
                (cur + String.length (list_line repr_dict item) + 1))
      as [Hover|Hfits].
    + exists 0. rewrite firstn_O, firstn_cons, firstn_O. cbn [map].
      rewrite app_nil_r, lines_cost_cons. change (lines_cost []) with 0.
      repeat split; lia.
    + destruct (IH (lines ++ [list_line repr_dict item])%list
                  (cur + String.length (list_line repr_dict item) + 1))
        as (n & Hn & Hrun & Hcost & Hmax).
      exists (S n). rewrite !firstn_cons. cbn [map].
      rewrite !lines_cost_cons, Hrun, <- app_assoc.
      repeat split; lia.
Qed.

(** The shape of the listing: the lines of the first [n] keys, whole, and
    the trailer when keys are left. *)
Lemma list_lines_shape (data : dict) :
  exists n,
    n <= 50 /\ n <= List.length data
    /\ list_lines repr_dict data
       = (map (list_line repr_dict) (firstn n data)
          ++ if (n <? List.length data)%nat
             then [list_trailer (List.length data - n)] else [])%list
    /\ lines_cost (map (list_line repr_dict) (firstn n data)) <= 3500
    /\ (n < Nat.min 50 (List.length data) ->
        3500 < lines_cost (map (list_line repr_dict) (firstn (S n) data))).
Proof.
  destruct (list_loop_spec (firstn 50 data) [] 0)
    as (n & Hn & Hrun & Hcost & Hmax).
  rewrite length_firstn in Hn, Hmax.
  assert (Hn50 : n <= 50) by lia.
  assert (Hnlen : n <= List.length data) by lia.
  rewrite firstn_firstn in Hrun, Hcost.
  rewrite (Nat.min_l n 50 Hn50) in Hrun, Hcost.
  exists n. repeat split; try assumption; try lia.
  - unfold list_lines. rewrite Hrun. cbn [app].
    rewrite length_map, length_firstn, (Nat.min_l _ _ Hnlen).
    destruct (n <? List.length data)%nat; [reflexivity|].
    now rewrite app_nil_r.
  - intros Hlt. specialize (Hmax Hlt).
    rewrite firstn_firstn in Hmax.
    rewrite (Nat.min_l (S n) 50) in Hmax by lia. lia.
Qed.

(** [list_command] for the owner of a store that is not empty. *)
Lemma list_command_replies (w : world) :
  db w <> [] ->
  list_command owner_id repr_dict (Some owner_id) w
  = (Done tt,
     World (db w) (user_data w)
       (log w ++ [ReplyText (Py.join Py.nl (list_lines repr_dict (db w))) None])).
Proof.
  destruct w as [d ud lg]. cbn [db user_data log]. intros Hne.
  unfold list_command. rewrite owner_is_owner. run_monad.
  unfold Store.list_keys. destruct d; [contradiction|reflexivity].
Qed.

(** The [dashboard_list] button builds the same listing, but its branch
    binds no [keyboard]: the common tail raises before anything is sent. *)
Lemma dashboard_list_is_never_sent (w : world) :
  callback (Some owner_id) "dashboard_list" w
  = (Raised PyUnboundLocalError,
     World (db w) (user_data w) (log w ++ [Answer]))
  /\ exists text,
       dispatch repr_dict zero_pad_year "dashboard_list" (db w)
       = ret (Tail text None)
       /\ (db w <> [] ->
           text = "ğŸ“‹ Semua data:" ++ Py.nl
                  ++ Py.join Py.nl (list_lines repr_dict (db w))).
Proof.
  destruct w as [d ud lg]. cbn [db user_data log]. split.
  - rewrite callback_of_owner. cbn [db user_data log].
    change (dispatch repr_dict zero_pad_year "dashboard_list" d)
      with (branch_list repr_dict d).
    unfold branch_list. destruct d; reflexivity.
  - change (dispatch repr_dict zero_pad_year "dashboard_list" d)
      with (branch_list repr_dict d).
    unfold branch_list. destruct d as [|item rest]; eexists; split;
      try reflexivity.
    intros H. now elim H.
Qed.

(** Showing more keys never counts less. *)
Lemma monotone_cost (data : dict) (k m : nat) :
  k <= m ->
  lines_cost (map (list_line repr_dict) (firstn k data))
  <= lines_cost (map (list_line repr_dict) (firstn m data)).
Proof.
  revert k m. induction data as [|item rest IH]; intros k m Hle.
  - rewrite !firstn_nil. lia.
  - destruct k as [|k]; [rewrite firstn_O; cbn; lia|].
    destruct m as [|m]; [lia|].
    rewrite !firstn_cons. cbn [map]. rewrite !lines_cost_cons.
    specialize (IH k m). lia.
Qed.

(** C8: the listing consists of the lines of the first [n] keys, each line
    whole: the key, [" = "] and the value, where a mapping shows as its
    number of items, a scalar of at most 100 characters as it is and a
    longer one as its first 100 characters and an ellipsis.  What the loop
    counts for these lines (each line and its line break) stays within
    3500, and [n] is as large as that allows: either all of the first 50
    keys are shown or the line of the next key would go beyond 3500.  When
    keys are left out the listing ends with the trailer, whose number is
    exactly the number of keys left out, and with no trailer otherwise.
    [list_command] replies with these lines. *)
Theorem listing_is_cut_at_whole_lines (w : world) :
  let data := db w in
  let shown (value : node) : string :=
    match value with
    | NDict kvs => "[object] " ++ Py.str_of_nat (List.length kvs) ++ " item"
    | _ =>
        if (100 <? String.length (str repr_dict value))%nat
        then Py.take 100 (str repr_dict value) ++ "..."
        else str repr_dict value
    end in
  let line (item : string * node) : string :=
    fst item ++ " = " ++ shown (snd item) in
  let cost (lines : list string) : nat :=
    fold_right (fun line acc => String.length line + 1 + acc) 0 lines in
  let trailer (remaining : nat) : string :=
    "... dan " ++ Py.str_of_nat remaining
    ++ " key lainnya. Gunakan /get <key> untuk melihat detail." in
  exists n,
    n <= List.length data
    /\ n <= 50
    /\ list_lines repr_dict data
       = (map line (firstn n data)
          ++ if (n <? List.length data)%nat
             then [trailer (List.length data - n)] else [])%list
    /\ cost (map line (firstn n data)) <= 3500
    /\ String.length (Py.join Py.nl (map line (firstn n data))) <= 3500
    /\ (n < Nat.min 50 (List.length data) ->
        3500 < cost (map line (firstn (S n) data)))
    /\ (forall value,
          (forall kvs, value <> NDict kvs) ->
          100 < String.length (str repr_dict value) ->
          String.length (shown value) = 103)
    /\ (data <> [] ->
        list_command owner_id repr_dict (Some owner_id) w
        = (Done tt,
           World (db w) (user_data w)
             (log w
              ++ [ReplyText (Py.join Py.nl (list_lines repr_dict data)) None]))).
Proof.
  intros data shown line cost trailer.
  destruct (list_lines_shape data) as (n & Hn50 & Hn & Hshape & Hcost & Hmax).
  exists n.
  split; [exact Hn|]. split; [exact Hn50|]. split; [exact Hshape|].
  split; [exact Hcost|]. split; [|split; [exact Hmax|split]].
  - eapply Nat.le_trans; [apply length_join_lines|exact Hcost].
  - intros value Hscalar Hlong. subst shown. cbv beta.
    apply Nat.ltb_lt in Hlong.
    destruct value as [x|z|kvs]; [| |now elim (Hscalar kvs)];
      rewrite Hlong, string_length_app, length_take;
      first [reflexivity|apply Nat.ltb_lt in Hlong; lia].
  - apply list_command_replies.
Qed.

(** C10: the listing never has more than 50 key lines: when the lines of
    the first 50 keys stay within the 3500 characters, exactly the first 50
    keys (or all, when there are fewer) are shown, however short the lines
    are.  The trailer, spelled with its number, counts every key after the
    lines shown, those beyond the fiftieth included: with more than 50
    keys there always is a trailer and its number is at least the number
    of keys beyond the fiftieth. *)
Theorem listing_stops_at_fifty_keys (data : dict) :
  let shown (value : node) : string :=
    match value with
    | NDict kvs => "[object] " ++ Py.str_of_nat (List.length kvs) ++ " item"
    | _ =>
        if (100 <? String.length (str repr_dict value))%nat
        then Py.take 100 (str repr_dict value) ++ "..."
        else str repr_dict value
    end in
  let line (item : string * node) : string :=
    fst item ++ " = " ++ shown (snd item) in
  let cost (lines : list string) : nat :=
    fold_right (fun line acc => String.length line + 1 + acc) 0 lines in
  let trailer (remaining : nat) : string :=
    "... dan " ++ Py.str_of_nat remaining
    ++ " key lainnya. Gunakan /get <key> untuk melihat detail." in
  exists n,
    n <= 50
    /\ n <= List.length data
    /\ list_lines repr_dict data
       = (map line (firstn n data)
          ++ if (n <? List.length data)%nat
             then [trailer (List.length data - n)] else [])%list
    /\ (cost (map line (firstn 50 data)) <= 3500 ->
        n = Nat.min 50 (List.length data))
    /\ (50 < List.length data ->
        list_lines repr_dict data
        = (map line (firstn n data)
           ++ [trailer (List.length data - n)])%list
        /\ List.length data - 50 <= List.length data - n).
Proof.
  intros shown line cost trailer.
  destruct (list_lines_shape data) as (n & Hn50 & Hn & Hshape & Hcost & Hmax).
  exists n.
  split; [exact Hn50|]. split; [exact Hn|]. split; [exact Hshape|]. split.
  - intros Hroom.
    destruct (Nat.lt_ge_cases n (Nat.min 50 (List.length data)))
      as [Hlt|Hge]; [|lia].
    specialize (Hmax Hlt). exfalso.
    pose proof (monotone_cost data (S n) 50 ltac:(lia)) as Hmono.
    change (lines_cost (map (list_line repr_dict) (firstn 50 data)) <= 3500)
      in Hroom.
    lia.
  - intros Hmore. split; [|lia].
    etransitivity; [exact Hshape|].
    assert (Hlt : (n <? List.length data)%nat = true)
      by (apply Nat.ltb_lt; lia).
    now rewrite Hlt.
Qed.

(** *** The devices screen *)

Lemma mem_In (x : string) (l : list string) :
  Py.mem x l = true <-> In x l.
Proof.
  induction l as [|y l IH]; simpl; [intuition discriminate|].
  rewrite orb_true_iff, IH, String.eqb_eq. reflexivity.
Qed.

Lemma index_of_In (x : string) (l : list string) :
  In x l -> exists i, Py.index x l = Some i /\ nth_error l i = Some x.
Proof.
  induction l as [|y l IH]; simpl; [intros []|].
  intros H. destruct (String.eqb_spec y x) as [->|Hne].
  - exists 0. split; reflexivity.
  - destruct H as [H|H]; [contradiction|].
    destruct (IH H) as (i & -> & Hi). exists (S i). split; [reflexivity|exact Hi].
Qed.

Lemma group_of_key (k : string) (g : list (string * list device_item)) :
  In k (map fst g) -> exists items, group_of k g = Some items.
Proof.
  induction g as [|[k' items] g IH]; simpl; [intros []|].
  intros H. destruct (String.eqb_spec k' k) as [->|Hne]; [now eexists|].
  destruct H as [H|H]; [contradiction|now apply IH].
Qed.

Lemma setdefault_append_not_nil (k : string) (item : device_item)
  (g : list (string * list device_item)) :
  setdefault_append k item g <> [].
Proof.
  destruct g as [|[k' items] g]; simpl; [discriminate|].
  destruct (String.eqb k' k); discriminate.
Qed.

Lemma group_devices_not_nil (devices : dict) :
  devices <> [] -> group_devices zero_pad_year devices <> [].
Proof.
  unfold group_devices.
  assert (Hkeep : forall l g, g <> [] ->
    fold_left
      (fun date_groups (entry : string * node) =>
         let '(device_id, device_data) := entry in
         let '(date_key, dt) := date_key_of zero_pad_year device_data in
         setdefault_append date_key (device_id, device_data, dt) date_groups)
      l g <> []).
  { induction l as [|[id data] l IH]; intros g Hg; simpl; [exact Hg|].
    apply IH. destruct (date_key_of zero_pad_year data).
    apply setdefault_append_not_nil. }
  destruct devices as [|[id data] rest]; [congruence|]. intros _.
  unfold group_devices. simpl. apply Hkeep.
  destruct (date_key_of zero_pad_year data). discriminate.
Qed.

Lemma pagination_row_neighbours (app_key : string)
  (sorted_dates : list string) (idx : nat) :
  pagination_row app_key sorted_dates idx
  = (neighbour_button prev_day_label app_key (nth_error sorted_dates (idx + 1))
     ++ neighbour_button next_day_label app_key
          (match idx with
           | O => None
           | S i => nth_error sorted_dates i
           end))%list.
Proof.
  unfold pagination_row, neighbour_button. f_equal.
  - destruct (Nat.ltb_spec (idx + 1) (List.length sorted_dates)) as [Hlt|Hge].
    + reflexivity.
    + apply nth_error_None in Hge. now rewrite Hge.
  - destruct idx as [|i].
    + reflexivity.
    + replace (0 <=? Z.of_nat (S i) - 1)%Z with true
        by (symmetry; apply Z.leb_le; lia).
      now replace (S i - 1) with i by lia.
Qed.

(** The bucket list of the screen is in descending order of its sort key. *)
Lemma sorted_dates_descending
  (date_groups : list (string * list device_item)) (i j : nat)
  (earlier later : string) :
  i < j ->
  nth_error (sorted_dates_of date_groups) i = Some earlier ->
  nth_error (sorted_dates_of date_groups) j = Some later ->
  sort_key_leb (_date_sort_key later) (_date_sort_key earlier) = true.
Proof.
  intros Hij Hi Hj.
  apply (sorted_positions sort_key_leb _date_sort_key
           (sorted_dates_of date_groups) i j earlier later);
    try assumption.
  apply sorted_reverse_sorted.
  - exact sort_key_leb_total.
  - exact sort_key_leb_trans.
Qed.

(** A device without a usable timestamp (not a mapping, no [waktu] or
    [waktu_start] that is a string, or a string [strptime] refuses) goes to
    the bucket ["unknown"] with the minimum timestamp. *)
Lemma no_timestamp_is_unknown (device_data : node) :
  (forall d value,
      device_data = NDict d ->
      Py.or_opt (Py.lookup "waktu" d) (Py.lookup "waktu_start" d)
      = Some (NStr value) ->
      Datetime.strptime_dmY_HMS value = None) ->
  date_key_of zero_pad_year device_data = ("unknown", Datetime.min).
Proof.
  intros H. destruct device_data as [s|z|d]; try reflexivity.
  unfold date_key_of, _parse_device_datetime.
  specialize (H d).
  destruct (Py.or_opt (Py.lookup "waktu" d) (Py.lookup "waktu_start" d))
    as [[value|z|kvs]|]; try reflexivity.
  now rewrite (H value eq_refl eq_refl).
Qed.

(** In the bucket list ["unknown"] comes after every bucket whose sort key
    is a date later than the minimum date. *)
Lemma unknown_after_later_dates
  (date_groups : list (string * list device_item)) (i j : nat)
  (date_key : string) (d : Datetime.date) :
  nth_error (sorted_dates_of date_groups) i = Some "unknown" ->
  nth_error (sorted_dates_of date_groups) j = Some date_key ->
  _date_sort_key date_key = (d, 0%Z) ->
  Datetime.date_leb d Datetime.date_min = false ->
  j < i.
Proof.
  intros Hi Hj Hkey Hlater.
  destruct (Nat.lt_trichotomy j i) as [Hlt|[Heq|Hgt]]; [exact Hlt| |].
  - subst j. rewrite Hi in Hj. injection Hj as <-. discriminate Hkey.
  - pose proof (sorted_dates_descending date_groups i j "unknown" date_key
                  Hgt Hi Hj) as Hle.
    rewrite Hkey in Hle. destruct d as [[y m] dd].
    change (_date_sort_key "unknown") with (Datetime.date_min, 1%Z) in Hle.
    unfold sort_key_leb, Datetime.date_min in Hle.
    unfold Datetime.date_leb, Datetime.date_min in Hlater.
    cbn [Datetime.lex_leb] in Hle, Hlater.
    destruct (y <? 1)%Z; [discriminate|].
    destruct (y =? 1)%Z; [|discriminate]. cbn [orb andb] in Hle, Hlater.
    destruct (m <? 1)%Z; [discriminate|].
    destruct (m =? 1)%Z; [|discriminate]. cbn [orb andb] in Hle, Hlater.
    destruct (dd <? 1)%Z; [discriminate|].
    destruct (dd =? 1)%Z; discriminate.
Qed.

(** C3: a devices screen with buckets always comes out.  Its keyboard is
    the row of each device of the selected bucket, then the pagination row,
    then the two rows that lead back, and nothing else.  The pagination row
    holds the "previous day" button exactly when a bucket follows the
    selected one in the descending list, and that button leads to that
    bucket (position [idx + 1], never newer than the selected one); it
    holds the "next day" button exactly when a bucket precedes the selected
    one, and that button leads to that bucket (position [idx - 1], never
    older); the row is left out when there is neither.  The selected bucket
    is the requested one when it exists and the first of the list
    otherwise. *)
Theorem pagination_leads_to_the_neighbours
  (firebase_client : Store.store) (app_key selected_date : string)
  (entries : dict) :
  perangkat_of
    (Py.or_else (Store.get_value app_key firebase_client) (NDict []))
  = NDict entries ->
  entries <> [] ->
  let sorted_dates := sorted_dates_of (group_devices zero_pad_year entries) in
  let page (label bucket : string) : button :=
    (label, "dashboard_devices:" ++ app_key ++ ":" ++ bucket) in
  let device_row (item : device_item) : list button :=
    let '(device_id, device_data, _) := item in
    [ (match device_data with
       | NDict d =>
           str repr_dict
             (Py.or_else (Py.lookup "nama_perangkat" d) (NStr device_id))
       | _ => str repr_dict device_data
       end,
       "dashboard_device:" ++ app_key ++ ":" ++ device_id) ] in
  let back : keyboard :=
    [ [ ("â¬…ï¸ Kembali ke aplikasi", "dashboard_app:" ++ app_key) ];
      [ ("ğŸ“Š Kembali ke dashboard", "dashboard_refresh") ] ] in
  exists selected idx group,
    Py.index selected sorted_dates = Some idx
    /\ nth_error sorted_dates idx = Some selected
    /\ group_of selected (group_devices zero_pad_year entries) = Some group
    /\ devices_view repr_dict zero_pad_year firebase_client app_key selected_date
       = Done
           ("ğŸ“± Perangkat aplikasi: " ++ app_key ++ Py.nl
            ++ "Tanggal: "
            ++ (if String.eqb selected "unknown"
                then "Tanggal tidak diketahui" else selected)
            ++ Py.nl ++ "Pilih perangkat:",
            (map device_row
               (sorted_reverse Datetime.leb
                  (fun item : device_item => snd item) group)
             ++ match
                  nth_error sorted_dates (idx + 1),
                  match idx with
                  | O => None
                  | S i => nth_error sorted_dates i
                  end
                with
                | None, None => []
                | Some older, None => [[page "â¬…ï¸ Hari sebelumnya" older]]
                | None, Some newer => [[page "Hari berikutnya â¡ï¸" newer]]
                | Some older, Some newer =>
                    [[page "â¬…ï¸ Hari sebelumnya" older; page "Hari berikutnya â¡ï¸" newer]]
                end
             ++ back)%list)
    /\ (selected_date <> "" -> In selected_date sorted_dates ->
        selected = selected_date)
    /\ (selected_date = "" \/ ~ In selected_date sorted_dates ->
        nth_error sorted_dates 0 = Some selected)
    /\ (forall older,
          nth_error sorted_dates (idx + 1) = Some older ->
          sort_key_leb (_date_sort_key older) (_date_sort_key selected) = true)
    /\ (forall i newer,
          idx = S i -> nth_error sorted_dates i = Some newer ->
          sort_key_leb (_date_sort_key selected) (_date_sort_key newer) = true).
Proof.
  intros Hdev Hne sorted_dates page device_row back.
  set (date_groups := group_devices zero_pad_year entries).
  assert (Hkeys : forall k, In k sorted_dates <-> In k (map fst date_groups))
    by (intros k; apply sorted_reverse_in).
  assert (Hfirst : exists first, nth_error sorted_dates 0 = Some first).
  { pose proof (group_devices_not_nil entries Hne) as Hg. fold date_groups in Hg.
    destruct date_groups as [|[k items] rest] eqn:Eg; [congruence|].
    assert (Hin : In k sorted_dates) by (apply Hkeys; now left).
    destruct sorted_dates as [|first l]; [destruct Hin|]. now exists first. }
  destruct Hfirst as [first Hfirst].
  set (chosen :=
         if String.eqb selected_date ""
            || negb (Py.mem selected_date (map fst date_groups))
         then nth_error sorted_dates 0 else Some selected_date).
  assert (Hchosen : exists selected,
    chosen = Some selected /\ In selected sorted_dates
    /\ (selected_date <> "" -> In selected_date sorted_dates ->
        selected = selected_date)
    /\ (selected_date = "" \/ ~ In selected_date sorted_dates ->
        nth_error sorted_dates 0 = Some selected)).
  { subst chosen.
    destruct (String.eqb_spec selected_date "") as [Hempty|Hnonempty].
    - cbn [orb]. exists first.
      split; [exact Hfirst|]. split; [eapply nth_error_In, Hfirst|].
      split; [intros Hx; contradiction|intros _; exact Hfirst].
    - cbn [orb]. destruct (Py.mem selected_date (map fst date_groups)) eqn:Hmem;
        cbn [negb].
      + apply mem_In in Hmem. apply Hkeys in Hmem.
        exists selected_date.
        split; [reflexivity|]. split; [exact Hmem|].
        split; [reflexivity|intros [Hx|Hx]; contradiction].
      + exists first.
        split; [exact Hfirst|]. split; [eapply nth_error_In, Hfirst|].
        split; [|intros _; exact Hfirst].
        intros _ Hin. apply Hkeys, mem_In in Hin. congruence. }
  destruct Hchosen as (selected & Hsel & Hin & Hsame & Hdefault).
  destruct (group_of_key selected date_groups (proj1 (Hkeys selected) Hin))
    as [group Hgroup].
  destruct (index_of_In selected sorted_dates Hin) as (idx & Hidx & Hnth).
  exists selected, idx, group.
  split; [exact Hidx|]. split; [exact Hnth|]. split; [exact Hgroup|].
  split; [|split; [exact Hsame|split; [exact Hdefault|split]]].
  - unfold devices_view. rewrite Hdev.
    assert (Htruthy : Py.truthy (NDict entries) = true)
      by (destruct entries; [congruence|reflexivity]).
    rewrite Htruthy. cbn [negb items_of].
    cbv zeta. fold date_groups.
    change (sorted_dates_of date_groups) with sorted_dates.
    fold chosen. rewrite Hsel, Hgroup, Hidx.
    rewrite pagination_row_neighbours, <- app_assoc.
    destruct (nth_error sorted_dates (idx + 1)) as [older|];
      destruct (match idx with
                | O => None
                | S i => nth_error sorted_dates i
                end) as [newer|]; reflexivity.
  - intros older Holder.
    apply (sorted_dates_descending date_groups idx (idx + 1) selected older);
      [lia|assumption|assumption].
  - intros i newer -> Hnewer.
    apply (sorted_dates_descending date_groups i (S i) newer selected);
      [lia|assumption|assumption].
Qed.

(** *** The sound and flash toggles *)

(** The device as both the toggle and the detail screen read it once a
    field of it has been written. *)
Lemma device_after_field_write
  (app_key device_id field new_value : string) (firebase_client : Store.store) :
  Store.is_segment device_id = true -> Store.is_segment field = true ->
  new_value <> "" ->
  let written :=
    Store.set_value (app_key ++ "/perangkat/" ++ device_id ++ "/" ++ field)
      (NStr new_value) firebase_client in
  exists d,
    Py.lookup field d = Some (NStr new_value)
    /\ current_setting repr_dict field written app_key device_id
       = Done (Py.lower new_value)
    /\ _build_device_detail_view repr_dict written app_key device_id
       = Done
           (Py.join Py.nl
              (("ğŸ“± Perangkat: " ++ device_id)
               :: List.app (detail_fields repr_dict d)
                    [""; "Pilih menu di bawah:"]),
            detail_keyboard app_key device_id
              (str repr_dict (Py.or_else (Py.lookup "suara" d) (NStr "off")))
              (str repr_dict (Py.or_else (Py.lookup "flash" d) (NStr "-")))).
Proof.
  intros Hd Hf Hne written.
  destruct (get_value_after_field_write app_key device_id field
              (NStr new_value) firebase_client Hd Hf)
    as (app_rest & devices_rest & fields_rest & Hget).
  fold written in Hget.
  exists (Py.update field (NStr new_value) fields_rest).
  assert (Hnew : Py.truthy (NStr new_value) = true)
    by (simpl; now rewrite (eqb_empty_false _ Hne)).
  split; [apply lookup_update_same|]. split.
  - unfold current_setting. rewrite Hget.
    rewrite or_else_truthy by apply truthy_update.
    unfold perangkat_of. rewrite lookup_update_same.
    rewrite or_else_truthy by apply truthy_update.
    cbn [get_attr]. rewrite lookup_update_same.
    rewrite or_else_truthy by apply truthy_update.
    rewrite lookup_update_same, (or_else_truthy _ _ Hnew). reflexivity.
  - unfold _build_device_detail_view. rewrite Hget.
    rewrite or_else_truthy by apply truthy_update.
    unfold perangkat_of. rewrite lookup_update_same.
    rewrite or_else_truthy by apply truthy_update.
    cbn [get_attr]. rewrite lookup_update_same.
    rewrite or_else_truthy by apply truthy_update.
    rewrite truthy_update. reflexivity.
Qed.

(** One press of a toggle button, from a state in which the toggle reads
    [current]: the successor is written and the device is drawn again from
    the store as written. *)
Lemma toggle_press (field : string) (next : string -> string)
  (query_data app_key device_id current : string) (w : world) :
  two_args query_data = (app_key, device_id) ->
  Store.is_segment device_id = true -> Store.is_segment field = true ->
  next current <> "" ->
  current_setting repr_dict field (db w) app_key device_id = Done current ->
  let key := app_key ++ "/perangkat/" ++ device_id ++ "/" ++ field in
  let written := Store.set_value key (NStr (next current)) (db w) in
  exists text keyboard,
    _build_device_detail_view repr_dict written app_key device_id
    = Done (text, keyboard)
    /\ branch_toggle repr_dict field next query_data w
       = (Done Returned,
          World written (user_data w)
            (log w ++ [SetValue key (NStr (next current));
                       EditMessageText text (Some keyboard)]))
    /\ current_setting repr_dict field written app_key device_id
       = Done (Py.lower (next current))
    /\ exists d,
         Py.lookup field d = Some (NStr (next current))
         /\ keyboard
            = detail_keyboard app_key device_id
                (str repr_dict (Py.or_else (Py.lookup "suara" d) (NStr "off")))
                (str repr_dict (Py.or_else (Py.lookup "flash" d) (NStr "-"))).
Proof.
  intros Hargs Hd Hf Hnext Hcur key written.
  destruct (device_after_field_write app_key device_id field (next current)
              (db w) Hd Hf Hnext) as (d & Hfield & Hread & Hview).
  fold key in Hread, Hview. fold written in Hread, Hview.
  do 2 eexists. split; [exact Hview|]. split; [|split; [exact Hread|]].
  - unfold branch_toggle. rewrite Hargs. run_monad. rewrite Hcur.
    cbn [fst snd db user_data log]. fold key. fold written. rewrite Hview.
    cbn [fst snd db user_data log]. now rewrite <- app_assoc.
  - exists d. split; [exact Hfield|reflexivity].
Qed.

Lemma callback_after_toggle (query_data : string) (w w1 : world) :
  dispatch repr_dict zero_pad_year query_data (db w)
    (World (db w) (user_data w) (log w ++ [Answer]))
  = (Done Returned, w1) ->
  callback (Some owner_id) query_data w = (Done tt, w1).
Proof. intros H. rewrite callback_of_owner. cbv zeta. now rewrite H. Qed.

Lemma next_sound_values (current : string) :
  next_sound current = "on" \/ next_sound current = "off".
Proof. unfold next_sound. destruct (String.eqb current "on"); auto. Qed.

Lemma next_flash_values (current : string) :
  next_flash current = "kedip" \/ next_flash current = "on"
  \/ next_flash current = "off".
Proof.
  unfold next_flash.
  destruct (String.eqb current "kedip"); [auto|].
  destruct (String.eqb current "on"); auto.
Qed.

(** One press of the sound button. *)
Lemma sound_press (w : world) (app_key device_id current : string) :
  Py.no_char ":" app_key = true ->
  Store.is_segment device_id = true ->
  current_setting repr_dict "suara" (db w) app_key device_id = Done current ->
  let key := app_key ++ "/perangkat/" ++ device_id ++ "/suara" in
  let written := Store.set_value key (NStr (next_sound current)) (db w) in
  exists text flash_label,
    callback (Some owner_id)
      ("dashboard_sound:" ++ app_key ++ ":" ++ device_id) w
    = (Done tt,
       World written (user_data w)
         (log w
          ++ [Answer; SetValue key (NStr (next_sound current));
              EditMessageText text
                (Some (detail_keyboard app_key device_id
                         (next_sound current) flash_label))]))
    /\ _build_device_detail_view repr_dict written app_key device_id
       = Done (text,
               detail_keyboard app_key device_id (next_sound current)
                 flash_label)
    /\ current_setting repr_dict "suara" written app_key device_id
       = Done (next_sound current).
Proof.
  intros Hcolon Hseg Hcur key written.
  assert (Hnext : next_sound current <> "")
    by (destruct (next_sound_values current) as [->| ->]; discriminate).
  destruct (toggle_press "suara" next_sound
              ("dashboard_sound:" ++ app_key ++ ":" ++ device_id)
              app_key device_id current
              (World (db w) (user_data w) (log w ++ [Answer]))
              (two_args_sound app_key device_id Hcolon) Hseg eq_refl Hnext Hcur)
    as (text & keyboard & Hview & Hrun & Hread & d & Hfield & Hkb).
  cbn [db user_data log] in Hview, Hrun, Hread.
  fold key in Hview, Hrun, Hread. fold written in Hview, Hrun, Hread.
  assert (Hlabel :
    str repr_dict (Py.or_else (Py.lookup "suara" d) (NStr "off"))
    = next_sound current).
  { rewrite Hfield.
    destruct (next_sound_values current) as [->| ->]; reflexivity. }
  rewrite Hlabel in Hkb. subst keyboard.
  exists text. eexists. split; [|split].
  - apply callback_after_toggle. rewrite dispatch_sound.
    unfold branch_sound. rewrite Hrun. now rewrite <- app_assoc.
  - exact Hview.
  - etransitivity; [exact Hread|].
    destruct (next_sound_values current) as [->| ->]; reflexivity.
Qed.

(** One press of the flash button. *)
Lemma flash_press (w : world) (app_key device_id current : string) :
  Py.no_char ":" app_key = true ->
  Store.is_segment device_id = true ->
  current_setting repr_dict "flash" (db w) app_key device_id = Done current ->
  let key := app_key ++ "/perangkat/" ++ device_id ++ "/flash" in
  let written := Store.set_value key (NStr (next_flash current)) (db w) in
  exists text suara_label,
    callback (Some owner_id)
      ("dashboard_flash:" ++ app_key ++ ":" ++ device_id) w
    = (Done tt,
       World written (user_data w)
         (log w
          ++ [Answer; SetValue key (NStr (next_flash current));
              EditMessageText text
                (Some (detail_keyboard app_key device_id suara_label
                         (next_flash current)))]))
    /\ _build_device_detail_view repr_dict written app_key device_id
       = Done (text,
               detail_keyboard app_key device_id suara_label
                 (next_flash current))
    /\ current_setting repr_dict "flash" written app_key device_id
       = Done (next_flash current).
Proof.
  intros Hcolon Hseg Hcur key written.
  assert (Hnext : next_flash current <> "")
    by (destruct (next_flash_values current) as [->|[->| ->]]; discriminate).
  destruct (toggle_press "flash" next_flash
              ("dashboard_flash:" ++ app_key ++ ":" ++ device_id)
              app_key device_id current
              (World (db w) (user_data w) (log w ++ [Answer]))
              (two_args_flash app_key device_id Hcolon) Hseg eq_refl Hnext Hcur)
    as (text & keyboard & Hview & Hrun & Hread & d & Hfield & Hkb).
  cbn [db user_data log] in Hview, Hrun, Hread.
  fold key in Hview, Hrun, Hread. fold written in Hview, Hrun, Hread.
  assert (Hlabel :
    str repr_dict (Py.or_else (Py.lookup "flash" d) (NStr "-"))
    = next_flash current).
  { rewrite Hfield.
    destruct (next_flash_values current) as [->|[->| ->]]; reflexivity. }
  rewrite Hlabel in Hkb. subst keyboard.
  exists text. eexists. split; [|split].
  - apply callback_after_toggle. rewrite dispatch_flash.
    unfold branch_flash. rewrite Hrun. now rewrite <- app_assoc.
  - exact Hview.
  - etransitivity; [exact Hread|].
    destruct (next_flash_values current) as [->|[->| ->]]; reflexivity.
Qed.

(** C5: the sound button reads the field (absent is read as ["off"]),
    writes the other value of on/off and at once draws the device again,
    with the new value on its sound button; two presses bring the value read
    back to what it was. *)
Theorem sound_toggle_twice_restores
  (w : world) (app_key device_id current : string) :
  Py.no_char ":" app_key = true ->
  Store.is_segment device_id = true ->
  current_setting repr_dict "suara" (db w) app_key device_id = Done current ->
  current = "on" \/ current = "off" ->
  let press :=
    callback (Some owner_id)
      ("dashboard_sound:" ++ app_key ++ ":" ++ device_id) in
  let key := app_key ++ "/perangkat/" ++ device_id ++ "/suara" in
  let redrawn from new_value out :=
    exists text flash_label,
      out
      = (Done tt,
         World (Store.set_value key (NStr new_value) (db from))
           (user_data from)
           (log from
            ++ [Answer; SetValue key (NStr new_value);
                EditMessageText text
                  (Some (detail_keyboard app_key device_id new_value
                           flash_label))]))
      /\ _build_device_detail_view repr_dict (db (snd out)) app_key device_id
         = Done (text,
                 detail_keyboard app_key device_id new_value flash_label) in
  let w1 := snd (press w) in
  let w2 := snd (press w1) in
  redrawn w (next_sound current) (press w)
  /\ redrawn w1 current (press w1)
  /\ current_setting repr_dict "suara" (db w1) app_key device_id
     = Done (next_sound current)
  /\ next_sound current <> current
  /\ current_setting repr_dict "suara" (db w2) app_key device_id
     = Done current.
Proof.
  intros Hcolon Hseg Hcur Hvalue press key redrawn w1 w2.
  destruct (sound_press w app_key device_id current Hcolon Hseg Hcur)
    as (text1 & flash1 & Hrun1 & Hview1 & Hread1).
  fold press key in Hrun1. fold key in Hview1, Hread1.
  assert (Hw1 : w1 = snd (press w)) by reflexivity.
  rewrite Hrun1 in Hw1. cbn [snd] in Hw1.
  assert (Hread1' :
    current_setting repr_dict "suara" (db w1) app_key device_id
    = Done (next_sound current)) by (rewrite Hw1; exact Hread1).
  destruct (sound_press w1 app_key device_id (next_sound current)
              Hcolon Hseg Hread1')
    as (text2 & flash2 & Hrun2 & Hview2 & Hread2).
  fold press key in Hrun2. fold key in Hview2, Hread2.
  assert (Hback : next_sound (next_sound current) = current)
    by (destruct Hvalue as [->| ->]; reflexivity).
  rewrite Hback in Hrun2, Hview2, Hread2.
  assert (Hw2 : w2 = snd (press w1)) by reflexivity.
  rewrite Hrun2 in Hw2. cbn [snd] in Hw2.
  split; [|split; [|split; [|split]]].
  - exists text1, flash1. split; [exact Hrun1|].
    rewrite Hrun1. exact Hview1.
  - exists text2, flash2. split; [exact Hrun2|].
    rewrite Hrun2. exact Hview2.
  - exact Hread1'.
  - destruct Hvalue as [->| ->]; discriminate.
  - rewrite Hw2. exact Hread2.
Qed.

(** C6: the flash button reads the field (absent is read as ["off"]) and
    writes its successor in the cycle off, kedip, on, off, then draws the
    device again; one press and two presses leave a value other than the
    original, three presses bring the value read back to what it was. *)
Theorem flash_cycle_returns_after_three
  (w : world) (app_key device_id current : string) :
  Py.no_char ":" app_key = true ->
  Store.is_segment device_id = true ->
  current_setting repr_dict "flash" (db w) app_key device_id = Done current ->
  current = "off" \/ current = "kedip" \/ current = "on" ->
  let press :=
    callback (Some owner_id)
      ("dashboard_flash:" ++ app_key ++ ":" ++ device_id) in
  let key := app_key ++ "/perangkat/" ++ device_id ++ "/flash" in
  let read w' := current_setting repr_dict "flash" (db w') app_key device_id in
  let written from new_value out :=
    db out = Store.set_value key (NStr new_value) (db from)
    /\ exists text keyboard,
         _build_device_detail_view repr_dict (db out) app_key device_id
         = Done (text, keyboard)
         /\ log out
            = (log from
               ++ [Answer; SetValue key (NStr new_value);
                   EditMessageText text (Some keyboard)])%list in
  let w1 := snd (press w) in
  let w2 := snd (press w1) in
  let w3 := snd (press w2) in
  next_flash "off" = "kedip" /\ next_flash "kedip" = "on"
  /\ next_flash "on" = "off"
  /\ written w (next_flash current) w1
  /\ written w1 (next_flash (next_flash current)) w2
  /\ written w2 current w3
  /\ read w1 = Done (next_flash current)
  /\ read w2 = Done (next_flash (next_flash current))
  /\ read w3 = Done current
  /\ next_flash current <> current
  /\ next_flash (next_flash current) <> current.
Proof.
  intros Hcolon Hseg Hcur Hvalue press key read written w1 w2 w3.
  destruct (flash_press w app_key device_id current Hcolon Hseg Hcur)
    as (text1 & suara1 & Hrun1 & Hview1 & Hread1).
  fold press key in Hrun1. fold key in Hread1, Hview1.
  assert (Hw1 : w1 = snd (press w)) by reflexivity.
  rewrite Hrun1 in Hw1. cbn [snd] in Hw1.
  assert (Hread1' : read w1 = Done (next_flash current))
    by (unfold read; rewrite Hw1; exact Hread1).
  destruct (flash_press w1 app_key device_id (next_flash current)
              Hcolon Hseg Hread1')
    as (text2 & suara2 & Hrun2 & Hview2 & Hread2).
  fold press key in Hrun2. fold key in Hread2, Hview2.
  assert (Hw2 : w2 = snd (press w1)) by reflexivity.
  rewrite Hrun2 in Hw2. cbn [snd] in Hw2.
  assert (Hread2' : read w2 = Done (next_flash (next_flash current)))
    by (unfold read; rewrite Hw2; exact Hread2).
  destruct (flash_press w2 app_key device_id
              (next_flash (next_flash current)) Hcolon Hseg Hread2')
    as (text3 & suara3 & Hrun3 & Hview3 & Hread3).
  fold press key in Hrun3. fold key in Hread3, Hview3.
  assert (Hw3 : w3 = snd (press w2)) by reflexivity.
  rewrite Hrun3 in Hw3. cbn [snd] in Hw3.
  assert (Hback : next_flash (next_flash (next_flash current)) = current)
    by (destruct Hvalue as [->|[->| ->]]; reflexivity).
  rewrite Hback in Hread3, Hw3, Hview3.
  split; [reflexivity|]. split; [reflexivity|]. split; [reflexivity|].
  split; [|split; [|split; [|split; [|split; [|split; [|split]]]]]].
  - unfold written. rewrite Hw1. cbn [db log].
    split; [reflexivity|]. do 2 eexists. split; [exact Hview1|reflexivity].
  - unfold written. rewrite Hw2. cbn [db log].
    split; [reflexivity|]. do 2 eexists. split; [exact Hview2|reflexivity].
  - unfold written. rewrite Hw3. cbn [db log].
    split; [reflexivity|]. do 2 eexists. split; [exact Hview3|reflexivity].
  - exact Hread1'.
  - exact Hread2'.
  - unfold read. rewrite Hw3. exact Hread3.
  - destruct Hvalue as [->|[->| ->]]; discriminate.
  - destruct Hvalue as [->|[->| ->]]; discriminate.
Qed.

(** A device that has no such field, or a falsy one, is read as ["off"]. *)
Lemma absent_setting_reads_off
  (firebase_client : Store.store) (app_key device_id field : string)
  (app devices device : dict) :
  Store.get_value app_key firebase_client = Some (NDict app) ->
  Py.lookup "perangkat" app = Some (NDict devices) ->
  Py.lookup device_id devices = Some (NDict device) ->
  Py.falsy (Py.lookup field device) = true ->
  current_setting repr_dict field firebase_client app_key device_id
  = Done "off".
Proof.
  intros Happ Hdevs Hdev Hfield. unfold current_setting, perangkat_of.
  rewrite Happ.
  assert (Hne : forall k v (d : dict),
             Py.lookup k d = Some v -> Py.truthy (NDict d) = true)
    by (intros k v [|e d] H; [discriminate H|reflexivity]).
  rewrite (or_else_truthy _ _ (Hne _ _ _ Hdevs)), Hdevs.
  rewrite (or_else_truthy _ _ (Hne _ _ _ Hdev)). cbn [get_attr]. rewrite Hdev.
  unfold Py.or_else at 1.
  destruct (Py.truthy (NDict device)) eqn:Ht.
  - unfold Py.falsy in Hfield. unfold Py.or_else.
    destruct (Py.lookup field device) as [n|]; [|reflexivity].
    apply negb_true_iff in Hfield. now rewrite Hfield.
  - reflexivity.
Qed.

(** The devices button sends the devices screen. *)
Lemma devices_button_sends_the_view
  (w : world) (app_key selected_date text : string) (keyboard : keyboard) :
  Py.no_char ":" app_key = true ->
  devices_view repr_dict zero_pad_year (db w) app_key selected_date
  = Done (text, keyboard) ->
  callback (Some owner_id)
    ("dashboard_devices:" ++ app_key ++ ":" ++ selected_date) w
  = (Done tt,
     World (db w) (user_data w)
       (log w ++ [Answer; EditMessageText text (Some keyboard)])).
Proof.
  intros Hcolon Hview. rewrite callback_of_owner. cbv zeta.
  change (dispatch repr_dict zero_pad_year
            ("dashboard_devices:" ++ app_key ++ ":" ++ selected_date) (db w))
    with (branch_devices repr_dict zero_pad_year
            ("dashboard_devices:" ++ app_key ++ ":" ++ selected_date)).
  unfold branch_devices, devices_args. cbn [Py.split].
  change ("dashboard_devices:" ++ app_key ++ ":" ++ selected_date)
    with ("dashboard_devices" ++ String ":" (app_key ++ String ":" selected_date)).
  rewrite (partition_at_sep ":" "dashboard_devices" _ eq_refl).
  rewrite (partition_at_sep ":" app_key _ Hcolon).
  run_monad. rewrite Hview. cbn [fst snd db user_data log].
  now rewrite <- app_assoc.
Qed.

End Handlers.

(** ** The handlers on concrete sessions *)

(** C1 fails as stated: a device message is armed, then a description
    edit; both are pending at once, and the text that follows is stored as
    the message of the device, which was armed first. *)
Lemma last_armed_does_not_win :
  let press := dashboard_callback 1 (fun _ => "") true (Some 1%Z) in
  let w1 := snd (press "dashboard_msg:A1:D1" (World [] (Pending None None) [])) in
  let w2 := snd (press "dashboard_app_edit_desc:A2" w1) in
  let w3 := snd (device_message_handler 1 (fun _ => "") (Some 1%Z) "halo" w2) in
  user_data w2
  = Pending (Some (DeviceTarget "A1" "D1")) (Some (AppTarget "A2" "keterangan"))
  /\ db w3
     = [("A1", NDict [("perangkat",
          NDict [("D1", NDict [("pesan_clear_virus", NStr "halo")])])])]
  /\ user_data w3 = Pending None (Some (AppTarget "A2" "keterangan")).
Proof. vm_compute. repeat split. Qed.

Lemma arming_replaces_its_own_slot_witness :
  Py.no_char ":" "A2" = true
  /\ exists text keyboard,
       dashboard_callback 1 (fun _ => "") true (Some 1%Z)
         "dashboard_app_edit_pin:A2"
         (World [] (Pending (Some (DeviceTarget "A1" "D1"))
                      (Some (AppTarget "A1" "keterangan"))) [])
       = (Done tt,
          World []
            (Pending (Some (DeviceTarget "A1" "D1"))
               (Some (AppTarget "A2" "kiosk_mode_pin")))
            [Answer; EditMessageText text (Some keyboard)]).
Proof.
  split; [reflexivity|].
  exact (proj1 (proj2
    (arming_replaces_its_own_slot 1 (fun _ => "") true
       (World [] (Pending (Some (DeviceTarget "A1" "D1"))
                    (Some (AppTarget "A1" "keterangan"))) [])
       "A2" "D9" eq_refl))).
Defined.

(** C4 fails as stated: [" 42"] is not made of digits only, yet it is
    accepted and stored as 42; and while a device message is pending too,
    ["12a"] is stored as that message instead of being refused. *)
Lemma padded_pin_is_accepted :
  let pin_edit := Some (AppTarget "A1" "kiosk_mode_pin") in
  let send := device_message_handler 1 (fun _ => "") (Some 1%Z) in
  Py.all_chars Py.isdecimal " 42" = false
  /\ send " 42" (World [] (Pending None pin_edit) [])
     = (Done tt,
        World [("A1", NDict [("kiosk_mode_pin", NNum 42)])]
          (Pending None None)
          [SetValue "A1/kiosk_mode_pin" (NNum 42);
           ReplyText (app_menu_text "A1") (Some (app_menu_keyboard "A1"))])
  /\ Py.all_chars Py.isdecimal "12a" = false
  /\ (let out :=
        send "12a"
          (World [] (Pending (Some (DeviceTarget "A1" "D1")) pin_edit) []) in
      fst out = Done tt
      /\ db (snd out)
         = [("A1", NDict [("perangkat",
              NDict [("D1", NDict [("pesan_clear_virus", NStr "12a")])])])]
      /\ user_data (snd out) = Pending None pin_edit
      /\ ~ In (ReplyText pin_error None) (log (snd out))).
Proof.
  vm_compute. repeat split.
  intros [H|[H|[]]]; discriminate H.
Qed.

Lemma pin_edit_retries_witness :
  let w := World [] (Pending None (Some (AppTarget "A1" "kiosk_mode_pin"))) [] in
  let send := device_message_handler 1 (fun _ => "") (Some 1%Z) in
  send "12a" w = (Done tt, World [] (user_data w) [ReplyText pin_error None])
  /\ send "4321" (snd (send "12a" w))
     = (Done tt,
        World (Store.set_value "A1/kiosk_mode_pin" (NNum 4321) [])
          (Pending None None)
          [ReplyText pin_error None; SetValue "A1/kiosk_mode_pin" (NNum 4321);
           ReplyText (app_menu_text "A1") (Some (app_menu_keyboard "A1"))]).
Proof.
  apply (pin_edit_retries 1 (fun _ => "")
           (World [] (Pending None (Some (AppTarget "A1" "kiosk_mode_pin"))) [])
           "A1" "12a" "4321").
  - reflexivity.
  - discriminate.
  - reflexivity.
  - discriminate.
  - reflexivity.
  - vm_compute. lia.
Defined.

(** C7 fails as stated: a text message from somebody else is dropped
    without any answer, so no refusal is sent. *)
Lemma stranger_text_gets_no_answer :
  let w := World [] (Pending None None) [] in
  not_owner 1 (Some 2%Z) = true
  /\ device_message_handler 1 (fun _ => "") (Some 2%Z) "halo" w = (Done tt, w)
  /\ ~ (exists text markup,
          In (ReplyText text markup)
             (log (snd (device_message_handler 1 (fun _ => "") (Some 2%Z)
                          "halo" w)))).
Proof.
  vm_compute. repeat split. intros (t & m & []).
Qed.

Lemma stranger_changes_nothing_witness :
  let w := World [("A1", NStr "x")]
             (Pending None (Some (AppTarget "A1" "keterangan"))) [] in
  not_owner 1 (Some 2%Z) = true
  /\ dashboard_callback 1 (fun _ => "") true (Some 2%Z) "dashboard_sound:A1:D1" w
     = (Done tt,
        World (db w) (user_data w)
          [Answer; EditMessageText access_denied None])
  /\ device_message_handler 1 (fun _ => "") (Some 2%Z) "halo" w = (Done tt, w).
Proof.
  split; [reflexivity|].
  apply (stranger_changes_nothing 1 (fun _ => "") true (Some 2%Z)
           "dashboard_sound:A1:D1" "halo"
           (World [("A1", NStr "x")]
              (Pending None (Some (AppTarget "A1" "keterangan"))) [])).
  reflexivity.
Defined.

Lemma device_message_goes_first_witness :
  let w := World []
             (Pending (Some (DeviceTarget "A1" "D1"))
                (Some (AppTarget "A2" "keterangan"))) [] in
  let send := device_message_handler 1 (fun _ => "") (Some 1%Z) in
  let w1 := snd (send "halo" w) in
  let w2 := snd (send "baru" w1) in
  db w1 = Store.set_value "A1/perangkat/D1/pesan_clear_virus" (NStr "halo") []
  /\ user_data w1 = Pending None (Some (AppTarget "A2" "keterangan"))
  /\ db w2 = Store.set_value "A2/keterangan" (NStr "baru") (db w1)
  /\ user_data w2 = Pending None None.
Proof.
  destruct (device_message_goes_first 1 (fun _ => "")
              (World []
                 (Pending (Some (DeviceTarget "A1" "D1"))
                    (Some (AppTarget "A2" "keterangan"))) [])
              "halo" "baru" (DeviceTarget "A1" "D1")
              (AppTarget "A2" "keterangan") eq_refl)
    as (H1 & H2 & _ & H3 & _); try discriminate.
  destruct H3 as [H3 H4]; [discriminate|reflexivity|].
  repeat split; assumption.
Defined.

(** ** The screens on concrete stores *)

(** C2 at its failing input: a device without timestamp and a device dated
    0001-01-01 00:00:01.  The second gets a real bucket, and ["unknown"] is
    listed before it on either platform; the devices screen opens on
    ["unknown"] and its "previous day" button leads to the dated bucket. *)
Lemma unknown_precedes_the_minimum_date :
  let devices := Sample.year_one in
  let store := [("A1", NDict [("perangkat", NDict devices)])] in
  map fst (group_devices true devices) = ["unknown"; "0001-01-01"]
  /\ _date_sort_key "unknown" = (Datetime.date_min, 1%Z)
  /\ _date_sort_key "0001-01-01" = (Datetime.date_min, 0%Z)
  /\ sorted_dates_of (group_devices true devices) = ["unknown"; "0001-01-01"]
  /\ sorted_dates_of (group_devices true (rev devices))
     = ["unknown"; "0001-01-01"]
  /\ sorted_dates_of (group_devices false devices) = ["unknown"; "1-01-01"]
  /\ (exists text,
        devices_view Sample.repr_dict true store "A1" ""
        = Done
            (text,
             [ [("tanpa waktu", "dashboard_device:A1:D1")];
               [(prev_day_label, "dashboard_devices:A1:0001-01-01")];
               [("â¬…ï¸ Kembali ke aplikasi", "dashboard_app:A1")];
               [("ğŸ“Š Kembali ke dashboard", "dashboard_refresh")] ])).
Proof.
  vm_compute. repeat split. eexists. reflexivity.
Qed.

(** The listing of 200 keys with values of 150 characters: 32 key lines and
    the trailer for the 168 keys left out. *)
Example listing_of_200_long_values :
  let lines := list_lines Sample.repr_dict (Sample.flat 200 (Sample.xs 150)) in
  List.length lines = 33
  /\ nth_error lines 0 = Some ("k = " ++ Sample.xs 100 ++ "...")
  /\ nth_error lines 32 = Some (list_trailer 168).
Proof. vm_compute. repeat split. Qed.

(** The listing of 60 short keys: 50 key lines although the budget is far
    from used, and the trailer for the 10 keys left out. *)
Example listing_of_60_short_values :
  let lines := list_lines Sample.repr_dict (Sample.flat 60 "v") in
  List.length lines = 51
  /\ lines_cost (firstn 50 lines) = 300
  /\ nth_error lines 50 = Some (list_trailer 10).
Proof. vm_compute. repeat split. Qed.

Lemma pagination_leads_to_the_neighbours_witness :
  sorted_dates_of (group_devices true Sample.devices)
  = ["2024-06-02"; "2024-06-01"; "unknown"]
  /\ exists device_rows,
       List.length device_rows = 2
       /\ devices_view Sample.repr_dict true Sample.store "A1" "2024-06-01"
          = Done
              ("ğŸ“± Perangkat aplikasi: " ++ "A1" ++ Py.nl ++ "Tanggal: 2024-06-01" ++ Py.nl
               ++ "Pilih perangkat:",
               (device_rows
                ++ [ [ ("â¬…ï¸ Hari sebelumnya", "dashboard_devices:A1:unknown");
                       ("Hari berikutnya â¡ï¸", "dashboard_devices:A1:2024-06-02") ] ]
                ++ [ [ ("â¬…ï¸ Kembali ke aplikasi", "dashboard_app:A1") ];
                     [ ("ğŸ“Š Kembali ke dashboard", "dashboard_refresh") ] ])%list).
Proof.
  split; [reflexivity|].
  destruct (pagination_leads_to_the_neighbours Sample.repr_dict true
              Sample.store "A1" "2024-06-01" Sample.devices eq_refl)
    as (selected & idx & group & Hidx & _ & Hgroup & Hview & Hsame & _).
  - discriminate.
  - assert (Hselected : selected = "2024-06-01").
    { apply Hsame; [discriminate|]. vm_compute. auto. }
    subst selected.
    vm_compute in Hidx. injection Hidx as <-.
    vm_compute in Hgroup. injection Hgroup as <-.
    eexists. split; [|exact Hview]. reflexivity.
Defined.

Lemma sound_toggle_twice_restores_witness :
  let press :=
    dashboard_callback Sample.owner Sample.repr_dict true (Some Sample.owner)
      "dashboard_sound:A1:D1" in
  let read w := current_setting Sample.repr_dict "suara" (db w) "A1" "D1" in
  read Sample.idle = Done "off"
  /\ read (snd (press Sample.idle)) = Done "on"
  /\ read (snd (press (snd (press Sample.idle)))) = Done "off".
Proof.
  split; [reflexivity|].
  destruct (sound_toggle_twice_restores Sample.owner Sample.repr_dict true
              Sample.idle "A1" "D1" "off" eq_refl eq_refl eq_refl
              (or_intror eq_refl))
    as (_ & _ & H1 & _ & H2).
  split; [exact H1|exact H2].
Defined.

Lemma flash_cycle_returns_after_three_witness :
  let press :=
    dashboard_callback Sample.owner Sample.repr_dict true (Some Sample.owner)
      "dashboard_flash:A1:D3" in
  let read w := current_setting Sample.repr_dict "flash" (db w) "A1" "D3" in
  let w1 := snd (press Sample.idle) in
  let w2 := snd (press w1) in
  let w3 := snd (press w2) in
  read Sample.idle = Done "kedip"
  /\ read w1 = Done "on" /\ read w2 = Done "off" /\ read w3 = Done "kedip".
Proof.
  split; [reflexivity|].
  destruct (flash_cycle_returns_after_three Sample.owner Sample.repr_dict true
              Sample.idle "A1" "D3" "kedip" eq_refl eq_refl eq_refl
              (or_intror (or_introl eq_refl)))
    as (_ & _ & _ & _ & _ & _ & H1 & H2 & H3 & _).
  split; [exact H1|]. split; [exact H2|exact H3].
Defined.

(** * Further properties of the handlers *)

Section Navigation.

Variable owner_id : Z.
Variable repr_dict : dict -> string.
Variable zero_pad_year : bool.

#[warnings="-notation-for-abbreviation"]
Local Notation press :=
  (dashboard_callback owner_id repr_dict zero_pad_year).
#[warnings="-notation-for-abbreviation"]
Local Notation send := (device_message_handler owner_id repr_dict).

(** What the callback does for whoever passes the owner test, given where
    its branch ends. *)
Lemma callback_of_allowed (user : option Z) (query_data : string) (w : world) :
  not_owner owner_id user = false ->
  press user query_data w
  = let w0 := World (db w) (user_data w) (log w ++ [Answer]) in
    match dispatch repr_dict zero_pad_year query_data (db w) w0 with
    | (Done Returned, w1) => (Done tt, w1)
    | (Done (Tail text (Some keyboard)), w1) =>
        (Done tt,
         World (db w1) (user_data w1)
           (log w1 ++ [EditMessageText text (Some keyboard)]))
    | (Done (Tail _ None), w1) => (Raised PyUnboundLocalError, w1)
    | (Raised e, w1) => (Raised e, w1)
    end.
Proof.
  intros Hallowed. unfold dashboard_callback. rewrite Hallowed.
  unfold bind at 1 2 3. unfold emit, list_keys, Store.list_keys.
  cbn [fst snd db user_data log].
  destruct (dispatch _ _ _ _ _) as [[[text [kb|]|]|e] w1]; reflexivity.
Qed.

(** The branches that only read. *)
Lemma branch_list_reads (data : dict) (w : world) :
  snd (branch_list repr_dict data w) = w.
Proof. destruct data; reflexivity. Qed.

Lemma branch_apps_reads (w : world) : snd (branch_apps repr_dict w) = w.
Proof.
  unfold branch_apps. run_monad.
  destruct (negb _); [reflexivity|].
  destruct (items_of _); reflexivity.
Qed.

Lemma branch_app_reads (query_data : string) (w : world) :
  snd (branch_app query_data w) = w.
Proof. unfold branch_app. run_monad. destruct (negb _); reflexivity. Qed.

Lemma branch_devices_reads (query_data : string) (w : world) :
  snd (branch_devices repr_dict zero_pad_year query_data w) = w.
Proof.
  unfold branch_devices. destruct (devices_args query_data) as [a d].
  run_monad. destruct (devices_view _ _ _ _ _) as [[t k]|e]; reflexivity.
Qed.

Lemma branch_device_reads (query_data : string) (w : world) :
  snd (branch_device repr_dict query_data w) = w.
Proof.
  unfold branch_device. destruct (two_args query_data) as [a d].
  run_monad.
  destruct (_build_device_detail_view _ _ _ _) as [[t k]|e]; reflexivity.
Qed.

Lemma dispatch_reads (query_data : string) (data : dict) (w : world) :
  Py.startswith query_data "dashboard_app_edit_desc:" = false ->
  Py.startswith query_data "dashboard_app_edit_pin:" = false ->
  Py.startswith query_data "dashboard_msg:" = false ->
  Py.startswith query_data "dashboard_sound:" = false ->
  Py.startswith query_data "dashboard_flash:" = false ->
  snd (dispatch repr_dict zero_pad_year query_data data w) = w.
Proof.
  intros Hdesc Hpin Hmsg Hsound Hflash. unfold dispatch.
  rewrite Hdesc, Hpin, Hmsg, Hsound, Hflash.
  destruct (String.eqb query_data "dashboard_list");
    [apply branch_list_reads|].
  destruct (String.eqb query_data "dashboard_apps");
    [apply branch_apps_reads|].
  destruct (Py.startswith query_data "dashboard_app:");
    [apply branch_app_reads|].
  destruct (Py.startswith query_data "dashboard_devices:");
    [apply branch_devices_reads|].
  destruct (Py.startswith query_data "dashboard_device:");
    [apply branch_device_reads|].
  destruct (String.eqb query_data "dashboard_help_set"); reflexivity.
Qed.

(** X1: a button whose token starts with none of the five prefixes of the
    edit prompts and the toggles only reads: whoever presses it and whatever
    the store holds, even when the handler ends in an exception, the store
    and the pending edits are as before and nothing is written. *)
Theorem navigation_changes_nothing
  (user : option Z) (query_data : string) (w : world) :
  Py.startswith query_data "dashboard_app_edit_desc:" = false ->
  Py.startswith query_data "dashboard_app_edit_pin:" = false ->
  Py.startswith query_data "dashboard_msg:" = false ->
  Py.startswith query_data "dashboard_sound:" = false ->
  Py.startswith query_data "dashboard_flash:" = false ->
  let w' := snd (press user query_data w) in
  db w' = db w
  /\ user_data w' = user_data w
  /\ exists sent,
       log w' = (log w ++ Answer :: sent)%list
       /\ forall key value, ~ In (SetValue key value) sent.
Proof.
  intros Hdesc Hpin Hmsg Hsound Hflash w'. subst w'.
  destruct (not_owner owner_id user) eqn:Hwho.
  - unfold dashboard_callback. run_monad. rewrite Hwho. run_monad.
    repeat split. exists [EditMessageText access_denied None].
    rewrite <- app_assoc. split; [reflexivity|].
    intros k v [H|[]]. discriminate H.
  - rewrite (callback_of_allowed user query_data w Hwho). cbv zeta.
    pose proof (dispatch_reads query_data (db w)
                  (World (db w) (user_data w) (log w ++ [Answer]))
                  Hdesc Hpin Hmsg Hsound Hflash) as Hreads.
    destruct (dispatch _ _ _ _ _) as [[[text [kb|]|]|e] w1];
      cbn [snd] in Hreads; subst w1; cbn [snd db user_data log];
      repeat split.
    + exists [EditMessageText text (Some kb)]. rewrite <- app_assoc.
      split; [reflexivity|]. intros k v [H|[]]. discriminate H.
    + exists []. split; [reflexivity|]. intros k v [].
    + exists []. split; [reflexivity|]. intros k v [].
    + exists []. split; [reflexivity|]. intros k v [].
Qed.

(** The application button, pressed by the owner, reads only. *)
Lemma navigation_frame_of_app (w : world) (app_key : string) :
  let w' := snd (press (Some owner_id) ("dashboard_app:" ++ app_key) w) in
  db w' = db w /\ user_data w' = user_data w.
Proof.
  cbv zeta. rewrite (callback_of_allowed _ _ _ (owner_is_owner owner_id)).
  cbv zeta.
  pose proof (dispatch_reads ("dashboard_app:" ++ app_key) (db w)
                (World (db w) (user_data w) (log w ++ [Answer]))
                eq_refl eq_refl eq_refl eq_refl eq_refl) as Hreads.
  destruct (dispatch _ _ _ _ _) as [[[text [kb|]|]|e] w1];
    cbn [snd] in Hreads; subst w1; split; reflexivity.
Qed.

(** The prompt of the description edit, with its keyboard. *)
Lemma description_prompt (w : world) (app_key : string) :
  exists text,
    press (Some owner_id) ("dashboard_app_edit_desc:" ++ app_key) w
    = (Done tt,
       World (db w)
         (Pending (device_message_target (user_data w))
            (Some (AppTarget app_key "keterangan")))
         (log w ++ [Answer; EditMessageText text (Some (cancel_keyboard app_key))])).
Proof.
  rewrite (callback_of_allowed _ _ _ (owner_is_owner owner_id)).
  destruct (dispatch_app_edit_desc repr_dict zero_pad_year app_key (db w))
    as [-> Harg].
  unfold branch_app_edit_desc. rewrite Harg. run_monad.
  eexists. now rewrite <- app_assoc.
Qed.

(** X2: the "Batalkan" button of an edit prompt leads to the application
    menu and cancels nothing: the edit is still pending afterwards, and the
    next text message is stored as the new description. *)
Theorem cancel_keeps_the_edit_pending
  (w : world) (app_key text : string) :
  app_key <> "" ->
  device_message_target (user_data w) = None ->
  let cancel := InlineKeyboardButton "âŒ Batalkan" ("dashboard_app:" ++ app_key) in
  let w1 := snd (press (Some owner_id) ("dashboard_app_edit_desc:" ++ app_key) w) in
  let w2 := snd (press (Some owner_id) (snd cancel) w1) in
  let w3 := snd (send (Some owner_id) text w2) in
  (exists prompt,
     log w1
     = (log w ++ [Answer; EditMessageText prompt (Some [[cancel]])])%list)
  /\ user_data w2 = Pending None (Some (AppTarget app_key "keterangan"))
  /\ db w2 = db w
  /\ db w3 = Store.set_value (app_key ++ "/keterangan") (NStr text) (db w)
  /\ user_data w3 = Pending None None.
Proof.
  intros Hkey Hidle cancel w1 w2 w3.
  destruct (description_prompt w app_key) as [prompt Hprompt].
  assert (Hw1 : w1 = snd (press (Some owner_id)
                            ("dashboard_app_edit_desc:" ++ app_key) w))
    by reflexivity.
  rewrite Hprompt, Hidle in Hw1. cbn [snd] in Hw1.
  destruct (navigation_frame_of_app w1 app_key) as (Hdb2 & Hud2).
  assert (Hdb2' : db w2 = db w)
    by (etransitivity; [exact Hdb2|]; rewrite Hw1; reflexivity).
  assert (Hpending : user_data w2
                     = Pending None (Some (AppTarget app_key "keterangan")))
    by (etransitivity; [exact Hud2|]; rewrite Hw1; reflexivity).
  pose proof (description_commits owner_id repr_dict w2 text app_key
                Hpending Hkey) as Hsend.
  assert (Hw3 : w3 = snd (send (Some owner_id) text w2)) by reflexivity.
  rewrite Hsend in Hw3. cbn [snd] in Hw3.
  split; [|split; [exact Hpending|split; [exact Hdb2'|split]]].
  - exists prompt. rewrite Hw1. reflexivity.
  - rewrite Hw3. cbn [db]. now rewrite Hdb2'.
  - rewrite Hw3. reflexivity.
Qed.

End Navigation.

(** Closes a case of the text handler in which nothing is written and
    [sent] is what was sent. *)
Ltac text_without_write sent :=
  run_monad;
  split;
  [ exists sent; rewrite <- ?app_assoc, ?app_nil_r;
    split;
    [ reflexivity
    | left; split;
      [ reflexivity
      | intros ? ? Hin; repeat destruct Hin as [Hin|Hin];
        first [discriminate Hin|destruct Hin] ] ]
  | split; [auto|split; [auto|intros Hidle; first [discriminate Hidle|reflexivity]]] ].

(** Closes a case of the text handler in which one value is written. *)
Ltac text_with_write :=
  run_monad;
  split;
  [ eexists; rewrite <- ?app_assoc;
    split;
    [ reflexivity
    | right; do 3 eexists;
      split; [reflexivity|];
      split; [reflexivity|];
      split; [reflexivity|];
      intros ? ? Hin; repeat destruct Hin as [Hin|Hin];
        first [discriminate Hin|destruct Hin] ]
  | split; [auto|split; [auto|intros Hidle; first [discriminate Hidle|reflexivity]]] ].

Section TextMessages.

Variable owner_id : Z.
Variable repr_dict : dict -> string.

#[warnings="-notation-for-abbreviation"]
Local Notation send := (device_message_handler owner_id repr_dict).

(** X3: a text message writes at most one value, and only at the path of
    the armed target: the message field of the pending device, or, when no
    device is pending, the field of the pending application edit.  It never
    arms anything, and with nothing pending it does nothing at all. *)
Theorem text_writes_only_at_the_target
  (user : option Z) (text : string) (w : world) :
  let out := send user text w in
  let target key :=
    match device_message_target (user_data w), app_edit_target (user_data w) with
    | Some dev, _ =>
        key = dt_app_key dev ++ "/perangkat/" ++ dt_device_id dev
              ++ "/pesan_clear_virus"
    | None, Some app => key = at_app_key app ++ "/" ++ at_field app
    | None, None => False
    end in
  (exists sent,
     log (snd out) = (log w ++ sent)%list
     /\ ((db (snd out) = db w /\ forall key value, ~ In (SetValue key value) sent)
         \/ exists key value rest,
              target key
              /\ sent = SetValue key value :: rest
              /\ db (snd out) = Store.set_value key value (db w)
              /\ forall key' value', ~ In (SetValue key' value') rest))
  /\ (device_message_target (user_data (snd out)) = None
      \/ device_message_target (user_data (snd out))
         = device_message_target (user_data w))
  /\ (app_edit_target (user_data (snd out)) = None
      \/ app_edit_target (user_data (snd out)) = app_edit_target (user_data w))
  /\ (user_data w = Pending None None -> out = (Done tt, w)).
Proof.
  intros out target. subst out target.
  destruct w as [d [dev app] lg]. unfold device_message_handler.
  cbn [user_data device_message_target app_edit_target db log].
  destruct (not_owner owner_id user); [text_without_write (@nil effect) |].
  run_monad. destruct dev as [[a i]|].
  - cbn [dt_app_key dt_device_id].
    destruct (String.eqb a "" || String.eqb i ""); [text_without_write (@nil effect) |].
    run_monad.
    destruct (_build_device_detail_view repr_dict _ a i) as [[t kb]|e];
      text_with_write.
  - destruct app as [[a f]|]; [|text_without_write (@nil effect)].
    cbn [at_app_key at_field].
    destruct (String.eqb a "" || String.eqb f ""); [text_without_write (@nil effect) |].
    destruct (String.eqb_spec f "keterangan") as [->|Hf1]; [text_with_write|].
    destruct (String.eqb_spec f "kiosk_mode_pin") as [->|Hf2];
      [|text_without_write (@nil effect)].
    destruct (negb (Py.isdigit (Py.strip text)));
      [text_without_write [ReplyText pin_error None]|].
    destruct (Py.int_of_digits (Py.strip text)) as [pin|e];
      [text_with_write|text_without_write (@nil effect)].
Qed.

End TextMessages.

(** ** The store under the commands *)

Lemma node_get_set_same (p : list string) (v n : node) :
  Store.node_get p (Store.node_set p v n) = Some v.
Proof.
  revert n. induction p as [|k p IH]; intros n; [reflexivity|].
  cbn [Store.node_set Store.node_get]. now rewrite lookup_update_same.
Qed.

(** Reading back what was written, at any path below the root. *)
Lemma get_value_set_value (key : string) (v : node) (db : Store.store) :
  Store.parse_path key <> [] ->
  Store.get_value key (Store.set_value key v db) = Some v.
Proof.
  intros Hpath. unfold Store.get_value, Store.set_value.
  destruct (Store.parse_path key) as [|k p]; [congruence|].
  change (NDict (Store.children (Store.node_set (k :: p) v (NDict db))))
    with (Store.node_set (k :: p) v (NDict db)).
  apply node_get_set_same.
Qed.

Lemma lookup_remove_key (k : string) (d : dict) :
  Py.lookup k (Removal.remove_key k d) = None.
Proof.
  induction d as [|[k' v] d IH]; simpl; [reflexivity|].
  destruct (String.eqb k' k) eqn:E; [exact IH|]. simpl. now rewrite E.
Qed.

Lemma node_delete_keeps_mappings (p : list string) (kvs : dict) (n : node) :
  Removal.node_delete p (NDict kvs) = Some n -> exists kvs', n = NDict kvs'.
Proof.
  destruct p as [|k p]; simpl; [discriminate|].
  destruct (Py.lookup k kvs) as [c|].
  - destruct (Removal.node_delete p c).
    + intros H. injection H as <-. now eexists.
    + destruct (Removal.remove_key k kvs); [discriminate|].
      intros H. injection H as <-. now eexists.
  - intros H. injection H as <-. now eexists.
Qed.

Lemma node_get_after_delete (p : list string) (n n' : node) :
  p <> [] -> Removal.node_delete p n = Some n' -> Store.node_get p n' = None.
Proof.
  revert n n'. induction p as [|k p IH]; intros n n' Hp H; [congruence|].
  cbn [Removal.node_delete] in H. destruct n as [s|z|kvs].
  - injection H as <-. reflexivity.
  - injection H as <-. reflexivity.
  - destruct (Py.lookup k kvs) as [c|] eqn:Hk.
    + destruct (Removal.node_delete p c) as [c'|] eqn:Hc.
      * injection H as <-. cbn [Store.node_get].
        rewrite lookup_update_same. apply (IH c c'); [|exact Hc].
        intros ->. discriminate Hc.
      * destruct (Removal.remove_key k kvs) as [|e l] eqn:Hr; [discriminate|].
        injection H as <-. cbn [Store.node_get].
        rewrite <- Hr, lookup_remove_key. reflexivity.
    + injection H as <-. cbn [Store.node_get]. now rewrite Hk.
Qed.

(** Nothing is found where a deletion was made. *)
Lemma get_value_after_delete (key : string) (db : Store.store) :
  Store.parse_path key <> [] ->
  Store.get_value key (Removal.delete_value key db) = None.
Proof.
  intros Hpath. unfold Store.get_value, Removal.delete_value.
  destruct (Removal.node_delete (Store.parse_path key) (NDict db)) as [n|] eqn:H.
  - destruct (node_delete_keeps_mappings _ _ _ H) as [kvs ->].
    cbn [Store.children]. apply (node_get_after_delete _ _ _ Hpath H).
  - destruct (Store.parse_path key); [congruence|reflexivity].
Qed.

Lemma node_delete_of_absent (p : list string) (n : node) :
  Store.node_get p n = None -> Removal.node_delete p n = Some n.
Proof.
  revert n. induction p as [|k p IH]; intros n H; [discriminate H|].
  cbn [Store.node_get] in H. cbn [Removal.node_delete].
  destruct n as [s|z|kvs]; try reflexivity.
  destruct (Py.lookup k kvs) as [c|] eqn:Hk; [|reflexivity].
  rewrite (IH c H). f_equal. f_equal.
  clear - Hk. induction kvs as [|[k' v'] kvs IHk]; simpl in *; [discriminate|].
  destruct (String.eqb k' k) eqn:E.
  - injection Hk as ->. reflexivity.
  - now rewrite (IHk Hk).
Qed.

(** Deleting what is not there leaves the store as it is. *)
Lemma delete_value_of_absent (key : string) (db : Store.store) :
  Store.get_value key db = None -> Removal.delete_value key db = db.
Proof.
  intros H. unfold Removal.delete_value. unfold Store.get_value in H.
  now rewrite (node_delete_of_absent _ _ H).
Qed.

(** ** The commands *)

Section CommandFacts.

Variable owner_id : Z.
Variable repr_dict : dict -> string.
Variable zero_pad_year : bool.

Lemma set_command_frame (user : option Z) (args : list string) (w : world) :
  db (snd (set_command owner_id user args w))
  = (if negb (not_owner owner_id user) && (2 <=? List.length args)%nat
     then Store.set_value (nth 0 args "")
            (NStr (Py.join " " (skipn 1 args))) (db w)
     else db w)
  /\ user_data (snd (set_command owner_id user args w)) = user_data w.
Proof.
  unfold set_command. destruct (not_owner owner_id user); cbn [negb andb];
    [split; reflexivity|].
  rewrite Nat.ltb_antisym. destruct (2 <=? List.length args)%nat;
    split; reflexivity.
Qed.

Lemma delete_command_frame (user : option Z) (args : list string) (w : world) :
  db (snd (delete_command owner_id user args w))
  = (if negb (not_owner owner_id user) && (List.length args =? 1)%nat
     then Removal.delete_value (nth 0 args "") (db w)
     else db w)
  /\ user_data (snd (delete_command owner_id user args w)) = user_data w.
Proof.
  unfold delete_command. destruct (not_owner owner_id user); cbn [negb andb];
    [split; reflexivity|].
  destruct (List.length args =? 1)%nat; split; reflexivity.
Qed.

Lemma get_command_frame (user : option Z) (args : list string) (w : world) :
  db (snd (get_command owner_id repr_dict user args w)) = db w
  /\ user_data (snd (get_command owner_id repr_dict user args w))
     = user_data w.
Proof.
  unfold get_command. destruct (not_owner owner_id user);
    [split; reflexivity|].
  destruct (negb (List.length args =? 1)%nat); [split; reflexivity|].
  run_monad. destruct (Store.get_value _ _); split; reflexivity.
Qed.

Lemma list_command_frame (user : option Z) (w : world) :
  db (snd (list_command owner_id repr_dict user w)) = db w
  /\ user_data (snd (list_command owner_id repr_dict user w)) = user_data w.
Proof.
  unfold list_command. destruct (not_owner owner_id user);
    [split; reflexivity|].
  run_monad. destruct (Store.list_keys _); split; reflexivity.
Qed.

Lemma dashboard_command_frame (user : option Z) (w : world) :
  db (snd (dashboard_command owner_id repr_dict user w)) = db w
  /\ user_data (snd (dashboard_command owner_id repr_dict user w))
     = user_data w.
Proof.
  unfold dashboard_command. destruct (not_owner owner_id user);
    split; reflexivity.
Qed.

Lemma start_frame (user : option Z) (w : world) :
  db (snd (start owner_id repr_dict user w)) = db w
  /\ user_data (snd (start owner_id repr_dict user w)) = user_data w.
Proof.
  unfold start. destruct (not_owner owner_id user) eqn:Hwho; cbn [negb];
    [split; reflexivity|].
  apply dashboard_command_frame.
Qed.

(** X4: of the commands only [/set] with at least two words and [/delete]
    with exactly one word, sent by the owner, change the store, and then
    only by the one write or the one deletion at the key given; [/start],
    [/get], [/list] and [/dashboard] never change it, and no command
    touches the pending edits.  A sender who is not the owner gets the fixed
    refusal from every command but [/start], which shows its help text. *)
Theorem commands_change_little
  (user : option Z) (args : list string) (w : world) :
  let after handler := snd (handler w) in
  let key := nth 0 args "" in
  db (after (set_command owner_id user args))
  = (if negb (not_owner owner_id user) && (2 <=? List.length args)%nat
     then Store.set_value key (NStr (Py.join " " (skipn 1 args))) (db w)
     else db w)
  /\ db (after (delete_command owner_id user args))
     = (if negb (not_owner owner_id user) && (List.length args =? 1)%nat
        then Removal.delete_value key (db w)
        else db w)
  /\ db (after (get_command owner_id repr_dict user args)) = db w
  /\ db (after (list_command owner_id repr_dict user)) = db w
  /\ db (after (dashboard_command owner_id repr_dict user)) = db w
  /\ db (after (start owner_id repr_dict user)) = db w
  /\ (forall handler,
        In handler
          [set_command owner_id user args; delete_command owner_id user args;
           get_command owner_id repr_dict user args;
           list_command owner_id repr_dict user;
           dashboard_command owner_id repr_dict user;
           start owner_id repr_dict user] ->
        user_data (after handler) = user_data w)
  /\ (not_owner owner_id user = true ->
      (forall handler,
         In handler
           [set_command owner_id user args; delete_command owner_id user args;
            get_command owner_id repr_dict user args;
            list_command owner_id repr_dict user] ->
         handler w
         = (Done tt,
            World (db w) (user_data w) (log w ++ [ReplyText no_permission None])))
      /\ dashboard_command owner_id repr_dict user w
         = (Done tt,
            World (db w) (user_data w)
              (log w ++ [ReplyText access_denied None]))
      /\ start owner_id repr_dict user w
         = (Done tt,
            World (db w) (user_data w) (log w ++ [ReplyText start_text None]))).
Proof.
  intros after key. subst after key.
  split; [apply set_command_frame|]. split; [apply delete_command_frame|].
  split; [apply get_command_frame|]. split; [apply list_command_frame|].
  split; [apply dashboard_command_frame|]. split; [apply start_frame|].
  split.
  - intros handler Hin. repeat destruct Hin as [<-|Hin]; [..|destruct Hin].
    + apply set_command_frame.
    + apply delete_command_frame.
    + apply get_command_frame.
    + apply list_command_frame.
    + apply dashboard_command_frame.
    + apply start_frame.
  - intros Hwho. split; [|split].
    + intros handler Hin.
      unfold set_command, delete_command, get_command, list_command in Hin.
      rewrite Hwho in Hin.
      repeat destruct Hin as [<-|Hin]; [..|destruct Hin]; reflexivity.
    + unfold dashboard_command. now rewrite Hwho.
    + unfold start. now rewrite Hwho.
Qed.

(** X5: what the owner stores with [/set] is what [/get] of the same key
    shows next: for a key that the client accepts and that names a place
    below the root, the words after the key, joined by single blanks, are
    stored as one string, and [/get] replies with the key and that
    string. *)
Theorem get_shows_what_set_stored
  (w : world) (key word : string) (words : list string) :
  accepted_key key = true ->
  Store.parse_path key <> [] ->
  let value := Py.join " " (word :: words) in
  let w1 :=
    snd (set_command owner_id (Some owner_id) (key :: word :: words) w) in
  get_command owner_id repr_dict (Some owner_id) [key] w1
  = (Done tt,
     World (Store.set_value key (NStr value) (db w)) (user_data w)
       (log w
        ++ [SetValue key (NStr value);
            ReplyText ("Data disimpan: " ++ key ++ " = " ++ value) None;
            ReplyText (key ++ " = " ++ value) None])).
Proof.
  intros _ Hpath value w1. subst w1.
  unfold set_command, get_command.
  rewrite (owner_is_owner owner_id).
  cbn [List.length Nat.ltb Nat.leb Nat.eqb negb nth skipn].
  run_monad. fold value.
  rewrite (get_value_set_value key (NStr value) (db w) Hpath).
  cbn [str db user_data log]. now rewrite <- !app_assoc.
Qed.

(** X6: for a key that the client accepts and that names a place below
    the root, [/delete] answers that the key was deleted whether or not
    anything was stored there; where nothing was, the store stays as it
    is; and [/get] of the same key answers afterwards that there is no such
    data. *)
Theorem get_finds_nothing_after_delete (w : world) (key : string) :
  accepted_key key = true ->
  Store.parse_path key <> [] ->
  let deleted := delete_command owner_id (Some owner_id) [key] w in
  deleted
  = (Done tt,
     World (Removal.delete_value key (db w)) (user_data w)
       (log w ++ [ReplyText ("Data dengan key '" ++ key ++ "' dihapus") None]))
  /\ (Store.get_value key (db w) = None -> db (snd deleted) = db w)
  /\ get_command owner_id repr_dict (Some owner_id) [key] (snd deleted)
     = (Done tt,
        World (db (snd deleted)) (user_data w)
          (log (snd deleted)
           ++ [ReplyText ("Data dengan key '" ++ key ++ "' tidak ditemukan")
                 None])).
Proof.
  intros _ Hpath deleted.
  assert (Hdel : deleted
    = (Done tt,
       World (Removal.delete_value key (db w)) (user_data w)
         (log w ++ [ReplyText ("Data dengan key '" ++ key ++ "' dihapus") None]))).
  { subst deleted. unfold delete_command. rewrite (owner_is_owner owner_id).
    reflexivity. }
  split; [exact Hdel|]. rewrite Hdel. cbn [snd db log]. split.
  - intros Habsent. now apply delete_value_of_absent.
  - unfold get_command. rewrite (owner_is_owner owner_id).
    cbn [List.length Nat.eqb negb nth]. run_monad.
    now rewrite (get_value_after_delete key (db w) Hpath).
Qed.

End CommandFacts.

(** ** The buckets of the devices screen *)

Section SortingMore.
Context {A K : Type} (leb : K -> K -> bool) (key : A -> K).

Lemma insert_desc_permutation (x : A) (l : list A) :
  Permutation (insert_desc leb key x l) (x :: l).
Proof.
  induction l as [|y l IH]; simpl; [reflexivity|].
  destruct (leb (key y) (key x)); [reflexivity|].
  rewrite IH. apply perm_swap.
Qed.

Lemma sorted_reverse_permutation (l : list A) :
  Permutation (sorted_reverse leb key l) l.
Proof.
  induction l as [|x l IH]; simpl; [reflexivity|].
  rewrite insert_desc_permutation. now constructor.
Qed.

(** Elements that compare as equal keep the order they had. *)
Lemma insert_desc_stable (same : A -> bool) (x : A) (l : list A) :
  (forall a b, same a = true -> same b = true -> leb (key a) (key b) = true) ->
  filter same (insert_desc leb key x l) = filter same (x :: l).
Proof.
  intros Hsame. induction l as [|y l IH]; [reflexivity|].
  cbn [insert_desc]. destruct (leb (key y) (key x)) eqn:Hyx; [reflexivity|].
  cbn [filter] in *. rewrite IH.
  destruct (same y) eqn:Hy, (same x) eqn:Hx; try reflexivity.
  rewrite (Hsame y x Hy Hx) in Hyx. discriminate.
Qed.

Lemma sorted_reverse_stable (same : A -> bool) (l : list A) :
  (forall a b, same a = true -> same b = true -> leb (key a) (key b) = true) ->
  filter same (sorted_reverse leb key l) = filter same l.
Proof.
  intros Hsame. induction l as [|x l IH]; [reflexivity|].
  cbn [sorted_reverse fold_right].
  rewrite (insert_desc_stable same x _ Hsame). cbn [filter].
  fold (sorted_reverse leb key l). now rewrite IH.
Qed.

End SortingMore.

Lemma lex_leb_refl (a : list Z) : Datetime.lex_leb a a = true.
Proof.
  induction a as [|x a IH]; [reflexivity|]. cbn [Datetime.lex_leb].
  now rewrite Z.eqb_refl, IH, orb_true_r.
Qed.

Lemma datetime_eqb_eq (a b : Datetime.datetime) :
  Datetime.eqb a b = true <-> a = b.
Proof.
  destruct a as [ya ma da ha ia sa], b as [yb mb db hb ib sb].
  unfold Datetime.eqb. cbn [Datetime.year Datetime.month Datetime.day
    Datetime.hour Datetime.minute Datetime.second].
  rewrite !andb_true_iff, !Z.eqb_eq. split.
  - intros [[[[[-> ->] ->] ->] ->] ->]. reflexivity.
  - intros H. injection H as -> -> -> -> -> ->. repeat split.
Qed.

Lemma datetime_leb_total (a b : Datetime.datetime) :
  Datetime.leb a b = false -> Datetime.leb b a = true.
Proof. unfold Datetime.leb. now apply lex_leb_total. Qed.

Lemma datetime_leb_trans (a b c : Datetime.datetime) :
  Datetime.leb a b = true -> Datetime.leb b c = true ->
  Datetime.leb a c = true.
Proof. unfold Datetime.leb. apply lex_leb_trans. Qed.

Lemma group_of_setdefault_append (k k' : string) (item : device_item)
  (g : list (string * list device_item)) :
  group_of k (setdefault_append k' item g)
  = if String.eqb k' k
    then Some (match group_of k g with
               | Some items => items ++ [item]
               | None => [item]
               end)%list
    else group_of k g.
Proof.
  induction g as [|[k0 items] g IH]; cbn [setdefault_append group_of].
  - destruct (String.eqb k' k); reflexivity.
  - destruct (String.eqb_spec k0 k') as [->|H0]; cbn [group_of].
    + destruct (String.eqb k' k); reflexivity.
    + destruct (String.eqb_spec k0 k) as [->|H2]; [|exact IH].
      destruct (String.eqb_spec k' k); [congruence|reflexivity].
Qed.

Lemma keys_setdefault_append (k : string) (item : device_item)
  (g : list (string * list device_item)) :
  map fst (setdefault_append k item g)
  = (if Py.mem k (map fst g) then map fst g else map fst g ++ [k])%list.
Proof.
  induction g as [|[k0 items] g IH]; [reflexivity|].
  cbn [setdefault_append map fst Py.mem].
  destruct (String.eqb k0 k); [reflexivity|]. cbn [map fst orb].
  rewrite IH. destruct (Py.mem k (map fst g)); reflexivity.
Qed.

Lemma items_setdefault_append (k : string) (item : device_item)
  (g : list (string * list device_item)) :
  List.length (List.concat (map snd (setdefault_append k item g)))
  = S (List.length (List.concat (map snd g))).
Proof.
  induction g as [|[k0 items] g IH]; [reflexivity|].
  cbn [setdefault_append]. destruct (String.eqb k0 k); cbn [map snd List.concat].
  - rewrite !length_app. cbn [List.length]. lia.
  - rewrite !length_app, IH. lia.
Qed.

Lemma group_of_distinct (k : string) (items : list device_item)
  (g : list (string * list device_item)) :
  NoDup (map fst g) -> In (k, items) g -> group_of k g = Some items.
Proof.
  induction g as [|[k0 items0] g IH]; [intros _ []|].
  cbn [map fst group_of]. intros Hnd [Hin|Hin].
  - injection Hin as -> ->. now rewrite String.eqb_refl.
  - apply NoDup_cons_iff in Hnd as [Hfresh Hnd].
    destruct (String.eqb_spec k0 k) as [->|Hne]; [|now apply IH].
    exfalso. apply Hfresh. apply in_map_iff. now exists (k, items).
Qed.

Lemma group_of_In (k : string) (items : list device_item)
  (g : list (string * list device_item)) :
  group_of k g = Some items -> In k (map fst g).
Proof.
  induction g as [|[k0 items0] g IH]; [discriminate|].
  cbn [group_of map fst]. destruct (String.eqb_spec k0 k) as [->|Hne].
  - now left.
  - intros H. right. now apply IH.
Qed.

Section Grouping.

Variable repr_dict : dict -> string.
Variable zero_pad_year : bool.

#[warnings="-notation-for-abbreviation"]
Local Notation bucket := (bucket_of zero_pad_year).
#[warnings="-notation-for-abbreviation"]
Local Notation item := (item_of zero_pad_year).
#[warnings="-notation-for-abbreviation"]
Local Notation step :=
  (fun date_groups (entry : string * node) =>
     let '(device_id, device_data) := entry in
     let '(date_key, dt) := date_key_of zero_pad_year device_data in
     setdefault_append date_key (device_id, device_data, dt) date_groups).

Lemma step_of_entry (g : list (string * list device_item))
  (entry : string * node) :
  step g entry = setdefault_append (bucket entry) (item entry) g.
Proof.
  destruct entry as [id data]. unfold bucket_of, item_of. cbn [fst snd].
  destruct (date_key_of zero_pad_year data). reflexivity.
Qed.

Lemma group_of_fold (l : dict) (g : list (string * list device_item))
  (k : string) :
  group_of k (fold_left step l g)
  = match group_of k g,
          map item (filter (fun entry => String.eqb (bucket entry) k) l)
    with
    | None, [] => None
    | None, members => Some members
    | Some items, members => Some (items ++ members)%list
    end.
Proof.
  revert g. induction l as [|entry l IH]; intros g.
  - cbn [fold_left filter map]. destruct (group_of k g); [|reflexivity].
    now rewrite app_nil_r.
  - cbn [fold_left filter]. rewrite IH, step_of_entry.
    rewrite group_of_setdefault_append.
    destruct (String.eqb (bucket entry) k); [|reflexivity].
    cbn [map]. destruct (group_of k g) as [items|].
    + now rewrite <- app_assoc.
    + reflexivity.
Qed.

Lemma keys_fold (l : dict) (g : list (string * list device_item)) :
  NoDup (map fst g) -> NoDup (map fst (fold_left step l g)).
Proof.
  revert g. induction l as [|entry l IH]; intros g Hnd; [exact Hnd|].
  cbn [fold_left]. apply IH. rewrite step_of_entry, keys_setdefault_append.
  destruct (Py.mem (bucket entry) (map fst g)) eqn:Hmem; [exact Hnd|].
  apply NoDup_app; [exact Hnd|repeat constructor; intros []|].
  intros k Hk [<-|[]].
  apply mem_In in Hk. congruence.
Qed.

Lemma items_fold (l : dict) (g : list (string * list device_item)) :
  List.length (List.concat (map snd (fold_left step l g)))
  = List.length (List.concat (map snd g)) + List.length l.
Proof.
  revert g. induction l as [|entry l IH]; intros g; cbn [fold_left List.length].
  - lia.
  - rewrite IH, step_of_entry, items_setdefault_append. lia.
Qed.

Lemma grouping_facts (devices : dict) :
  NoDup (map fst (group_devices zero_pad_year devices))
  /\ forall date_key,
       group_of date_key (group_devices zero_pad_year devices)
       = match
           map item
             (filter (fun entry => String.eqb (bucket entry) date_key) devices)
         with
         | [] => None
         | members => Some members
         end.
Proof.
  unfold group_devices. split; [apply keys_fold; constructor|].
  intros date_key. rewrite group_of_fold. reflexivity.
Qed.

(** X8: the grouping loop of the devices screen puts every device into
    exactly one bucket: the bucket names are distinct, the bucket of a name
    holds the devices whose date key is that name and no others, in the
    order of the store, no bucket is empty and no device is lost or
    repeated. *)
Theorem grouping_partitions_the_devices (devices : dict) :
  let date_groups := group_devices zero_pad_year devices in
  NoDup (map fst date_groups)
  /\ (forall date_key,
        group_of date_key date_groups
        = match
            filter (fun entry => String.eqb (bucket entry) date_key) devices
          with
          | [] => None
          | members => Some (map item members)
          end)
  /\ (forall date_key items,
        In (date_key, items) date_groups ->
        group_of date_key date_groups = Some items)
  /\ List.length (List.concat (map snd date_groups)) = List.length devices.
Proof.
  intros date_groups. subst date_groups. unfold group_devices.
  assert (Hnd : NoDup (map fst (fold_left step devices [])))
    by (apply keys_fold; constructor).
  split; [exact Hnd|]. split; [|split].
  - intros date_key. rewrite group_of_fold. cbn [group_of].
    destruct (filter _ devices); reflexivity.
  - intros date_key items. now apply group_of_distinct.
  - now rewrite items_fold.
Qed.

Lemma bucket_not_empty (entry : string * node) : bucket entry <> "".
Proof.
  unfold bucket_of, date_key_of. destruct (snd entry) as [x|z|d];
    cbn [fst]; try discriminate.
  destruct (Datetime.eqb _ _); cbn [fst]; [discriminate|].
  unfold Datetime.strftime_Ymd.
  destruct (if zero_pad_year then _ else _); discriminate.
Qed.

(** X9: the devices screen of a bucket that some device falls into is
    always drawn, and its device rows are the devices of that bucket and no
    others, one row each, from the newest timestamp to the oldest; devices
    with the same timestamp keep the order of the store.  Below the rows
    come the pagination row and the two buttons that lead back. *)
Theorem bucket_screen_lists_its_devices_newest_first
  (firebase_client : Store.store) (app_key selected_date : string)
  (entries : dict) :
  perangkat_of
    (Py.or_else (Store.get_value app_key firebase_client) (NDict []))
  = NDict entries ->
  In selected_date (map bucket entries) ->
  let members :=
    map item
      (filter (fun entry => String.eqb (bucket entry) selected_date) entries) in
  let sorted_dates := sorted_dates_of (group_devices zero_pad_year entries) in
  exists text rows idx,
    devices_view repr_dict zero_pad_year firebase_client app_key selected_date
    = Done
        (text,
         (map (device_button repr_dict app_key) rows
          ++ row_if_any (pagination_row app_key sorted_dates idx)
          ++ back_to_app_rows app_key)%list)
    /\ nth_error sorted_dates idx = Some selected_date
    /\ Permutation rows members
    /\ StronglySorted
         (fun earlier later => Datetime.leb (snd later) (snd earlier) = true)
         rows
    /\ forall timestamp,
         filter (fun row => Datetime.eqb (snd row) timestamp) rows
         = filter (fun row => Datetime.eqb (snd row) timestamp) members.
Proof.
  intros Hdev Hbucket members sorted_dates.
  set (date_groups := group_devices zero_pad_year entries).
  destruct (grouping_facts entries) as (Hnd & Hgroup).
  fold date_groups in Hnd, Hgroup.
  assert (Hmembers : group_of selected_date date_groups = Some members).
  { rewrite Hgroup. fold members.
    apply in_map_iff in Hbucket as (entry & Hkey & Hin).
    assert (Hthere : In (item entry) members).
    { apply in_map, filter_In. split; [exact Hin|].
      now apply String.eqb_eq. }
    destruct members; [destruct Hthere|reflexivity]. }
  assert (Hkey : In selected_date (map fst date_groups))
    by (eapply group_of_In, Hmembers).
  assert (Hlisted : In selected_date sorted_dates)
    by (apply sorted_reverse_in; exact Hkey).
  destruct (index_of_In selected_date sorted_dates Hlisted)
    as (idx & Hidx & Hnth).
  assert (Hnonempty : String.eqb selected_date "" = false).
  { apply eqb_empty_false.
    apply in_map_iff in Hbucket as (entry & <- & _). apply bucket_not_empty. }
  assert (Htruthy : Py.truthy (NDict entries) = true).
  { destruct entries; [destruct Hbucket|reflexivity]. }
  eexists. exists (sorted_reverse Datetime.leb
                     (fun item : device_item => snd item) members), idx.
  split; [|split; [exact Hnth|split; [|split]]].
  - unfold devices_view. rewrite Hdev, Htruthy. cbn [negb items_of].
    cbv zeta. fold date_groups.
    change (sorted_dates_of date_groups) with sorted_dates.
    rewrite Hnonempty. apply mem_In in Hkey. rewrite Hkey. cbn [orb negb].
    rewrite Hmembers, Hidx. rewrite <- app_assoc. reflexivity.
  - apply sorted_reverse_permutation.
  - apply (sorted_reverse_sorted Datetime.leb
             (fun item : device_item => snd item)
             datetime_leb_total datetime_leb_trans).
  - intros timestamp. apply sorted_reverse_stable.
    intros a b Ha Hb. apply datetime_eqb_eq in Ha, Hb.
    rewrite Ha, Hb. apply lex_leb_refl.
Qed.

End Grouping.

(** ** Date keys and their sort keys *)

(** A test that holds on a whole range holds at each of its numbers. *)
Lemma range_check (P : Z -> bool) (lo n : Z) :
  forallb P (map Z.of_nat (seq (Z.to_nat lo) (Z.to_nat n))) = true ->
  forall z, (0 <= lo <= z)%Z -> (z < lo + n)%Z -> P z = true.
Proof.
  intros H z Hlo Hz. rewrite forallb_forall in H. apply H.
  apply in_map_iff. exists (Z.to_nat z). split; [lia|]. apply in_seq. lia.
Qed.

(** The ten cases of a digit. *)
Ltac each_digit v :=
  let E := fresh "E" in
  assert (E : (v = 0 \/ v = 1 \/ v = 2 \/ v = 3 \/ v = 4 \/ v = 5 \/ v = 6
               \/ v = 7 \/ v = 8 \/ v = 9)%Z) by lia;
  destruct E as [->|[->|[->|[->|[->|[->|[->|[->|[->| ->]]]]]]]]].

Lemma digit_of_digit_char (v : Z) :
  (0 <= v <= 9)%Z -> Datetime.digit (Datetime.digit_char v) = Some v.
Proof. intros H. each_digit v; reflexivity. Qed.

Lemma string_of_decimal_digit (v : Z) (u : Decimal.uint) :
  (0 <= v <= 9)%Z ->
  NilEmpty.string_of_uint (decimal_digit v u)
  = String (Datetime.digit_char v) (NilEmpty.string_of_uint u).
Proof. intros H. each_digit v; reflexivity. Qed.

Lemma revapp_decimal_digit (v : Z) (u acc : Decimal.uint) :
  Decimal.revapp (decimal_digit v u) acc
  = Decimal.revapp u (decimal_digit v acc).
Proof.
  unfold decimal_digit.
  destruct v as [|p|p]; try reflexivity;
    repeat (destruct p as [p|p|]; try reflexivity).
Qed.

Lemma of_lu_decimal_digit (v : Z) (u : Decimal.uint) :
  (0 <= v <= 9)%Z ->
  Z.of_N (Unsigned.of_lu (decimal_digit v u))
  = (v + 10 * Z.of_N (Unsigned.of_lu u))%Z.
Proof.
  intros H. each_digit v; cbn [decimal_digit Unsigned.of_lu]; lia.
Qed.

Lemma unorm_decimal_digit (v : Z) (u : Decimal.uint) :
  (1 <= v <= 9)%Z -> Decimal.unorm (decimal_digit v u) = decimal_digit v u.
Proof. intros H. each_digit v; first [lia|reflexivity]. Qed.

Lemma year_reads_back (y : Z) :
  (0 <= y <= 9999)%Z ->
  Datetime.tok_Y (Datetime.digit_char (y / 1000))
    (Datetime.digit_char ((y / 100) mod 10))
    (Datetime.digit_char ((y mod 100) / 10))
    (Datetime.digit_char ((y mod 100) mod 10))
  = Some y.
Proof.
  intros Hy. unfold Datetime.tok_Y.
  rewrite !digit_of_digit_char
    by (Z.to_euclidean_division_equations; lia).
  f_equal. Z.to_euclidean_division_equations. lia.
Qed.

Lemma months_and_days_checked :
  forallb
    (fun m =>
       forallb
         (fun d =>
            match Py.partition_at "-"
                    (Datetime.two_digits m ++ "-" ++ Datetime.two_digits d) with
            | Some (tm, td) =>
                match Datetime.tok_m tm, Datetime.tok_d td with
                | Some m', Some d' => ((m' =? m) && (d' =? d))%Z
                | _, _ => false
                end
            | None => false
            end)
         (map Z.of_nat (seq (Z.to_nat 1) (Z.to_nat 31))))
    (map Z.of_nat (seq (Z.to_nat 1) (Z.to_nat 12))) = true.
Proof. vm_compute. reflexivity. Qed.

Lemma month_and_day_read_back (m d : Z) :
  (1 <= m <= 12)%Z -> (1 <= d <= 31)%Z ->
  exists tm td,
    Py.partition_at "-" (Datetime.two_digits m ++ "-" ++ Datetime.two_digits d)
    = Some (tm, td)
    /\ Datetime.tok_m tm = Some m /\ Datetime.tok_d td = Some d.
Proof.
  intros Hm Hd.
  pose proof (range_check _ 1%Z 12%Z months_and_days_checked m) as H.
  cbv beta in H. specialize (H ltac:(lia) ltac:(lia)).
  pose proof (range_check _ 1%Z 31%Z H d) as H'.
  cbv beta in H'. specialize (H' ltac:(lia) ltac:(lia)).
  destruct (Py.partition_at _ _) as [[tm td]|]; [|discriminate].
  exists tm, td. split; [reflexivity|].
  destruct (Datetime.tok_m tm) as [m'|]; [|discriminate].
  destruct (Datetime.tok_d td) as [d'|]; [|discriminate].
  apply andb_true_iff in H' as [H1 H2]. apply Z.eqb_eq in H1, H2.
  subst. split; reflexivity.
Qed.

(** A year of four digits prints as its four digits. *)
Lemma long_year_is_four_digits (y : Z) :
  (1000 <= y <= 9999)%Z -> Py.str_of_Z y = Datetime.four_digits y.
Proof.
  intros Hy.
  set (a := (y / 1000)%Z). set (b := ((y / 100) mod 10)%Z).
  set (c := ((y mod 100) / 10)%Z). set (d := ((y mod 100) mod 10)%Z).
  assert (Ha : (1 <= a <= 9)%Z)
    by (subst a; Z.to_euclidean_division_equations; lia).
  assert (Hb : (0 <= b <= 9)%Z)
    by (subst b; Z.to_euclidean_division_equations; lia).
  assert (Hc : (0 <= c <= 9)%Z)
    by (subst c; Z.to_euclidean_division_equations; lia).
  assert (Hd : (0 <= d <= 9)%Z)
    by (subst d; Z.to_euclidean_division_equations; lia).
  assert (Hsum : (y = d + 10 * (c + 10 * (b + 10 * (a + 10 * 0))))%Z)
    by (subst a b c d; Z.to_euclidean_division_equations; lia).
  set (u := decimal_digit a (decimal_digit b (decimal_digit c
              (decimal_digit d Decimal.Nil)))).
  assert (Hof : Z.of_N (Pos.of_uint u) = y).
  { rewrite Unsigned.of_uint_alt. unfold u, Decimal.rev.
    rewrite !revapp_decimal_digit. cbn [Decimal.revapp].
    rewrite !of_lu_decimal_digit by lia.
    cbn [Unsigned.of_lu]. lia. }
  destruct y as [|p|p]; try lia.
  assert (Hp : Pos.of_uint u = Npos p) by lia.
  assert (Hu : Pos.to_uint p = u).
  { change (Pos.to_uint p) with (N.to_uint (Npos p)).
    rewrite <- Hp, Unsigned.to_of. apply unorm_decimal_digit. exact Ha. }
  unfold Py.str_of_Z. cbn [Z.to_int]. rewrite Hu.
  cbn [NilEmpty.string_of_int]. unfold u.
  rewrite !string_of_decimal_digit by lia.
  reflexivity.
Qed.

Lemma valid_date_ranges (y m d : Z) :
  Datetime.valid_date (y, m, d) = true ->
  (1 <= y <= 9999 /\ 1 <= m <= 12 /\ 1 <= d <= 31)%Z.
Proof.
  unfold Datetime.valid_date. rewrite !andb_true_iff, !Z.leb_le.
  intros [[[[[? ?] ?] ?] ?] Hd].
  assert (Datetime.days_in_month y m <= 31)%Z.
  { unfold Datetime.days_in_month.
    destruct (m =? 2)%Z; [destruct (Datetime.is_leap y); lia|].
    destruct (_ || _); lia. }
  lia.
Qed.

(** What [strptime] returns is a date of the calendar. *)
Lemma strptime_gives_valid_dates (value : string) (dt : Datetime.datetime) :
  Datetime.strptime_dmY_HMS value = Some dt ->
  Datetime.valid_date (Datetime.date_of dt) = true.
Proof.
  unfold Datetime.strptime_dmY_HMS.
  destruct (Py.partition_at "/" value) as [[td r1]|]; [|discriminate].
  destruct (Py.partition_at "/" r1) as [[tm r2]|]; [|discriminate].
  destruct r2 as [|y1 [|y2 [|y3 [|y4 [|w r3]]]]]; try discriminate.
  destruct (Py.isspace w); [|discriminate].
  destruct (Py.partition_at ":" (Py.lstrip r3)) as [[tH r4]|]; [|discriminate].
  destruct (Py.partition_at ":" r4) as [[tM tS]|]; [|discriminate].
  destruct (Datetime.tok_d td) as [d|]; [|discriminate].
  destruct (Datetime.tok_m tm) as [m|]; [|discriminate].
  destruct (Datetime.tok_Y y1 y2 y3 y4) as [y|]; [|discriminate].
  destruct (Datetime.tok_H tH) as [hh|]; [|discriminate].
  destruct (Datetime.tok_M tM) as [mi|]; [|discriminate].
  destruct (Datetime.tok_S tS) as [ss|]; [|discriminate].
  destruct (Datetime.valid_date (y, m, d) && (ss <=? 59)%Z) eqn:V;
    [|discriminate].
  intros H. injection H as <-. now apply andb_true_iff in V as [V _].
Qed.

Lemma parsed_timestamp_is_valid (data : node) :
  Datetime.valid_date (Datetime.date_of (_parse_device_datetime data)) = true.
Proof.
  unfold _parse_device_datetime. destruct data as [x|z|d]; try reflexivity.
  destruct (Py.or_opt _ _) as [[value|z|kvs]|]; try reflexivity.
  destruct (Datetime.strptime_dmY_HMS value) as [dt|] eqn:E; [|reflexivity].
  now apply strptime_gives_valid_dates in E.
Qed.

Lemma lex_leb_antisym (a b : list Z) :
  List.length a = List.length b ->
  Datetime.lex_leb a b = true -> Datetime.lex_leb b a = true -> a = b.
Proof.
  revert b. induction a as [|x a IH]; intros [|y b]; cbn [List.length];
    try discriminate; [reflexivity|].
  intros Hlen. injection Hlen as Hlen. cbn [Datetime.lex_leb].
  rewrite !orb_true_iff, !andb_true_iff, !Z.ltb_lt, !Z.eqb_eq.
  intros [Hxy|[Hxy Hab]] [Hyx|[Hyx Hba]]; try lia.
  subst y. f_equal. now apply IH.
Qed.

Lemma sort_key_leb_of_dates (d1 d2 : Datetime.date) :
  sort_key_leb (d1, 0%Z) (d2, 0%Z) = Datetime.date_leb d1 d2.
Proof.
  destruct d1 as [[y1 m1] dd1], d2 as [[y2 m2] dd2].
  unfold sort_key_leb, Datetime.date_leb. cbn [Datetime.lex_leb].
  reflexivity.
Qed.

Lemma date_leb_antisym (d1 d2 : Datetime.date) :
  Datetime.date_leb d1 d2 = true -> Datetime.date_leb d2 d1 = true -> d1 = d2.
Proof.
  destruct d1 as [[y1 m1] dd1], d2 as [[y2 m2] dd2]. unfold Datetime.date_leb.
  intros H1 H2.
  pose proof (lex_leb_antisym [y1; m1; dd1] [y2; m2; dd2] eq_refl H1 H2) as E.
  now injection E as -> -> ->.
Qed.

Lemma date_leb_refl (d : Datetime.date) : Datetime.date_leb d d = true.
Proof. destruct d as [[y m] dd]. apply lex_leb_refl. Qed.

Section DateKeys.

Variable zero_pad_year : bool.

#[warnings="-notation-for-abbreviation"]
Local Notation bucket := (bucket_of zero_pad_year).

(** The date key of a timestamp reads back as the date of the timestamp,
    where the year is printed in four digits. *)
Lemma date_key_reads_back (dt : Datetime.datetime) :
  Datetime.valid_date (Datetime.date_of dt) = true ->
  zero_pad_year = true \/ (1000 <= Datetime.year dt)%Z ->
  Datetime.strptime_Ymd (Datetime.strftime_Ymd zero_pad_year dt)
  = Some (Datetime.date_of dt).
Proof.
  destruct dt as [y m d hh mi ss]. unfold Datetime.date_of.
  cbn [Datetime.year Datetime.month Datetime.day]. intros Hvalid Hyear.
  pose proof (valid_date_ranges y m d Hvalid) as (Hy & Hm & Hd).
  unfold Datetime.strftime_Ymd. cbn [Datetime.year Datetime.month Datetime.day].
  assert (Hprefix : (if zero_pad_year then Datetime.four_digits y
                     else Py.str_of_Z y) = Datetime.four_digits y).
  { destruct zero_pad_year; [reflexivity|].
    destruct Hyear as [Hpad|Hlong]; [discriminate|].
    apply long_year_is_four_digits. lia. }
  rewrite Hprefix.
  destruct (month_and_day_read_back m d Hm Hd) as (tm & td & Hsplit & Htm & Htd).
  change (Datetime.strptime_Ymd
            (Datetime.four_digits y ++ "-" ++ Datetime.two_digits m ++ "-"
             ++ Datetime.two_digits d))
    with (match Py.partition_at "-"
                  (Datetime.two_digits m ++ "-" ++ Datetime.two_digits d) with
          | Some (tm, td) =>
              match Datetime.tok_Y (Datetime.digit_char (y / 1000))
                      (Datetime.digit_char ((y / 100) mod 10))
                      (Datetime.digit_char ((y mod 100) / 10))
                      (Datetime.digit_char ((y mod 100) mod 10)),
                    Datetime.tok_m tm, Datetime.tok_d td with
              | Some y, Some m, Some d =>
                  if Datetime.valid_date (y, m, d) then Some (y, m, d) else None
              | _, _, _ => None
              end
          | None => None
          end).
  rewrite Hsplit, Htm, Htd, year_reads_back by lia. now rewrite Hvalid.
Qed.

Lemma bucket_of_real_timestamp (entry : string * node) :
  _parse_device_datetime (snd entry) <> Datetime.min ->
  date_key_of zero_pad_year (snd entry)
  = (Datetime.strftime_Ymd zero_pad_year (_parse_device_datetime (snd entry)),
     _parse_device_datetime (snd entry)).
Proof.
  intros Hreal. unfold date_key_of. destruct (snd entry) as [x|z|d].
  - now contradiction Hreal.
  - now contradiction Hreal.
  - destruct (Datetime.eqb _ _) eqn:E; [|reflexivity].
    apply datetime_eqb_eq in E. contradiction.
Qed.

Lemma sort_key_of_real_timestamp (entry : string * node) :
  _parse_device_datetime (snd entry) <> Datetime.min ->
  zero_pad_year = true
  \/ (1000 <= Datetime.year (_parse_device_datetime (snd entry)))%Z ->
  _date_sort_key (bucket entry)
  = (Datetime.date_of (_parse_device_datetime (snd entry)), 0%Z).
Proof.
  intros Hreal Hyear. unfold bucket_of.
  rewrite (bucket_of_real_timestamp entry Hreal). cbn [fst].
  pose proof (date_key_reads_back _ (parsed_timestamp_is_valid (snd entry))
                Hyear) as Hback.
  unfold _date_sort_key. rewrite Hback.
  destruct (String.eqb_spec
              (Datetime.strftime_Ymd zero_pad_year
                 (_parse_device_datetime (snd entry))) "unknown") as [E|_];
    [|reflexivity].
  rewrite E in Hback. discriminate Hback.
Qed.

(** X10: a device with a timestamp [strptime] accepts, other than the
    minimum timestamp, goes to the bucket named by [strftime] of that
    timestamp, and where the platform prints the year in four digits that
    name reads back as the date of the timestamp: the sort key of the
    bucket is that date with the flag 0. *)
Theorem bucket_sort_key_is_the_date
  (device_data : node) (date_key : string) (dt : Datetime.datetime) :
  date_key_of zero_pad_year device_data = (date_key, dt) ->
  dt <> Datetime.min ->
  zero_pad_year = true \/ (1000 <= Datetime.year dt)%Z ->
  dt = _parse_device_datetime device_data
  /\ date_key = Datetime.strftime_Ymd zero_pad_year dt
  /\ Datetime.strptime_Ymd date_key = Some (Datetime.date_of dt)
  /\ _date_sort_key date_key = (Datetime.date_of dt, 0%Z).
Proof.
  intros Hkey Hreal Hyear.
  assert (Hdt : dt = _parse_device_datetime device_data).
  { unfold date_key_of in Hkey. destruct device_data as [x|z|d].
    - injection Hkey as _ <-. now contradiction Hreal.
    - injection Hkey as _ <-. now contradiction Hreal.
    - destruct (Datetime.eqb _ _); now injection Hkey as _ <-. }
  subst dt.
  pose proof (bucket_of_real_timestamp ("", device_data) Hreal) as Hname.
  cbn [snd] in Hname. rewrite Hname in Hkey. injection Hkey as <-.
  split; [reflexivity|]. split; [reflexivity|]. split.
  - apply date_key_reads_back; [apply parsed_timestamp_is_valid|exact Hyear].
  - pose proof (sort_key_of_real_timestamp ("", device_data) Hreal Hyear)
      as Hsort.
    unfold bucket_of in Hsort. cbn [snd] in Hsort.
    rewrite Hname in Hsort. exact Hsort.
Qed.

Lemma same_date_same_key (ta tb : Datetime.datetime) :
  Datetime.date_of ta = Datetime.date_of tb ->
  Datetime.strftime_Ymd zero_pad_year ta
  = Datetime.strftime_Ymd zero_pad_year tb.
Proof.
  unfold Datetime.date_of, Datetime.strftime_Ymd. intros H.
  injection H as -> -> ->. reflexivity.
Qed.

Lemma sorted_dates_distinct (entries : dict) :
  NoDup (sorted_dates_of (group_devices zero_pad_year entries)).
Proof.
  unfold sorted_dates_of.
  eapply Permutation_NoDup;
    [symmetry; apply sorted_reverse_permutation|].
  apply (grouping_facts zero_pad_year entries).
Qed.

(** X11: in the list of buckets the screen pages through, two devices with
    accepted timestamps have their buckets at the same place exactly when
    the timestamps fall on the same day, and the bucket of the later day
    comes first, where the platform prints the years in four digits. *)
Theorem buckets_run_from_newest_to_oldest
  (entries : dict) (a b : string * node) (i j : nat) :
  let sorted_dates := sorted_dates_of (group_devices zero_pad_year entries) in
  let ta := _parse_device_datetime (snd a) in
  let tb := _parse_device_datetime (snd b) in
  ta <> Datetime.min -> tb <> Datetime.min ->
  zero_pad_year = true
  \/ (1000 <= Datetime.year ta /\ 1000 <= Datetime.year tb)%Z ->
  nth_error sorted_dates i = Some (bucket a) ->
  nth_error sorted_dates j = Some (bucket b) ->
  (i = j <-> Datetime.date_of ta = Datetime.date_of tb)
  /\ (i < j
      <-> Datetime.date_leb (Datetime.date_of ta) (Datetime.date_of tb)
          = false).
Proof.
  intros sorted_dates ta tb Ha Hb Hyear Hi Hj.
  assert (Hya : zero_pad_year = true \/ (1000 <= Datetime.year ta)%Z)
    by (destruct Hyear as [?|[? ?]]; [now left|now right]).
  assert (Hyb : zero_pad_year = true \/ (1000 <= Datetime.year tb)%Z)
    by (destruct Hyear as [?|[? ?]]; [now left|now right]).
  pose proof (sort_key_of_real_timestamp a Ha Hya) as Hka.
  pose proof (sort_key_of_real_timestamp b Hb Hyb) as Hkb.
  fold ta in Hka. fold tb in Hkb.
  assert (Hsame : i = j <-> Datetime.date_of ta = Datetime.date_of tb).
  { split.
    - intros <-. rewrite Hi in Hj. injection Hj as Hj.
      rewrite Hj, Hkb in Hka. apply (f_equal fst) in Hka.
      cbn [fst] in Hka. symmetry. exact Hka.
    - intros Hdate.
      assert (Hkey : bucket a = bucket b).
      { unfold bucket_of.
        rewrite (bucket_of_real_timestamp a Ha), (bucket_of_real_timestamp b Hb).
        cbn [fst]. now apply same_date_same_key. }
      rewrite <- Hkey, <- Hi in Hj.
      apply (proj1 (NoDup_nth_error sorted_dates)
               (sorted_dates_distinct entries));
        [|now symmetry].
      apply nth_error_Some. rewrite Hi. discriminate. }
  split; [exact Hsame|]. split.
  - intros Hlt.
    pose proof (sorted_dates_descending _ i j _ _ Hlt Hi Hj) as Hle.
    rewrite Hka, Hkb, sort_key_leb_of_dates in Hle.
    destruct (Datetime.date_leb (Datetime.date_of ta) (Datetime.date_of tb))
      eqn:Hab; [|reflexivity].
    pose proof (date_leb_antisym _ _ Hab Hle) as E.
    apply Hsame in E. lia.
  - intros Hab.
    destruct (Nat.lt_trichotomy i j) as [Hlt|[Heq|Hgt]]; [exact Hlt| |].
    + apply Hsame in Heq. rewrite Heq, date_leb_refl in Hab. discriminate.
    + pose proof (sorted_dates_descending _ j i _ _ Hgt Hj Hi) as Hle.
      rewrite Hka, Hkb, sort_key_leb_of_dates in Hle. congruence.
Qed.

End DateKeys.

(** ** Where the device screens fail *)

Section Screens.

Variable owner_id : Z.
Variable repr_dict : dict -> string.
Variable zero_pad_year : bool.

(** [x or {}] is a scalar only when [x] is one that counts as true. *)
Lemma or_else_scalar_is_truthy (x : option node) :
  match Py.or_else x (NDict []) with
  | NDict _ => True
  | scalar => Py.truthy scalar = true
  end.
Proof.
  unfold Py.or_else. destruct x as [n|]; [|exact I].
  destruct (Py.truthy n) eqn:E; [|exact I].
  destruct n; [exact E|exact E|exact I].
Qed.

Lemma perangkat_scalar_is_truthy (app_data : node) :
  match perangkat_of app_data with
  | NDict _ => True
  | scalar => Py.truthy scalar = true
  end.
Proof.
  unfold perangkat_of. destruct app_data as [x|z|d]; try exact I.
  apply or_else_scalar_is_truthy.
Qed.

(** With a mapping under [perangkat] the devices screen is drawn whatever
    bucket is asked for. *)
Lemma devices_view_returns
  (firebase_client : Store.store) (app_key selected_date : string)
  (entries : dict) :
  perangkat_of
    (Py.or_else (Store.get_value app_key firebase_client) (NDict []))
  = NDict entries ->
  exists screen,
    devices_view repr_dict zero_pad_year firebase_client app_key selected_date
    = Done screen.
Proof.
  intros Hdev. unfold devices_view. rewrite Hdev.
  destruct entries as [|entry rest] eqn:Hentries; [now eexists|].
  rewrite <- Hentries. cbn [Py.truthy negb items_of].
  replace (match entries with [] => false | _ :: _ => true end) with true
    by now rewrite Hentries.
  cbn [negb]. cbv zeta.
  set (date_groups := group_devices zero_pad_year entries).
  set (sorted_dates := sorted_dates_of date_groups).
  assert (Hkeys : forall k, In k sorted_dates <-> In k (map fst date_groups))
    by (intros k; apply sorted_reverse_in).
  assert (Hchosen : exists selected,
    (if String.eqb selected_date ""
        || negb (Py.mem selected_date (map fst date_groups))
     then nth_error sorted_dates 0 else Some selected_date) = Some selected
    /\ In selected sorted_dates).
  { destruct (String.eqb selected_date ""
              || negb (Py.mem selected_date (map fst date_groups))) eqn:Hsel.
    - assert (Hg : date_groups <> []).
      { apply group_devices_not_nil. rewrite Hentries. discriminate. }
      destruct date_groups as [|[k items] others] eqn:Eg; [congruence|].
      assert (Hin : In k sorted_dates) by (apply Hkeys; now left).
      destruct sorted_dates as [|first l]; [destruct Hin|].
      exists first. split; [reflexivity|now left].
    - apply orb_false_iff in Hsel as [_ Hmem].
      apply negb_false_iff, mem_In in Hmem.
      exists selected_date. split; [reflexivity|now apply Hkeys]. }
  destruct Hchosen as (selected & -> & Hin).
  destruct (group_of_key selected date_groups (proj1 (Hkeys selected) Hin))
    as [group ->].
  destruct (index_of_In selected sorted_dates Hin) as (idx & -> & _).
  now eexists.
Qed.

(** X12: missing data never makes a device screen fail, a scalar in the
    place of a mapping does.  With no [perangkat] or a mapping there, the
    devices screen is always drawn, and the detail screen of a device is
    the "not found" screen when the device is absent or empty and the
    device's own screen when it is a mapping; a string or number stored as
    the device, or as [perangkat] itself, ends either screen with an
    [AttributeError]. *)
Theorem device_screens_fail_only_on_scalars
  (firebase_client : Store.store) (app_key device_id selected_date : string) :
  let devices_screen :=
    devices_view repr_dict zero_pad_year firebase_client app_key
      selected_date in
  let device_screen :=
    _build_device_detail_view repr_dict firebase_client app_key device_id in
  match
    perangkat_of
      (Py.or_else (Store.get_value app_key firebase_client) (NDict []))
  with
  | NDict devices =>
      (exists screen, devices_screen = Done screen)
      /\ match Py.or_else (Py.lookup device_id devices) (NDict []) with
         | NDict [] =>
             device_screen
             = Done ("Data perangkat '" ++ device_id ++ "' untuk aplikasi '"
                     ++ app_key ++ "' tidak ditemukan.",
                     detail_keyboard app_key device_id "off" "-")
         | NDict (_ :: _) =>
             exists text suara_label flash_label,
               device_screen
               = Done (text,
                       detail_keyboard app_key device_id suara_label
                         flash_label)
         | _ => device_screen = Raised PyAttributeError
         end
  | _ =>
      devices_screen = Raised PyAttributeError
      /\ device_screen = Raised PyAttributeError
  end.
Proof.
  intros devices_screen device_screen.
  pose proof (perangkat_scalar_is_truthy
                (Py.or_else (Store.get_value app_key firebase_client)
                   (NDict []))) as Htruthy.
  destruct (perangkat_of _) as [x|z|devices] eqn:Hper.
  - subst devices_screen device_screen.
    unfold devices_view, _build_device_detail_view.
    rewrite Hper, Htruthy. split; reflexivity.
  - subst devices_screen device_screen.
    unfold devices_view, _build_device_detail_view.
    rewrite Hper, Htruthy. split; reflexivity.
  - split; [now apply devices_view_returns with (entries := devices)|].
    subst device_screen. unfold _build_device_detail_view.
    rewrite Hper. cbn [get_attr]. cbv zeta.
    pose proof (or_else_scalar_is_truthy (Py.lookup device_id devices))
      as Hdevice.
    destruct (Py.or_else (Py.lookup device_id devices) (NDict []))
      as [x|z|[|field fields]].
    + now rewrite Hdevice.
    + now rewrite Hdevice.
    + reflexivity.
    + cbn [Py.truthy negb]. now do 3 eexists.
Qed.

(** X15: the button of the flat listing never shows it.  Pressed by the
    owner, on every store and whatever is pending, [dashboard_list] is
    answered, but its branch binds no [keyboard]: the handler ends with an
    [UnboundLocalError] before anything is shown, and the store and the
    pending edits stay as they are.  [/list] on the same store does send
    its listing. *)
Theorem list_button_always_fails (w : world) :
  dashboard_callback owner_id repr_dict zero_pad_year (Some owner_id)
    "dashboard_list" w
  = (Raised PyUnboundLocalError,
     World (db w) (user_data w) (log w ++ [Answer]))
  /\ list_command owner_id repr_dict (Some owner_id) w
     = (Done tt,
        World (db w) (user_data w)
          (log w
           ++ [ReplyText
                 match db w with
                 | [] => "Tidak ada data di Firebase"
                 | _ :: _ => Py.join Py.nl (list_lines repr_dict (db w))
                 end
                 None])).
Proof.
  destruct w as [d ud lg]. cbn [db user_data log]. split.
  - rewrite (callback_of_allowed owner_id repr_dict zero_pad_year
               (Some owner_id) "dashboard_list" (World d ud lg)
               (owner_is_owner owner_id)).
    cbn [db user_data log].
    change (dispatch repr_dict zero_pad_year "dashboard_list" d)
      with (branch_list repr_dict d).
    destruct d; reflexivity.
  - unfold list_command. rewrite (owner_is_owner owner_id). run_monad.
    unfold Store.list_keys. destruct d; reflexivity.
Qed.

End Screens.

(** ** The configuration *)

Lemma env_get_app (k k' v' : string) (env : Env.environ) :
  Env.get k (env ++ [(k', v')])%list
  = match Env.get k env with
    | Some v => Some v
    | None => if String.eqb k' k then Some v' else None
    end.
Proof.
  induction env as [|[k0 v0] env IH]; cbn [Env.get List.app]; [reflexivity|].
  destruct (String.eqb k0 k); [reflexivity|exact IH].
Qed.

(** What one line of the file leaves of a name. *)
Lemma load_line_get (line k : string) (env env' : Env.environ) :
  Env.load_line line env = Some env' ->
  Env.get k env'
  = match Env.get k env with
    | Some v => Some v
    | None =>
        if String.eqb k "" then None
        else match Env.parse_line line with
             | Some (key, value) => if String.eqb key k then Some value else None
             | None => None
             end
    end.
Proof.
  unfold Env.load_line.
  destruct (Env.parse_line line) as [[key value]|].
  - destruct (negb (String.eqb key "") && negb (Env.contains key env)) eqn:Hnew.
    + unfold Env.setitem.
      destruct (Py.no_char _ key && Py.no_char _ value); [|discriminate].
      intros H. injection H as <-. rewrite env_get_app.
      destruct (Env.get k env); [reflexivity|].
      apply andb_true_iff in Hnew as [Hkey _]. apply negb_true_iff in Hkey.
      destruct (String.eqb_spec k "") as [->|_]; [|reflexivity].
      now rewrite Hkey.
    + intros H. injection H as <-.
      destruct (Env.get k env) eqn:Hk; [reflexivity|].
      destruct (String.eqb_spec k "") as [->|Hne]; [reflexivity|].
      destruct (String.eqb_spec key k) as [->|_]; [|reflexivity].
      unfold Env.contains in Hnew. rewrite Hk in Hnew.
      rewrite (eqb_empty_false k Hne) in Hnew. discriminate Hnew.
  - intros H. injection H as <-.
    destruct (Env.get k env); [reflexivity|].
    now destruct (String.eqb k "").
Qed.

Lemma load_lines_get (lines : list string) (k : string)
  (env env' : Env.environ) :
  Env.load_lines lines env = (true, env') ->
  Env.get k env'
  = match Env.get k env with
    | Some v => Some v
    | None => if String.eqb k "" then None else Env.assigned k lines
    end.
Proof.
  revert env. induction lines as [|line rest IH]; intros env;
    cbn [Env.load_lines Env.assigned].
  - intros H. injection H as <-. destruct (Env.get k env); [reflexivity|].
    now destruct (String.eqb k "").
  - destruct (Env.load_line line env) as [env1|] eqn:Hline; [|discriminate].
    intros Hrest. rewrite (IH env1 Hrest), (load_line_get line k env env1 Hline).
    destruct (Env.get k env); [reflexivity|].
    destruct (String.eqb k ""); [reflexivity|].
    destruct (Env.parse_line line) as [[key value]|]; [|reflexivity].
    destruct (String.eqb key k); reflexivity.
Qed.

Lemma load_line_keeps (line k v : string) (env env' : Env.environ) :
  Env.load_line line env = Some env' ->
  Env.get k env = Some v -> Env.get k env' = Some v.
Proof.
  intros Hline Hk. rewrite (load_line_get line k env env' Hline).
  now rewrite Hk.
Qed.

Lemma load_lines_keeps (lines : list string) (k v : string) (ok : bool)
  (env env' : Env.environ) :
  Env.load_lines lines env = (ok, env') ->
  Env.get k env = Some v -> Env.get k env' = Some v.
Proof.
  revert env. induction lines as [|line rest IH]; intros env;
    cbn [Env.load_lines].
  - intros H Hk. now injection H as <- <-.
  - destruct (Env.load_line line env) as [env1|] eqn:Hline.
    + intros Hrest Hk. apply (IH env1 Hrest).
      exact (load_line_keeps line k v env env1 Hline Hk).
    + intros H Hk. now injection H as <- <-.
Qed.

Lemma load_lines_again (lines : list string) (env : Env.environ) :
  (forall line key value,
      In line lines -> Env.parse_line line = Some (key, value) ->
      key <> "" -> Env.contains key env = true) ->
  Env.load_lines lines env = (true, env).
Proof.
  induction lines as [|line rest IH]; intros Hall; [reflexivity|].
  cbn [Env.load_lines]. unfold Env.load_line.
  destruct (Env.parse_line line) as [[key value]|] eqn:Hparse.
  - destruct (String.eqb_spec key "") as [->|Hne]; cbn [negb andb].
    + apply IH. intros l k v Hin. apply Hall. now right.
    + rewrite (Hall line key value (or_introl eq_refl) Hparse Hne).
      cbn [negb]. apply IH. intros l k v Hin. apply Hall. now right.
  - apply IH. intros l k v Hin. apply Hall. now right.
Qed.

Lemma assigned_of_line (lines : list string) (line key value : string) :
  In line lines -> Env.parse_line line = Some (key, value) ->
  Env.assigned key lines <> None.
Proof.
  induction lines as [|l rest IH]; [intros []|].
  cbn [Env.assigned]. intros [->|Hin] Hparse.
  - rewrite Hparse, String.eqb_refl. discriminate.
  - destruct (Env.parse_line l) as [[k v]|]; [|now apply IH].
    destruct (String.eqb k key); [discriminate|now apply IH].
Qed.

(** X13: the [.env] file only fills gaps.  A variable the environment has
    keeps its value whatever the file says, also when loading fails half
    way; a variable it lacks gets the value of the first line of the file
    that assigns it; and loading the same file once more changes
    nothing. *)
Theorem env_file_only_fills_gaps
  (file : option (list string)) (env : Env.environ) :
  let loaded := Env._load_env_file file env in
  (forall name value,
      Env.get name env = Some value ->
      Env.get name (snd loaded) = Some value)
  /\ (fst loaded = true ->
      (forall name,
          Env.get name env = None ->
          Env.get name (snd loaded)
          = if String.eqb name "" then None
            else match file with
                 | Some lines => Env.assigned name lines
                 | None => None
                 end)
      /\ Env._load_env_file file (snd loaded) = (true, snd loaded)).
Proof.
  intros loaded. subst loaded. destruct file as [lines|]; cbn [Env._load_env_file].
  - destruct (Env.load_lines lines env) as [ok env'] eqn:Hload. cbn [fst snd].
    split.
    + intros name value. exact (load_lines_keeps lines name value ok env env' Hload).
    + intros ->. split.
      * intros name Hname. rewrite (load_lines_get lines name env env' Hload).
        now rewrite Hname.
      * apply load_lines_again. intros line key value Hin Hparse Hne.
        unfold Env.contains.
        rewrite (load_lines_get lines key env env' Hload).
        destruct (Env.get key env); [reflexivity|].
        rewrite (eqb_empty_false key Hne).
        pose proof (assigned_of_line lines line key value Hin Hparse) as Hsome.
        destruct (Env.assigned key lines); [reflexivity|congruence].
  - cbn [fst snd]. split; [auto|]. intros _. split; [|reflexivity].
    intros name ->. now destruct (String.eqb name "").
Qed.

Section Startup.

(** [int], as in [Env.from_env]. *)
Variable int : string -> option Z.

Lemma from_env_environment (file : option (list string)) (env : Env.environ) :
  snd (Env.from_env int file env) = snd (Env._load_env_file file env).
Proof.
  unfold Env.from_env.
  destruct (Env._load_env_file file env) as [[|] env']; [|reflexivity].
  destruct (Env.missing_names env'); [|reflexivity].
  destruct (int _); reflexivity.
Qed.

Lemma set_names_are_not_missing (env : Env.environ) :
  Env.missing_names env = [] ->
  forall name,
    In name ["TELEGRAM_BOT_TOKEN"; "FIREBASE_CREDENTIALS_PATH";
             "FIREBASE_DATABASE_URL"; "TELEGRAM_OWNER_ID"] ->
    Env.unset (Env.get name env) = false.
Proof.
  unfold Env.missing_names. cbn [map List.concat].
  destruct (Env.unset (Env.get "TELEGRAM_BOT_TOKEN" env)) eqn:H1;
    [discriminate|].
  destruct (Env.unset (Env.get "FIREBASE_CREDENTIALS_PATH" env)) eqn:H2;
    [discriminate|].
  destruct (Env.unset (Env.get "FIREBASE_DATABASE_URL" env)) eqn:H3;
    [discriminate|].
  destruct (Env.unset (Env.get "TELEGRAM_OWNER_ID" env)) eqn:H4;
    [discriminate|].
  intros _ name [<-|[<-|[<-|[<-|[]]]]]; assumption.
Qed.

Lemma set_value_of (x : option string) :
  Env.unset x = false -> x = Some (Env.value_of x) /\ Env.value_of x <> "".
Proof.
  destruct x as [v|]; [|discriminate]. cbn [Env.unset Env.value_of].
  intros H. split; [reflexivity|]. now apply String.eqb_neq.
Qed.

(** X14: [Settings.from_env] takes the four variables from the environment
    as the [.env] file has completed it.  When it returns settings, the
    token, the credentials path and the database URL are the non-empty
    values found there and the owner id is [int] of the non-empty value of
    [TELEGRAM_OWNER_ID]; a variable that was already set keeps its value
    against the file; and a variable set to the empty string is not
    filled from the file, so that no settings are returned. *)
Theorem settings_come_from_the_environment_first
  (file : option (list string)) (env : Env.environ) :
  let result := Env.from_env int file env in
  let names :=
    ["TELEGRAM_BOT_TOKEN"; "FIREBASE_CREDENTIALS_PATH";
     "FIREBASE_DATABASE_URL"; "TELEGRAM_OWNER_ID"] in
  (forall settings,
      fst result = inl settings ->
      Env.telegram_token settings <> ""
      /\ Env.firebase_credentials_path settings <> ""
      /\ Env.firebase_database_url settings <> ""
      /\ Env.get "TELEGRAM_BOT_TOKEN" (snd result)
         = Some (Env.telegram_token settings)
      /\ Env.get "FIREBASE_CREDENTIALS_PATH" (snd result)
         = Some (Env.firebase_credentials_path settings)
      /\ Env.get "FIREBASE_DATABASE_URL" (snd result)
         = Some (Env.firebase_database_url settings)
      /\ exists owner_raw,
           Env.get "TELEGRAM_OWNER_ID" (snd result) = Some owner_raw
           /\ owner_raw <> ""
           /\ int owner_raw = Some (Env.telegram_owner_id settings))
  /\ (forall name value,
         Env.get name env = Some value ->
         Env.get name (snd result) = Some value)
  /\ (forall name settings,
         In name names -> Env.get name env = Some "" ->
         fst result <> inl settings)
  /\ (forall message,
         fst result = inr (Env.RuntimeError message) ->
         Env.missing_names (snd result) <> []
         /\ message
            = "Missing environment variables: "
              ++ Py.join ", " (Env.missing_names (snd result))).
Proof.
  intros result names.
  assert (Hkeeps : forall name value,
             Env.get name env = Some value ->
             Env.get name (snd result) = Some value).
  { intros name value Hname. subst result. rewrite from_env_environment.
    destruct file as [lines|]; cbn [Env._load_env_file]; [|exact Hname].
    destruct (Env.load_lines lines env) as [ok env'] eqn:Hload.
    exact (load_lines_keeps lines name value ok env env' Hload Hname). }
  assert (Hresult :
    match fst result with
    | inl settings =>
        Env.missing_names (snd result) = []
        /\ Env.telegram_token settings
           = Env.value_of (Env.get "TELEGRAM_BOT_TOKEN" (snd result))
        /\ Env.firebase_credentials_path settings
           = Env.value_of (Env.get "FIREBASE_CREDENTIALS_PATH" (snd result))
        /\ Env.firebase_database_url settings
           = Env.value_of (Env.get "FIREBASE_DATABASE_URL" (snd result))
        /\ int (Env.value_of (Env.get "TELEGRAM_OWNER_ID" (snd result)))
           = Some (Env.telegram_owner_id settings)
    | inr (Env.RuntimeError message) =>
        Env.missing_names (snd result) <> []
        /\ message
           = "Missing environment variables: "
             ++ Py.join ", " (Env.missing_names (snd result))
    | inr Env.ValueError => True
    end).
  { subst result. unfold Env.from_env.
    destruct (Env._load_env_file file env) as [[|] env']; [|exact I].
    destruct (Env.missing_names env') as [|name others] eqn:Hmissing.
    - destruct (int _) as [owner|] eqn:Hint; [|exact I].
      cbn [fst snd Env.telegram_token Env.firebase_credentials_path
           Env.firebase_database_url Env.telegram_owner_id].
      repeat split; assumption.
    - cbn [fst snd]. rewrite Hmissing. split; [discriminate|reflexivity]. }
  split; [|split; [exact Hkeeps|split]].
  - intros settings Hfst. rewrite Hfst in Hresult.
    destruct Hresult as (Hnone & -> & -> & -> & Hint).
    pose proof (set_names_are_not_missing _ Hnone) as Hset.
    destruct (set_value_of _ (Hset "TELEGRAM_BOT_TOKEN" ltac:(cbn; tauto)))
      as [Ht1 Ht2].
    destruct (set_value_of _
                (Hset "FIREBASE_CREDENTIALS_PATH" ltac:(cbn; tauto)))
      as [Hc1 Hc2].
    destruct (set_value_of _ (Hset "FIREBASE_DATABASE_URL" ltac:(cbn; tauto)))
      as [Hu1 Hu2].
    destruct (set_value_of _ (Hset "TELEGRAM_OWNER_ID" ltac:(cbn; tauto)))
      as [Ho1 Ho2].
    repeat (split; [assumption|]).
    eexists. split; [exact Ho1|]. split; assumption.
  - intros name settings Hin Hempty Hfst. rewrite Hfst in Hresult.
    destruct Hresult as (Hnone & _).
    pose proof (set_names_are_not_missing _ Hnone name Hin) as Hset.
    rewrite (Hkeeps name "" Hempty) in Hset. discriminate Hset.
  - intros message Hfst. rewrite Hfst in Hresult. exact Hresult.
Qed.

End Startup.

(** * The further properties at work on the sample data *)

(** The application button, pressed by the owner on the sample store. *)
Lemma navigation_changes_nothing_witness :
  let w' :=
    snd (dashboard_callback Sample.owner Sample.repr_dict true
           (Some Sample.owner) "dashboard_app:A1" Sample.idle) in
  Py.startswith "dashboard_app:A1" "dashboard_app_edit_desc:" = false
  /\ db w' = Sample.store
  /\ user_data w' = Pending None None
  /\ exists sent,
       log w' = Answer :: sent
       /\ forall key value, ~ In (SetValue key value) sent.
Proof.
  split; [reflexivity|].
  exact (navigation_changes_nothing Sample.owner Sample.repr_dict true
           (Some Sample.owner) "dashboard_app:A1" Sample.idle
           eq_refl eq_refl eq_refl eq_refl eq_refl).
Defined.

(** The description prompt of the sample application, cancelled and then
    answered. *)
Lemma cancel_keeps_the_edit_pending_witness :
  let press :=
    dashboard_callback Sample.owner Sample.repr_dict true (Some Sample.owner) in
  let w1 := snd (press "dashboard_app_edit_desc:A1" Sample.idle) in
  let w2 := snd (press "dashboard_app:A1" w1) in
  let w3 :=
    snd (device_message_handler Sample.owner Sample.repr_dict
           (Some Sample.owner) "baru" w2) in
  user_data w2 = Pending None (Some (AppTarget "A1" "keterangan"))
  /\ db w2 = Sample.store
  /\ db w3 = Store.set_value "A1/keterangan" (NStr "baru") Sample.store
  /\ user_data w3 = Pending None None.
Proof.
  destruct (cancel_keeps_the_edit_pending Sample.owner Sample.repr_dict true
              Sample.idle "A1" "baru")
    as (_ & Hpending & Hstore & Hwritten & Hidle);
    [discriminate|reflexivity|].
  split; [exact Hpending|]. split; [exact Hstore|].
  split; [exact Hwritten|exact Hidle].
Defined.

(** [/set greeting Halo dunia], then [/get greeting]. *)
Lemma get_shows_what_set_stored_witness :
  let w1 :=
    snd (set_command Sample.owner (Some Sample.owner)
           ["greeting"; "Halo"; "dunia"] Sample.idle) in
  accepted_key "greeting" = true
  /\ Store.parse_path "greeting" = ["greeting"]
  /\ get_command Sample.owner Sample.repr_dict (Some Sample.owner)
       ["greeting"] w1
     = (Done tt,
        World (Sample.store ++ [("greeting", NStr "Halo dunia")])%list
          (Pending None None)
          [SetValue "greeting" (NStr "Halo dunia");
           ReplyText "Data disimpan: greeting = Halo dunia" None;
           ReplyText "greeting = Halo dunia" None]).
Proof.
  split; [reflexivity|]. split; [reflexivity|].
  apply (get_shows_what_set_stored Sample.owner Sample.repr_dict Sample.idle
           "greeting" "Halo" ["dunia"]).
  - reflexivity.
  - discriminate.
Defined.

(** [/delete A1/keterangan], then [/get A1/keterangan]. *)
Lemma get_finds_nothing_after_delete_witness :
  let deleted :=
    delete_command Sample.owner (Some Sample.owner) ["A1/keterangan"]
      Sample.idle in
  accepted_key "A1/keterangan" = true
  /\ Store.get_value "A1/keterangan" Sample.store = Some (NStr "demo")
  /\ db (snd deleted)
     = [ ("aplikasi", NDict [("a", NStr "A1")]);
         ("A1", NDict [("perangkat", NDict Sample.devices)]) ]
  /\ get_command Sample.owner Sample.repr_dict (Some Sample.owner)
       ["A1/keterangan"] (snd deleted)
     = (Done tt,
        World (db (snd deleted)) (Pending None None)
          [ReplyText "Data dengan key 'A1/keterangan' dihapus" None;
           ReplyText "Data dengan key 'A1/keterangan' tidak ditemukan" None]).
Proof.
  split; [reflexivity|]. split; [reflexivity|]. split; [reflexivity|].
  destruct (get_finds_nothing_after_delete Sample.owner Sample.repr_dict
              Sample.idle "A1/keterangan")
    as (_ & _ & Hget); [reflexivity|discriminate|].
  exact Hget.
Defined.

(** The bucket of the first of June in the sample application: two devices,
    the one of ten o'clock before the one of nine. *)
Lemma bucket_screen_lists_its_devices_newest_first_witness :
  map (bucket_of true) Sample.devices
  = ["2024-06-01"; "2024-06-01"; "2024-06-02"; "unknown"]
  /\ exists text rows idx,
       devices_view Sample.repr_dict true Sample.store "A1" "2024-06-01"
       = Done
           (text,
            (map (device_button Sample.repr_dict "A1") rows
             ++ row_if_any
                  (pagination_row "A1" ["2024-06-02"; "2024-06-01"; "unknown"]
                     idx)
             ++ back_to_app_rows "A1")%list)
       /\ Permutation rows (map (item_of true) (firstn 2 Sample.devices))
       /\ StronglySorted
            (fun earlier later => Datetime.leb (snd later) (snd earlier) = true)
            rows.
Proof.
  split; [reflexivity|].
  destruct (bucket_screen_lists_its_devices_newest_first Sample.repr_dict true
              Sample.store "A1" "2024-06-01" Sample.devices eq_refl)
    as (text & rows & idx & Hview & _ & Hperm & Hsorted & _).
  - right. left. reflexivity.
  - exists text, rows, idx.
    split; [exact Hview|]. split; [exact Hperm|exact Hsorted].
Defined.

(** A device of the first of June 2024, on a platform that prints years
    as bare numbers. *)
Lemma bucket_sort_key_is_the_date_witness :
  let device_data := NDict [("waktu", NStr "01/06/2024 10:00:00")] in
  date_key_of false device_data
  = ("2024-06-01", Datetime.mk 2024 6 1 10 0 0)
  /\ _date_sort_key "2024-06-01" = ((2024, 6, 1)%Z, 0%Z).
Proof.
  split; [reflexivity|].
  destruct (bucket_sort_key_is_the_date false
              (NDict [("waktu", NStr "01/06/2024 10:00:00")])
              "2024-06-01" (Datetime.mk 2024 6 1 10 0 0))
    as (_ & _ & _ & Hkey).
  - reflexivity.
  - discriminate.
  - right. apply Z.leb_le. reflexivity.
  - exact Hkey.
Defined.

(** The third and the first device of the sample application: the second
    of June comes before the first. *)
Lemma buckets_run_from_newest_to_oldest_witness :
  let sorted_dates := sorted_dates_of (group_devices true Sample.devices) in
  nth_error sorted_dates 0 = Some "2024-06-02"
  /\ nth_error sorted_dates 1 = Some "2024-06-01"
  /\ (0 < 1
      <-> Datetime.date_leb (2024, 6, 2)%Z (2024, 6, 1)%Z = false).
Proof.
  split; [reflexivity|]. split; [reflexivity|].
  destruct (buckets_run_from_newest_to_oldest true Sample.devices
              ("D3", NDict [("waktu", NStr "02/06/2024 08:30:00");
                            ("suara", NStr "on"); ("flash", NStr "kedip")])
              ("D1", NDict [("waktu", NStr "01/06/2024 10:00:00")])
              0 1)
    as [_ Horder].
  - discriminate.
  - discriminate.
  - left. reflexivity.
  - reflexivity.
  - reflexivity.
  - exact Horder.
Defined.
